(** * IecSerial: controller side of the Commodore IEC serial bus

    A shallow embedding of [iecserial.cpp] / [iecserial.h].

    The class drives five open-collector lines through the AVR port D
    registers and busy-polls the input register and the microsecond
    clock.  The embedding keeps the registers and the object's fields in
    one record and threads it through a state-and-failure monad:

    - [PORTD] and [DDRD] are the two 8-bit output registers;
    - [PIND] is the input register.  What it yields is decided by the
      other parties on the bus, so it is modelled as the list of values
      that successive reads return;
    - [micros] is, in the same way, the list of values that successive
      calls of [micros()] return;
    - a computation yields [None] when a polling loop is still waiting
      at the end of the recorded readings (a busy-wait that has not
      finished);
    - [log] is the history of line operations and busy delays, [sent] the
      history of bytes clocked out by [SendBits].  Both are observation
      fields: no code reads them. *)

From Stdlib Require Import ZArith List Bool Lia.
Import ListNotations.
Open Scope Z_scope.

(** ** Machine integers *)

(** [uint8_t] and the 32-bit [unsigned long] of the AVR tool chain. *)
Definition u8 (x : Z) : Z := x mod 256.
Definition u32 (x : Z) : Z := x mod 2 ^ 32.

(** ** Constants of [iecserial.h] *)

Definition CMD_LISTEN : Z := 0x20.
Definition CMD_TALK : Z := 0x40.
Definition CMD_UNTALK : Z := 0x5F.
Definition CMD_UNLISTEN : Z := 0x3F.
Definition CMD_SECONDARY : Z := 0x60.

Definition STATUS_OK : Z := 0.
Definition STATUS_TIMEOUT : Z := 1.
Definition STATUS_FRAMMING_ERROR : Z := 4.
Definition STATUS_NO_DEVICE : Z := 128.

Definition TIME_TAT : Z := 1000.
Definition TIME_TNE : Z := 40.
Definition TIME_TS : Z := 70.
Definition TIME_TV : Z := 20.
Definition TIME_TF : Z := 1000.
Definition TIME_TR : Z := 20.
Definition TIME_TBB : Z := 100.
Definition TIME_TYE : Z := 250.
Definition TIME_TEI : Z := 500.
Definition TIME_TRY : Z := 30.
Definition TIME_TTK : Z := 30.
Definition TIME_TDC : Z := 30.
Definition TIME_TDA : Z := 100.

(** ** State *)

(** What the controller does to the outside world. *)
Inductive line_op : Type :=
| OpAssert (pins : Z)
| OpRelease (pins : Z)
| OpDelay (us : Z).

Record state : Type := mkState {
  (* port D of the microcontroller *)
  PORTD : Z;
  DDRD : Z;
  PIND : list Z;
  micros : list Z;
  (* fields of the IecSerial object *)
  srqBit : Z;
  rstBit : Z;
  clkBit : Z;
  dioBit : Z;
  atnBit : Z;
  m_status : Z;
  (* observation *)
  log : list line_op;
  sent : list Z
}.

Definition set_PORTD (v : Z) (s : state) : state :=
  mkState v (DDRD s) (PIND s) (micros s) (srqBit s) (rstBit s) (clkBit s)
          (dioBit s) (atnBit s) (m_status s) (log s) (sent s).

Definition set_DDRD (v : Z) (s : state) : state :=
  mkState (PORTD s) v (PIND s) (micros s) (srqBit s) (rstBit s) (clkBit s)
          (dioBit s) (atnBit s) (m_status s) (log s) (sent s).

Definition set_PIND (v : list Z) (s : state) : state :=
  mkState (PORTD s) (DDRD s) v (micros s) (srqBit s) (rstBit s) (clkBit s)
          (dioBit s) (atnBit s) (m_status s) (log s) (sent s).

Definition set_micros (v : list Z) (s : state) : state :=
  mkState (PORTD s) (DDRD s) (PIND s) v (srqBit s) (rstBit s) (clkBit s)
          (dioBit s) (atnBit s) (m_status s) (log s) (sent s).

Definition set_status (v : Z) (s : state) : state :=
  mkState (PORTD s) (DDRD s) (PIND s) (micros s) (srqBit s) (rstBit s)
          (clkBit s) (dioBit s) (atnBit s) v (log s) (sent s).

Definition add_log (e : line_op) (s : state) : state :=
  mkState (PORTD s) (DDRD s) (PIND s) (micros s) (srqBit s) (rstBit s)
          (clkBit s) (dioBit s) (atnBit s) (m_status s) (log s ++ [e]) (sent s).

Definition add_sent (d : Z) (s : state) : state :=
  mkState (PORTD s) (DDRD s) (PIND s) (micros s) (srqBit s) (rstBit s)
          (clkBit s) (dioBit s) (atnBit s) (m_status s) (log s) (sent s ++ [d]).

(** ** The monad *)

Definition M (A : Type) : Type := state -> option (A * state).

Definition ret {A} (a : A) : M A := fun s => Some (a, s).

Definition bind {A B} (m : M A) (k : A -> M B) : M B :=
  fun s => match m s with
           | Some (a, s') => k a s'
           | None => None
           end.

Notation "x <- c1 ;; c2" := (bind c1 (fun x => c2))
  (at level 61, c1 at next level, right associativity).
Notation "c1 ;; c2" := (bind c1 (fun _ => c2))
  (at level 61, right associativity).

Definition get {A} (f : state -> A) : M A := fun s => Some (f s, s).
Definition modify (f : state -> state) : M unit := fun s => Some (tt, f s).

(** ** Hardware collaborators *)

(** One read of the input register. *)
Definition read_PIND : M Z := fun s =>
  match PIND s with
  | [] => None
  | p :: rest => Some (p, set_PIND rest s)
  end.

(** [micros()]: the clock is an [unsigned long]. *)
Definition read_micros : M Z := fun s =>
  match micros s with
  | [] => None
  | t :: rest => Some (u32 t, set_micros rest s)
  end.

Definition delayMicroseconds (us : Z) : M unit := modify (add_log (OpDelay us)).

(** ** Status queries *)

Definition Status : M Z := get m_status.
Definition isOk : M bool := get (fun s => m_status s =? STATUS_OK).

(** ** Line driver *)

(** [PORTD &= ~pins; DDRD |= pins]. *)
Definition Assert (pins : Z) : M unit :=
  modify (fun s => set_PORTD (u8 (Z.land (PORTD s) (Z.lnot pins))) s) ;;
  modify (fun s => set_DDRD (u8 (Z.lor (DDRD s) pins)) s) ;;
  modify (add_log (OpAssert pins)).

(** [DDRD &= ~pins; PORTD |= pins]. *)
Definition Release (pins : Z) : M unit :=
  modify (fun s => set_DDRD (u8 (Z.land (DDRD s) (Z.lnot pins))) s) ;;
  modify (fun s => set_PORTD (u8 (Z.lor (PORTD s) pins)) s) ;;
  modify (add_log (OpRelease pins)).

Definition all_lines (s : state) : Z :=
  Z.lor (Z.lor (Z.lor (Z.lor (srqBit s) (rstBit s)) (clkBit s)) (dioBit s))
        (atnBit s).

Definition ReleaseAll : M unit :=
  pins <- get all_lines ;; Release pins.

(** The two level tests on a value read from the input register. *)
Definition lines_low (pind pins : Z) : bool := Z.land pind pins =? 0.
Definition lines_high (pind pins : Z) : bool := negb (Z.land pind pins =? 0).

(** [(PIND & pins) == 0] *)
Definition isAsserted (pins : Z) : M bool :=
  p <- read_PIND ;; ret (lines_low p pins).

(** [(PIND & pins) != 0] *)
Definition isReleased (pins : Z) : M bool :=
  p <- read_PIND ;; ret (lines_high p pins).

(** ** Wait primitives *)

(** The loop of [WaitAssertionOrTimeout]: every turn reads the input
    register, and reads the clock when the lines are not yet asserted.
    The result is the timeout flag and the readings left. *)
Fixpoint WaitAssertionOrTimeout_loop (pins initialTime timeout : Z)
    (pind clock : list Z) : option (bool * (list Z * list Z)) :=
  match pind with
  | [] => None
  | p :: pind' =>
      if lines_high p pins then
        match clock with
        | [] => None
        | t :: clock' =>
            if u32 (u32 t - initialTime) >? timeout
            then Some (true, (pind', clock'))
            else WaitAssertionOrTimeout_loop pins initialTime timeout pind' clock'
        end
      else Some (false, (pind', clock))
  end.

(** The [while] loop on a state: a timeout also sets the status. *)
Definition WaitAssertionOrTimeout_while (pins initialTime timeout : Z) : M bool :=
  fun s =>
    match WaitAssertionOrTimeout_loop pins initialTime timeout
            (PIND s) (micros s) with
    | None => None
    | Some (true, (pind', clock')) =>
        Some (true,
              set_status STATUS_TIMEOUT (set_micros clock' (set_PIND pind' s)))
    | Some (false, (pind', clock')) =>
        Some (false, set_micros clock' (set_PIND pind' s))
    end.

Definition WaitAssertionOrTimeout (pins timeout : Z) : M bool :=
  initialTime <- read_micros ;;
  WaitAssertionOrTimeout_while pins initialTime timeout.

Fixpoint WaitReleaseOrTimeout_loop (pins initialTime timeout : Z)
    (pind clock : list Z) : option (bool * (list Z * list Z)) :=
  match pind with
  | [] => None
  | p :: pind' =>
      if lines_low p pins then
        match clock with
        | [] => None
        | t :: clock' =>
            if u32 (u32 t - initialTime) >? timeout
            then Some (true, (pind', clock'))
            else WaitReleaseOrTimeout_loop pins initialTime timeout pind' clock'
        end
      else Some (false, (pind', clock))
  end.

Definition WaitReleaseOrTimeout_while (pins initialTime timeout : Z) : M bool :=
  fun s =>
    match WaitReleaseOrTimeout_loop pins initialTime timeout
            (PIND s) (micros s) with
    | None => None
    | Some (true, (pind', clock')) =>
        Some (true,
              set_status STATUS_TIMEOUT (set_micros clock' (set_PIND pind' s)))
    | Some (false, (pind', clock')) =>
        Some (false, set_micros clock' (set_PIND pind' s))
    end.

Definition WaitReleaseOrTimeout (pins timeout : Z) : M bool :=
  initialTime <- read_micros ;;
  WaitReleaseOrTimeout_while pins initialTime timeout.

(** [while (isReleased(pins));] *)
Fixpoint WaitAssertion_loop (pins : Z) (pind : list Z) : option (list Z) :=
  match pind with
  | [] => None
  | p :: pind' =>
      if lines_high p pins then WaitAssertion_loop pins pind' else Some pind'
  end.

Definition WaitAssertion (pins : Z) : M unit := fun s =>
  match WaitAssertion_loop pins (PIND s) with
  | None => None
  | Some pind' => Some (tt, set_PIND pind' s)
  end.

(** [while (isAsserted(pins));] *)
Fixpoint WaitRelease_loop (pins : Z) (pind : list Z) : option (list Z) :=
  match pind with
  | [] => None
  | p :: pind' =>
      if lines_low p pins then WaitRelease_loop pins pind' else Some pind'
  end.

Definition WaitRelease (pins : Z) : M unit := fun s =>
  match WaitRelease_loop pins (PIND s) with
  | None => None
  | Some pind' => Some (tt, set_PIND pind' s)
  end.

(** ** Byte transmission and reception engines *)

(** The body of the [for] loop of [SendBits], [n] turns left. *)
Fixpoint SendBits_loop (n : nat) (data : Z) : M unit :=
  match n with
  | O => ret tt
  | S n' =>
      clk <- get clkBit ;;
      dio <- get dioBit ;;
      Assert clk ;;
      delayMicroseconds (TIME_TS / 2) ;;
      (if negb (Z.land data 1 =? 0) then Release dio else Assert dio) ;;
      let data := Z.shiftr data 1 in
      delayMicroseconds (TIME_TS / 2) ;;
      Release clk ;;
      delayMicroseconds TIME_TV ;;
      SendBits_loop n' data
  end.

Definition SendBits (data : Z) : M unit :=
  clk <- get clkBit ;;
  dio <- get dioBit ;;
  SendBits_loop 8 data ;;
  Release dio ;;
  Assert clk ;;
  modify (add_sent data).

(** The body of the [for] loop of [GetBits], [n] turns left. *)
Fixpoint GetBits_loop (n : nat) (data : Z) : M Z :=
  match n with
  | O => ret data
  | S n' =>
      clk <- get clkBit ;;
      dio <- get dioBit ;;
      let data := Z.shiftr data 1 in
      WaitAssertion clk ;;
      WaitRelease clk ;;
      high <- isReleased dio ;;
      let data := if high then u8 (Z.lor data 128) else data in
      GetBits_loop n' data
  end.

(** The reference parameter [data] is the result. *)
Definition GetBits : M Z := GetBits_loop 8 0.

(** ** Transaction engine *)

(** [Send(uint8_t data, bool eoi)] *)
Definition Send (data : Z) (eoi : bool) : M bool :=
  modify (set_status STATUS_OK) ;;
  clk <- get clkBit ;;
  dio <- get dioBit ;;
  Release clk ;;
  WaitRelease dio ;;
  (if eoi then
     WaitAssertionOrTimeout dio TIME_TYE ;;
     WaitReleaseOrTimeout dio TIME_TEI ;;
     delayMicroseconds TIME_TRY
   else
     delayMicroseconds TIME_TNE) ;;
  SendBits data ;;
  timeout <- WaitAssertionOrTimeout dio TIME_TF ;;
  (if timeout then modify (set_status STATUS_FRAMMING_ERROR) else ret tt) ;;
  delayMicroseconds TIME_TBB ;;
  isOk.

(** The [for] loop of [Send(const uint8_t data[], size_t length, bool eoi)]:
    [todo] turns are left, so the index is [length - todo].  A [size_t] is
    a [nat]; an element outside the list reads as 0. *)
Fixpoint Send_array_loop (data : list Z) (length : nat) (eoi : bool)
    (todo : nat) : M unit :=
  match todo with
  | O => ret tt
  | S todo' =>
      let i := (length - todo)%nat in
      let lasteoi := eoi && (i =? length - 1)%nat in
      ok <- Send (nth i data 0) lasteoi ;;
      if negb ok then ret tt else Send_array_loop data length eoi todo'
  end.

Definition Send_array (data : list Z) (length : nat) (eoi : bool) : M bool :=
  Send_array_loop data length eoi length ;;
  isOk.

(** [strlen]: the number of characters before the terminating zero. *)
Fixpoint strlen (str : list Z) : nat :=
  match str with
  | [] => O
  | c :: rest => if c =? 0 then O else S (strlen rest)
  end.

(** [Send(const char* str, bool eoi)] *)
Definition Send_str (str : list Z) (eoi : bool) : M bool :=
  let len := strlen str in
  Send_array str len eoi.

(** [Get(uint8_t data[], size_t maxlength)]: the buffer is returned beside
    the result. *)
Definition Get (data : list Z) (maxlength : nat) : M (bool * list Z) :=
  ok <- isOk ;; ret (ok, data).

(** [Get(char* str, size_t maxlength)] *)
Definition Get_str (str : list Z) (maxlength : nat) : M (bool * list Z) :=
  ok <- isOk ;; ret (ok, str).

(** [Command(uint8_t cmd)] *)
Definition Command (cmd : Z) : M bool :=
  modify (set_status STATUS_OK) ;;
  dio <- get dioBit ;;
  atn <- get atnBit ;;
  clk <- get clkBit ;;
  Release dio ;;
  Assert atn ;;
  Assert clk ;;
  timeout <- WaitAssertionOrTimeout dio TIME_TAT ;;
  if timeout then
    modify (set_status STATUS_NO_DEVICE) ;;
    ReleaseAll ;;
    ret false
  else
    Send cmd false ;;
    delayMicroseconds TIME_TR ;;
    Release atn ;;
    delayMicroseconds TIME_TTK ;;
    isOk.

(** [Command(uint8_t cmd[], size_t length)] *)
Definition Command_array (cmd : list Z) (length : nat) : M bool :=
  modify (set_status STATUS_OK) ;;
  dio <- get dioBit ;;
  atn <- get atnBit ;;
  clk <- get clkBit ;;
  Release dio ;;
  Assert atn ;;
  Assert clk ;;
  timeout <- WaitAssertionOrTimeout dio TIME_TAT ;;
  if timeout then
    modify (set_status STATUS_NO_DEVICE) ;;
    ReleaseAll ;;
    ret false
  else
    Send_array cmd length false ;;
    delayMicroseconds TIME_TR ;;
    Release atn ;;
    delayMicroseconds TIME_TTK ;;
    isOk.

Definition Turnaround : M bool :=
  clk <- get clkBit ;;
  dio <- get dioBit ;;
  delayMicroseconds TIME_TTK ;;
  Assert dio ;;
  Release clk ;;
  delayMicroseconds TIME_TDC ;;
  timeout <- WaitAssertionOrTimeout clk 1000 ;;
  if timeout then ret false
  else
    delayMicroseconds TIME_TDA ;;
    ret true.

(** [Talk(uint8_t pad)] *)
Definition Talk (pad : Z) : M bool :=
  ok <- Command (u8 (Z.lor CMD_TALK pad)) ;;
  if ok then Turnaround else ret false.

(** [Talk(uint8_t pad, uint8_t sad)] *)
Definition Talk_sad (pad sad : Z) : M bool :=
  let data := [u8 (Z.lor CMD_TALK pad); u8 (Z.lor CMD_SECONDARY sad)] in
  ok <- Command_array data 2 ;;
  if ok then Turnaround else ret false.

(** [Listen(uint8_t pad)] *)
Definition Listen (pad : Z) : M bool :=
  Command (u8 (Z.lor CMD_LISTEN pad)).

(** [Listen(uint8_t pad, uint8_t sad)] *)
Definition Listen_sad (pad sad : Z) : M bool :=
  let data := [u8 (Z.lor CMD_LISTEN pad); u8 (Z.lor CMD_SECONDARY sad)] in
  Command_array data 2.

Definition Untalk : M bool :=
  Command CMD_UNTALK ;;
  ReleaseAll ;;
  isOk.

Definition Unlisten : M bool :=
  Command CMD_UNLISTEN ;;
  ReleaseAll ;;
  isOk.

Definition Reset : M unit :=
  rst <- get rstBit ;;
  ReleaseAll ;;
  Assert rst ;;
  delayMicroseconds 1000 ;;
  Release rst.

(** The constructor: status, the five bit masks, then [ReleaseAll]. *)
Definition IecSerial (srqPin atnPin clkPin dioPin rstPin : Z) : M unit :=
  modify (fun s =>
    mkState (PORTD s) (DDRD s) (PIND s) (micros s)
            (u8 (Z.shiftl 1 srqPin)) (u8 (Z.shiftl 1 rstPin))
            (u8 (Z.shiftl 1 clkPin)) (u8 (Z.shiftl 1 dioPin))
            (u8 (Z.shiftl 1 atnPin)) STATUS_OK (log s) (sent s)) ;;
  ReleaseAll.

(** ** Register effect of a sequence of line operations *)

(** The registers as a pair [(PORTD, DDRD)]. *)
Definition op_regs (op : line_op) (regs : Z * Z) : Z * Z :=
  let (port, ddr) := regs in
  match op with
  | OpAssert pins =>
      (u8 (Z.land port (Z.lnot pins)), u8 (Z.lor ddr pins))
  | OpRelease pins =>
      (u8 (Z.lor port pins), u8 (Z.land ddr (Z.lnot pins)))
  | OpDelay _ => (port, ddr)
  end.

Definition regs_after (ops : list line_op) (regs : Z * Z) : Z * Z :=
  fold_left (fun r op => op_regs op r) ops regs.

(** The state reached from [s] after the line operations [ops], the
    transmission of [bytes], with the given status and the readings
    [pind] and [clock] still to come. *)
Definition update (s : state) (ops : list line_op) (bytes : list Z)
    (status : Z) (pind clock : list Z) : state :=
  mkState (fst (regs_after ops (PORTD s, DDRD s)))
          (snd (regs_after ops (PORTD s, DDRD s)))
          pind clock
          (srqBit s) (rstBit s) (clkBit s) (dioBit s) (atnBit s)
          status (log s ++ ops) (sent s ++ bytes).

(** Polled input: the line levels are the bits of the value read. *)
Definition released (pins : Z) (pind : Z) : bool := lines_high pind pins.
Definition asserted (pins : Z) (pind : Z) : bool := lines_low pind pins.

(** A line set is in the released state when its pins are inputs with the
    pull-up on. *)
Definition lines_released (s : state) (pins : Z) : bool :=
  (Z.land (DDRD s) (u8 pins) =? 0) && (Z.land (PORTD s) (u8 pins) =? u8 pins).

Definition all_released (s : state) : bool :=
  lines_released s (srqBit s) && lines_released s (rstBit s) &&
  lines_released s (clkBit s) && lines_released s (dioBit s) &&
  lines_released s (atnBit s).

(** ** The other side of the bus, as seen through the readings *)

Section Readings.

(** [waiting p] holds when the reading [p] keeps a polling loop going. *)
Variable waiting : Z -> bool.
Variable timeout : Z.

(** The lateness test of the bounded waits, on raw clock readings. *)
Definition late (t0 t : Z) : bool := u32 (u32 t - u32 t0) >? timeout.

(** An unbounded wait ends: some polls keep waiting, then one does not. *)
Definition wait_ends (pind pind' : list Z) : Prop :=
  exists polls p,
    pind = polls ++ p :: pind' /\
    forallb waiting polls = true /\ waiting p = false.

(** A bounded wait is answered in time. *)
Definition answered (pind clock pind' clock' : list Z) : Prop :=
  exists polls p t0 ts,
    pind = polls ++ p :: pind' /\ clock = t0 :: ts ++ clock' /\
    length ts = length polls /\
    forallb waiting polls = true /\ waiting p = false /\
    forallb (fun t => negb (late t0 t)) ts = true.

(** A bounded wait expires: every poll keeps waiting until the clock is
    read late. *)
Definition expired (pind clock pind' clock' : list Z) : Prop :=
  exists polls p t0 ts t,
    pind = polls ++ p :: pind' /\ clock = t0 :: ts ++ t :: clock' /\
    length ts = length polls /\
    forallb waiting (polls ++ [p]) = true /\
    forallb (fun t => negb (late t0 t)) ts = true /\ late t0 t = true.

(** Either outcome, by the flag the wait returns. *)
Definition wait_outcome (timed_out : bool)
    (pind clock pind' clock' : list Z) : Prop :=
  if timed_out then expired pind clock pind' clock'
  else answered pind clock pind' clock'.

End Readings.

(** ** Line operations of the transmission functions *)

(** What [SendBits_loop] does to the lines, by the masks it uses. *)
Fixpoint SendBits_loop_ops (clk dio : Z) (n : nat) (data : Z) : list line_op :=
  match n with
  | O => []
  | S n' =>
      [OpAssert clk; OpDelay (TIME_TS / 2);
       if negb (Z.land data 1 =? 0) then OpRelease dio else OpAssert dio;
       OpDelay (TIME_TS / 2); OpRelease clk; OpDelay TIME_TV]
      ++ SendBits_loop_ops clk dio n' (Z.shiftr data 1)
  end.

Definition SendBits_ops (clk dio : Z) (data : Z) : list line_op :=
  SendBits_loop_ops clk dio 8 data ++ [OpRelease dio; OpAssert clk].

(** One byte with its handshake delays. *)
Definition Send_ops (clk dio : Z) (data : Z) (eoi : bool) : list line_op :=
  [OpRelease clk; OpDelay (if eoi then TIME_TRY else TIME_TNE)]
  ++ SendBits_ops clk dio data ++ [OpDelay TIME_TBB].

(** Claiming the bus, and giving Attention back. *)
Definition Command_start_ops (s : state) : list line_op :=
  [OpRelease (dioBit s); OpAssert (atnBit s); OpAssert (clkBit s)].

Definition Command_end_ops (s : state) : list line_op :=
  [OpDelay TIME_TR; OpRelease (atnBit s); OpDelay TIME_TTK].

(** [Turnaround], up to its wait and after it. *)
Definition Turnaround_ops (s : state) (timed_out : bool) : list line_op :=
  [OpDelay TIME_TTK; OpAssert (dioBit s); OpRelease (clkBit s);
   OpDelay TIME_TDC]
  ++ (if timed_out then [] else [OpDelay TIME_TDA]).

(** The operations that touch only the Clock and Data lines, or only pass
    time. *)
Definition clock_data_only (clk dio : Z) (op : line_op) : bool :=
  match op with
  | OpAssert pins | OpRelease pins => (pins =? clk) || (pins =? dio)
  | OpDelay _ => true
  end.

(** The status a [Send] with EOI signalling leaves, by the timeout flags
    of its three bounded waits in program order. *)
Definition Send_eoi_status (tye tei tf : bool) : Z :=
  if tf then STATUS_FRAMMING_ERROR
  else if tei then STATUS_TIMEOUT
  else if tye then STATUS_TIMEOUT
  else STATUS_OK.

(** ** A concrete controller *)

(** The object that [IecSerial(2, 3, 4, 5, 6)] builds (its masks and status,
    the registers as the constructor's [ReleaseAll] leaves them), with empty
    histories, facing the given readings. *)
Definition controller (pind clock : list Z) : state :=
  mkState 124 0 pind clock 4 64 16 32 8 STATUS_OK [] [].

(** Readings of the input register: every line high, Data low, Clock low. *)
Definition bus_idle : Z := 124.
Definition bus_data_low : Z := 92.
Definition bus_clock_low : Z := 108.

(** The port before the constructor runs: every pin an input, no pull-up. *)
Definition power_on (pind clock : list Z) : state :=
  mkState 0 0 pind clock 0 0 0 0 0 STATUS_OK [] [].

(** ** A partner on the bus *)

(** The level the controller gives each line, one bit per line: a pin
    pulls its line low only when it is an output ([DDRD] bit set) driven
    low ([PORTD] bit clear); otherwise the pull-up keeps the line high. *)
Definition drive (regs : Z * Z) : Z :=
  let (port, ddr) := regs in u8 (Z.lor (Z.lnot ddr) port).

(** What a partner that releases all its lines reads from the bus while
    the controller performs [ops] from the registers [regs], polling
    [rate] times per microsecond: line operations take no time, a delay
    of [us] microseconds shows the current levels [rate * us] times. *)
Fixpoint waveform (rate : nat) (ops : list line_op) (regs : Z * Z) : list Z :=
  match ops with
  | [] => []
  | op :: rest =>
      match op with
      | OpDelay us => repeat (drive regs) (rate * Z.to_nat us)
      | _ => []
      end ++ waveform rate rest (op_regs op regs)
  end.

(** What [GetBits_loop] accumulates in [n] turns from [acc] when the bits
    it samples are those of [data], lowest first. *)
Fixpoint GetBits_value (n : nat) (acc data : Z) : Z :=
  match n with
  | O => acc
  | S n' =>
      let acc := Z.shiftr acc 1 in
      GetBits_value n'
        (if negb (Z.land data 1 =? 0) then u8 (Z.lor acc 128) else acc)
        (Z.shiftr data 1)
  end.

(** The byte values. *)
Definition all_bytes : list Z := map Z.of_nat (seq 0 256).

(** The operations of [ops] on the Data line alone, in order. *)
Definition data_line_ops (dio : Z) (ops : list line_op) : list line_op :=
  filter (fun op => match op with
                    | OpAssert pins | OpRelease pins => pins =? dio
                    | OpDelay _ => false
                    end) ops.

(** How one bit is put on the Data line: 1 is released, 0 is asserted. *)
Definition bit_op (dio : Z) (bit : bool) : line_op :=
  if bit then OpRelease dio else OpAssert dio.

(** ** Further observations on the lines *)

(** A line set is in the asserted state when its pins are outputs driven
    low. *)
Definition lines_asserted (s : state) (pins : Z) : bool :=
  (Z.land (DDRD s) (u8 pins) =? u8 pins) && (Z.land (PORTD s) (u8 pins) =? 0).

(** The destructor only releases the lines. *)
Definition IecSerial_destructor : M unit := ReleaseAll.

(** The microseconds of busy delay in a sequence of line operations. *)
Fixpoint busy_time (ops : list line_op) : Z :=
  match ops with
  | [] => 0
  | OpDelay us :: rest => us + busy_time rest
  | _ :: rest => busy_time rest
  end.

(** ** The array forms, byte by byte *)

(** The bytes at the indices [first, first + count) of the array, as the
    loop of the array [Send] reads them. *)
Definition Send_array_bytes (data : list Z) (first count : nat) : list Z :=
  map (fun i => nth i data 0) (seq first count).

(** The line operations of these bytes: the EOI delay goes with the index
    [length - 1] alone, and only when [eoi] is set. *)
Definition Send_array_ops (clk dio : Z) (data : list Z) (length : nat)
    (eoi : bool) (first count : nat) : list line_op :=
  flat_map (fun i => Send_ops clk dio (nth i data 0)
                              (eoi && (i =? length - 1)%nat))
           (seq first count).

(** ** Concrete runs *)

(** A listener that is ready at once and never acknowledges the byte. *)
Definition deaf_listener : state :=
  controller [bus_idle; bus_idle; bus_idle] [0; 500; 1500].

(** The state [Send(7, false)] leaves when facing it. *)
Definition after_unacknowledged_byte : state :=
  update deaf_listener (Send_ops 16 32 7 false) [7] STATUS_FRAMMING_ERROR [] [].

(** A listener that accepts one byte and does not acknowledge the next. *)
Definition tiring_listener : state :=
  controller [bus_idle; bus_data_low; bus_idle; bus_idle] [0; 10; 2000].

(** The state the array [Send] of two bytes leaves when facing it. *)
Definition after_two_bytes (d1 d2 : Z) : state :=
  update tiring_listener
         (Send_ops 16 32 d1 false ++ Send_ops 16 32 d2 false) [d1; d2]
         STATUS_FRAMMING_ERROR [] [].

(** [Send_accepted data length eoi first s count s']: starting in [s], the
    [count] bytes of the array from index [first] on went out one after
    the other, each by a [Send] that returned true, and left [s']. *)
Inductive Send_accepted (data : list Z) (length : nat) (eoi : bool) :
    nat -> state -> nat -> state -> Prop :=
| accepted_none (first : nat) (s : state) :
    Send_accepted data length eoi first s 0 s
| accepted_next (first : nat) (s s1 : state) (count : nat) (s' : state) :
    Send (nth first data 0) (eoi && (first =? length - 1)%nat) s
    = Some (true, s1) ->
    Send_accepted data length eoi (S first) s1 count s' ->
    Send_accepted data length eoi first s (S count) s'.

(** A bus on which no device answers Attention. *)
Definition silent_bus : state :=
  controller [bus_idle; bus_idle] [0; 400; 1004].

(** The state a [Command] leaves when facing it. *)
Definition after_no_device : state :=
  update silent_bus
         [OpRelease 32; OpAssert 8; OpAssert 16; OpRelease 124] []
         STATUS_NO_DEVICE [] [].

(** A talker that never takes the Clock line: the device answers
    Attention and accepts the command byte, then stays silent. *)
Definition absent_talker : state :=
  controller [bus_data_low; bus_idle; bus_data_low;
              bus_idle; bus_idle; bus_idle; bus_idle]
             [0; 10; 500; 510; 900; 1000; 3000].

(** The state [Talk(4)] leaves when facing it. *)
Definition after_lost_turnaround : state :=
  update absent_talker
         (Command_start_ops absent_talker ++ Send_ops 16 32 68 false
            ++ Command_end_ops absent_talker
            ++ Turnaround_ops absent_talker true)
         [68] STATUS_TIMEOUT [] [].

(** The same with a secondary address. *)
Definition absent_talker_sad : state :=
  controller [bus_data_low; bus_idle; bus_data_low; bus_idle; bus_data_low;
              bus_idle; bus_idle; bus_idle; bus_idle; bus_idle]
             [0; 10; 500; 510; 700; 710; 900; 1000; 3000].

Definition after_lost_turnaround_sad : state :=
  update absent_talker_sad
         (Command_start_ops absent_talker_sad ++ Send_ops 16 32 68 false
            ++ Send_ops 16 32 103 false
            ++ Command_end_ops absent_talker_sad
            ++ Turnaround_ops absent_talker_sad true)
         [68; 103] STATUS_TIMEOUT [] [].

(** A bus on which Clock stays released during [Turnaround]. *)
Definition clock_never_taken : state :=
  controller [bus_idle; bus_idle] [0; 10; 2000].

Definition after_failed_handover : state :=
  update clock_never_taken (Turnaround_ops clock_never_taken true) []
         STATUS_TIMEOUT [] [].

(** A listener that answers Attention and acknowledges the command. *)
Definition attentive_listener : state :=
  controller [bus_data_low; bus_idle; bus_data_low] [0; 10; 500; 510].

(** The state [Listen(4)] leaves when facing it. *)
Definition after_listen : state :=
  update attentive_listener
         (Command_start_ops attentive_listener ++ Send_ops 16 32 36 false
            ++ Command_end_ops attentive_listener)
         [36] STATUS_OK [] [500; 510].

(** A talker that sends eight one bits: Clock low, Clock high, Data high
    at each bit. *)
Definition eight_ones : list Z :=
  flat_map (fun _ => [bus_clock_low; bus_idle; bus_idle]) (seq 0 8).

Definition steady_talker : state := controller eight_ones [].

(** The state [Untalk] leaves when facing the attentive listener. *)
Definition after_untalk : state :=
  update attentive_listener
         (Command_start_ops attentive_listener ++ Send_ops 16 32 0x5F false
            ++ Command_end_ops attentive_listener ++ [OpRelease 124])
         [0x5F] STATUS_OK [] [500; 510].

(** * Proofs *)

(** ** The monad *)

Lemma bind_run {A B} (m : M A) (k : A -> M B) (s s1 : state) (a : A) :
  m s = Some (a, s1) -> bind m k s = k a s1.
Proof. intros H. unfold bind. now rewrite H. Qed.

Lemma bind_inv {A B} (m : M A) (k : A -> M B) (s s' : state) (b : B) :
  bind m k s = Some (b, s') ->
  exists a s1, m s = Some (a, s1) /\ k a s1 = Some (b, s').
Proof.
  unfold bind. destruct (m s) as [[a s1]|]; [|discriminate].
  intros H. now exists a, s1.
Qed.

(** ** The polling loops are the loops of the source *)

(** Each loop, defined by recursion on the readings, satisfies the
    unfolding of the [while] statement it stands for, written with
    [isReleased], [isAsserted], [micros()] and the status assignment. *)

Lemma WaitAssertion_unfold (pins : Z) (s : state) :
  WaitAssertion pins s
  = (waiting <- isReleased pins ;;
     if waiting then WaitAssertion pins else ret tt) s.
Proof.
  unfold WaitAssertion, isReleased, bind, read_PIND, ret.
  destruct (PIND s) as [|p rest]; [reflexivity|]. cbn.
  destruct (lines_high p pins); [|reflexivity]. cbn.
  destruct (WaitAssertion_loop pins rest); reflexivity.
Qed.

Lemma WaitRelease_unfold (pins : Z) (s : state) :
  WaitRelease pins s
  = (waiting <- isAsserted pins ;;
     if waiting then WaitRelease pins else ret tt) s.
Proof.
  unfold WaitRelease, isAsserted, bind, read_PIND, ret.
  destruct (PIND s) as [|p rest]; [reflexivity|]. cbn.
  destruct (lines_low p pins); [|reflexivity]. cbn.
  destruct (WaitRelease_loop pins rest); reflexivity.
Qed.

Lemma WaitAssertionOrTimeout_while_unfold (pins initialTime timeout : Z)
    (s : state) :
  WaitAssertionOrTimeout_while pins initialTime timeout s
  = (waiting <- isReleased pins ;;
     if waiting then
       now <- read_micros ;;
       if u32 (now - initialTime) >? timeout then
         modify (set_status STATUS_TIMEOUT) ;; ret true
       else WaitAssertionOrTimeout_while pins initialTime timeout
     else ret false) s.
Proof.
  unfold WaitAssertionOrTimeout_while, isReleased, bind, read_PIND,
    read_micros, modify, ret.
  destruct (PIND s) as [|p rest]; [reflexivity|]. cbn.
  destruct (lines_high p pins); [|reflexivity]. cbn.
  destruct (micros s) as [|t clock]; [reflexivity|]. cbn.
  destruct (u32 (u32 t - initialTime) >? timeout); [reflexivity|]. cbn.
  destruct (WaitAssertionOrTimeout_loop pins initialTime timeout rest clock)
    as [[[] [pind' clock']]|]; reflexivity.
Qed.

Lemma WaitReleaseOrTimeout_while_unfold (pins initialTime timeout : Z)
    (s : state) :
  WaitReleaseOrTimeout_while pins initialTime timeout s
  = (waiting <- isAsserted pins ;;
     if waiting then
       now <- read_micros ;;
       if u32 (now - initialTime) >? timeout then
         modify (set_status STATUS_TIMEOUT) ;; ret true
       else WaitReleaseOrTimeout_while pins initialTime timeout
     else ret false) s.
Proof.
  unfold WaitReleaseOrTimeout_while, isAsserted, bind, read_PIND,
    read_micros, modify, ret.
  destruct (PIND s) as [|p rest]; [reflexivity|]. cbn.
  destruct (lines_low p pins); [|reflexivity]. cbn.
  destruct (micros s) as [|t clock]; [reflexivity|]. cbn.
  destruct (u32 (u32 t - initialTime) >? timeout); [reflexivity|]. cbn.
  destruct (WaitReleaseOrTimeout_loop pins initialTime timeout rest clock)
    as [[[] [pind' clock']]|]; reflexivity.
Qed.

(** ** Bits of the line masks *)

Lemma land_zero_iff (p pins : Z) :
  Z.land p pins = 0 <->
  forall i, Z.testbit pins i = true -> Z.testbit p i = false.
Proof.
  split.
  - intros H i Hi.
    assert (E : Z.testbit (Z.land p pins) i = false)
      by (rewrite H; apply Z.bits_0).
    rewrite Z.land_spec, Hi, andb_true_r in E. exact E.
  - intros H. apply Z.bits_inj'. intros i _.
    rewrite Z.land_spec, Z.bits_0.
    destruct (Z.testbit pins i) eqn:E.
    + now rewrite (H i E).
    + apply andb_false_r.
Qed.

Lemma nonzero_has_bit (x : Z) : x <> 0 -> exists i, Z.testbit x i = true.
Proof.
  intros H. destruct (Z.lt_trichotomy x 0) as [Hneg | [H0 | Hpos]].
  - exists (Z.succ (Z.log2 (Z.abs x))). now apply Z.bits_iff_neg'.
  - contradiction.
  - exists (Z.log2 x). now apply Z.bit_log2.
Qed.

Lemma land_nonzero_iff (p pins : Z) :
  Z.land p pins <> 0 <->
  exists i, Z.testbit pins i = true /\ Z.testbit p i = true.
Proof.
  split.
  - intros H. destruct (nonzero_has_bit _ H) as [i Hi].
    rewrite Z.land_spec in Hi. apply andb_prop in Hi. exists i. tauto.
  - intros [i [Hm Hp]] H0.
    pose proof (proj1 (land_zero_iff p pins) H0 i Hm) as E. congruence.
Qed.

(** ** Line driver: level queries *)

(** C9.  On one reading [p] of the input register, [isAsserted] returns
    true exactly when every queried line reads low, [isReleased] returns
    true exactly when at least one queried line reads high, and the second
    result is the negation of the first.  This holds for every line set,
    the empty one included. *)
Theorem isAsserted_all_low_isReleased_any_high
    (pins p : Z) (rest : list Z) (s : state) :
  exists a r : bool,
    isAsserted pins (set_PIND (p :: rest) s) = Some (a, set_PIND rest s) /\
    isReleased pins (set_PIND (p :: rest) s) = Some (r, set_PIND rest s) /\
    (a = true <->
     forall i, Z.testbit pins i = true -> Z.testbit p i = false) /\
    (r = true <->
     exists i, Z.testbit pins i = true /\ Z.testbit p i = true) /\
    r = negb a.
Proof.
  exists (lines_low p pins), (lines_high p pins).
  split; [reflexivity|]. split; [reflexivity|].
  unfold lines_high, lines_low. repeat split.
  - intros H. apply land_zero_iff. now apply Z.eqb_eq.
  - intros H. apply Z.eqb_eq. now apply land_zero_iff.
  - intros H. apply land_nonzero_iff. apply negb_true_iff in H.
    now apply Z.eqb_neq.
  - intros H. apply negb_true_iff. apply Z.eqb_neq.
    now apply land_nonzero_iff.
Qed.

(** ** Receive operations *)

(** C10.  Both [Get] operations leave the whole state as it is (no line
    operation, no reading consumed, status untouched), return the buffer
    unchanged, and return true exactly when the status left by the
    previous operation is Ok. *)
Theorem Get_inert (data str : list Z) (maxlength : nat) (s : state) :
  exists ok : bool,
    Get data maxlength s = Some ((ok, data), s) /\
    Get_str str maxlength s = Some ((ok, str), s) /\
    (ok = true <-> m_status s = STATUS_OK).
Proof.
  exists (m_status s =? STATUS_OK). repeat split.
  - apply Z.eqb_eq.
  - apply Z.eqb_eq.
Qed.

(** ** Status reset *)

(** The single-byte [Send] and both [Command] forms overwrite the status
    first, so their behaviour does not depend on the status found. *)
Lemma reset_forgets_status {B} (k : unit -> M B) (v : Z) (s : state) :
  bind (modify (set_status STATUS_OK)) k (set_status v s)
  = bind (modify (set_status STATUS_OK)) k s.
Proof. reflexivity. Qed.

Lemma Send_forgets_status (data : Z) (eoi : bool) (v : Z) (s : state) :
  Send data eoi (set_status v s) = Send data eoi s.
Proof. unfold Send. apply reset_forgets_status. Qed.

Lemma Command_forgets_status (cmd v : Z) (s : state) :
  Command cmd (set_status v s) = Command cmd s.
Proof. unfold Command. apply reset_forgets_status. Qed.

Lemma Command_array_forgets_status (cmd : list Z) (n : nat) (v : Z) (s : state) :
  Command_array cmd n (set_status v s) = Command_array cmd n s.
Proof. unfold Command_array. apply reset_forgets_status. Qed.

(** The array form inherits the reset from the first byte it sends. *)
Lemma Send_array_forgets_status (data : list Z) (n : nat) (eoi : bool)
    (v : Z) (s : state) :
  Send_array data (S n) eoi (set_status v s) = Send_array data (S n) eoi s.
Proof.
  unfold Send_array. cbn [Send_array_loop]. unfold bind.
  now rewrite Send_forgets_status.
Qed.

(** With no byte to send the array form does nothing at all: the state is
    unchanged and the result is the status test on the status found. *)
Lemma Send_array_zero (data : list Z) (eoi : bool) (s : state) :
  Send_array data 0 eoi s = Some (m_status s =? STATUS_OK, s).
Proof. reflexivity. Qed.

(** C3.  [Send(data, 0, eoi)] touches nothing: the state after is the state
    before, so no byte is sent, no line is operated and no reading is
    consumed.  Its result, however, is the test of the status found: it is
    true after a call that left Ok, and false after a call that left
    Timeout, FramingError or NoDevice. *)
Theorem Send_array_zero_length_returns_stale_status
    (data : list Z) (eoi : bool) (s : state) :
  Send_array data 0 eoi s = Some (m_status s =? STATUS_OK, s) /\
  Send_array data 0 eoi (set_status STATUS_TIMEOUT s)
    = Some (false, set_status STATUS_TIMEOUT s) /\
  Send_array data 0 eoi (set_status STATUS_FRAMMING_ERROR s)
    = Some (false, set_status STATUS_FRAMMING_ERROR s) /\
  Send_array data 0 eoi (set_status STATUS_NO_DEVICE s)
    = Some (false, set_status STATUS_NO_DEVICE s).
Proof. repeat split. Qed.

(** C4.  The zero-length array [Send] and the [Send] of an empty string do
    not set the status to Ok: the status found is the status left, and the
    result differs with it. *)
Theorem Send_zero_length_keeps_previous_status
    (data : list Z) (eoi : bool) (s : state) :
  Send_array data 0 eoi (set_status STATUS_NO_DEVICE s)
    = Some (false, set_status STATUS_NO_DEVICE s) /\
  Send_str [0] eoi (set_status STATUS_NO_DEVICE s)
    = Some (false, set_status STATUS_NO_DEVICE s) /\
  Send_array data 0 eoi (set_status STATUS_OK s)
    = Some (true, set_status STATUS_OK s).
Proof. repeat split. Qed.

(** ** States in [update] form *)

Lemma regs_after_app (o1 o2 : list line_op) (r : Z * Z) :
  regs_after (o1 ++ o2) r = regs_after o2 (regs_after o1 r).
Proof. apply fold_left_app. Qed.

Lemma update_self (s : state) :
  update s [] [] (m_status s) (PIND s) (micros s) = s.
Proof.
  destruct s. unfold update. cbn. now rewrite !app_nil_r.
Qed.

Lemma run_from_update {A} (m : M A) (s : state) :
  m s = m (update s [] [] (m_status s) (PIND s) (micros s)).
Proof. now rewrite update_self. Qed.

Lemma update_update (s : state) o1 b1 st1 p1 c1 o2 b2 st2 p2 c2 :
  update (update s o1 b1 st1 p1 c1) o2 b2 st2 p2 c2
  = update s (o1 ++ o2) (b1 ++ b2) st2 p2 c2.
Proof.
  unfold update. cbn [PORTD DDRD srqBit rstBit clkBit dioBit atnBit log sent].
  rewrite <- surjective_pairing, regs_after_app, !app_assoc. reflexivity.
Qed.

Section Projections.
Variables (s : state) (o : list line_op) (b : list Z) (st : Z)
          (p c : list Z).

Lemma update_status : m_status (update s o b st p c) = st. Proof. reflexivity. Qed.
Lemma update_PIND : PIND (update s o b st p c) = p. Proof. reflexivity. Qed.
Lemma update_micros : micros (update s o b st p c) = c. Proof. reflexivity. Qed.
Lemma update_log : log (update s o b st p c) = log s ++ o. Proof. reflexivity. Qed.
Lemma update_sent : sent (update s o b st p c) = sent s ++ b. Proof. reflexivity. Qed.
Lemma update_srqBit : srqBit (update s o b st p c) = srqBit s. Proof. reflexivity. Qed.
Lemma update_rstBit : rstBit (update s o b st p c) = rstBit s. Proof. reflexivity. Qed.
Lemma update_clkBit : clkBit (update s o b st p c) = clkBit s. Proof. reflexivity. Qed.
Lemma update_dioBit : dioBit (update s o b st p c) = dioBit s. Proof. reflexivity. Qed.
Lemma update_atnBit : atnBit (update s o b st p c) = atnBit s. Proof. reflexivity. Qed.
Lemma update_all_lines : all_lines (update s o b st p c) = all_lines s.
Proof. reflexivity. Qed.
End Projections.

Create Rewrite HintDb upd.
#[export] Hint Rewrite update_update update_status update_PIND update_micros
  update_srqBit update_rstBit update_clkBit update_dioBit update_atnBit
  update_all_lines : upd.
#[export] Hint Rewrite <- app_assoc : upd.
#[export] Hint Rewrite app_nil_r app_nil_l : upd.

(** *** Steps that always run *)

Section Steps.
Variables (s : state) (o : list line_op) (b : list Z) (st : Z)
          (p c : list Z).

Lemma get_update {A B} (f : state -> A) (k : A -> M B) :
  bind (get f) k (update s o b st p c)
  = k (f (update s o b st p c)) (update s o b st p c).
Proof. reflexivity. Qed.

Lemma set_status_update {B} (v : Z) (k : unit -> M B) :
  bind (modify (set_status v)) k (update s o b st p c)
  = k tt (update s o b v p c).
Proof. reflexivity. Qed.

Lemma add_sent_update {B} (d : Z) (k : unit -> M B) :
  bind (modify (add_sent d)) k (update s o b st p c)
  = k tt (update s o (b ++ [d]) st p c).
Proof.
  unfold bind, modify, add_sent, update.
  cbn [PORTD DDRD PIND micros srqBit rstBit clkBit dioBit atnBit m_status
       log sent].
  now rewrite app_assoc.
Qed.

Lemma add_sent_run (d : Z) :
  modify (add_sent d) (update s o b st p c)
  = Some (tt, update s o (b ++ [d]) st p c).
Proof.
  unfold modify, add_sent, update.
  cbn [PORTD DDRD PIND micros srqBit rstBit clkBit dioBit atnBit m_status
       log sent].
  now rewrite app_assoc.
Qed.

Lemma Assert_update (pins : Z) :
  Assert pins (update s o b st p c)
  = Some (tt, update s (o ++ [OpAssert pins]) b st p c).
Proof.
  unfold update. rewrite regs_after_app.
  destruct (regs_after o (PORTD s, DDRD s)) as [port ddr].
  cbv [Assert Release delayMicroseconds bind modify set_PORTD set_DDRD
       add_log regs_after fold_left op_regs fst snd
       PORTD DDRD PIND micros srqBit rstBit clkBit dioBit atnBit m_status
       log sent].
  now rewrite app_assoc.
Qed.

Lemma Release_update (pins : Z) :
  Release pins (update s o b st p c)
  = Some (tt, update s (o ++ [OpRelease pins]) b st p c).
Proof.
  unfold update. rewrite regs_after_app.
  destruct (regs_after o (PORTD s, DDRD s)) as [port ddr].
  cbv [Assert Release delayMicroseconds bind modify set_PORTD set_DDRD
       add_log regs_after fold_left op_regs fst snd
       PORTD DDRD PIND micros srqBit rstBit clkBit dioBit atnBit m_status
       log sent].
  now rewrite app_assoc.
Qed.

Lemma delay_update (us : Z) :
  delayMicroseconds us (update s o b st p c)
  = Some (tt, update s (o ++ [OpDelay us]) b st p c).
Proof.
  unfold update. rewrite regs_after_app.
  destruct (regs_after o (PORTD s, DDRD s)) as [port ddr].
  cbv [Assert Release delayMicroseconds bind modify set_PORTD set_DDRD
       add_log regs_after fold_left op_regs fst snd
       PORTD DDRD PIND micros srqBit rstBit clkBit dioBit atnBit m_status
       log sent].
  now rewrite app_assoc.
Qed.

Lemma ReleaseAll_update :
  ReleaseAll (update s o b st p c)
  = Some (tt, update s (o ++ [OpRelease (all_lines s)]) b st p c).
Proof. unfold ReleaseAll. rewrite get_update. apply Release_update. Qed.

Lemma isOk_update :
  isOk (update s o b st p c)
  = Some (st =? STATUS_OK, update s o b st p c).
Proof. reflexivity. Qed.
End Steps.

(** *** The polling loops on the readings *)

Lemma WaitAssertion_loop_ends (pins : Z) (pind pind' : list Z) :
  wait_ends (released pins) pind pind' ->
  WaitAssertion_loop pins pind = Some pind'.
Proof.
  intros (polls & p & -> & Hpolls & Hp).
  induction polls as [|q polls IH]; cbn in *.
  - unfold released in Hp. now rewrite Hp.
  - apply andb_prop in Hpolls as [Hq Hpolls]. unfold released in Hq.
    rewrite Hq. now apply IH.
Qed.

Lemma WaitRelease_loop_ends (pins : Z) (pind pind' : list Z) :
  wait_ends (asserted pins) pind pind' ->
  WaitRelease_loop pins pind = Some pind'.
Proof.
  intros (polls & p & -> & Hpolls & Hp).
  induction polls as [|q polls IH]; cbn in *.
  - unfold asserted in Hp. now rewrite Hp.
  - apply andb_prop in Hpolls as [Hq Hpolls]. unfold asserted in Hq.
    rewrite Hq. now apply IH.
Qed.

Lemma WaitAssertionOrTimeout_loop_outcome (pins timeout : Z) (timed_out : bool)
    (pind pind' clock0 clock' : list Z) (t0 : Z) :
  wait_outcome (released pins) timeout timed_out pind (t0 :: clock0) pind' clock' ->
  WaitAssertionOrTimeout_loop pins (u32 t0) timeout pind clock0
  = Some (timed_out, (pind', clock')).
Proof.
  destruct timed_out; cbn.
  - intros (polls & p & t0' & ts & t & -> & Hc & Hlen & Hpolls & Hts & Ht).
    injection Hc as <- ->. revert ts Hlen Hts.
    induction polls as [|q polls IH]; intros [|u ts] Hlen Hts;
      try discriminate; cbn in *.
    + rewrite andb_true_r in Hpolls. unfold released in Hpolls.
      rewrite Hpolls. unfold late in Ht. now rewrite Ht.
    + apply andb_prop in Hpolls as [Hq Hpolls]. unfold released in Hq.
      rewrite Hq. apply andb_prop in Hts as [Hu Hts].
      apply negb_true_iff in Hu. unfold late in Hu. rewrite Hu.
      apply IH; auto.
  - intros (polls & p & t0' & ts & -> & Hc & Hlen & Hpolls & Hp & Hts).
    injection Hc as <- ->. revert ts Hlen Hts.
    induction polls as [|q polls IH]; intros [|u ts] Hlen Hts;
      try discriminate; cbn in *.
    + unfold released in Hp. now rewrite Hp.
    + apply andb_prop in Hpolls as [Hq Hpolls]. unfold released in Hq.
      rewrite Hq. apply andb_prop in Hts as [Hu Hts].
      apply negb_true_iff in Hu. unfold late in Hu. rewrite Hu.
      apply IH; auto.
Qed.

Lemma WaitReleaseOrTimeout_loop_outcome (pins timeout : Z) (timed_out : bool)
    (pind pind' clock0 clock' : list Z) (t0 : Z) :
  wait_outcome (asserted pins) timeout timed_out pind (t0 :: clock0) pind' clock' ->
  WaitReleaseOrTimeout_loop pins (u32 t0) timeout pind clock0
  = Some (timed_out, (pind', clock')).
Proof.
  destruct timed_out; cbn.
  - intros (polls & p & t0' & ts & t & -> & Hc & Hlen & Hpolls & Hts & Ht).
    injection Hc as <- ->. revert ts Hlen Hts.
    induction polls as [|q polls IH]; intros [|u ts] Hlen Hts;
      try discriminate; cbn in *.
    + rewrite andb_true_r in Hpolls. unfold asserted in Hpolls.
      rewrite Hpolls. unfold late in Ht. now rewrite Ht.
    + apply andb_prop in Hpolls as [Hq Hpolls]. unfold asserted in Hq.
      rewrite Hq. apply andb_prop in Hts as [Hu Hts].
      apply negb_true_iff in Hu. unfold late in Hu. rewrite Hu.
      apply IH; auto.
  - intros (polls & p & t0' & ts & -> & Hc & Hlen & Hpolls & Hp & Hts).
    injection Hc as <- ->. revert ts Hlen Hts.
    induction polls as [|q polls IH]; intros [|u ts] Hlen Hts;
      try discriminate; cbn in *.
    + unfold asserted in Hp. now rewrite Hp.
    + apply andb_prop in Hpolls as [Hq Hpolls]. unfold asserted in Hq.
      rewrite Hq. apply andb_prop in Hts as [Hu Hts].
      apply negb_true_iff in Hu. unfold late in Hu. rewrite Hu.
      apply IH; auto.
Qed.

(** Conversely, every finished run of a bounded wait is of one of the two
    shapes, and every finished unbounded wait is of the shape
    [wait_ends]: the three predicates describe exactly the readings on
    which the loops return. *)
Lemma WaitAssertion_loop_inv (pins : Z) (pind pind' : list Z) :
  WaitAssertion_loop pins pind = Some pind' ->
  wait_ends (released pins) pind pind'.
Proof.
  induction pind as [|q pind IH]; [discriminate|]. cbn.
  destruct (lines_high q pins) eqn:Hq.
  - intros H. destruct (IH H) as (polls & p & -> & Hpolls & Hp).
    exists (q :: polls), p. cbn. unfold released at 1.
    now rewrite Hq, Hpolls.
  - intros [= <-]. now exists [], q.
Qed.

Lemma WaitRelease_loop_inv (pins : Z) (pind pind' : list Z) :
  WaitRelease_loop pins pind = Some pind' ->
  wait_ends (asserted pins) pind pind'.
Proof.
  induction pind as [|q pind IH]; [discriminate|]. cbn.
  destruct (lines_low q pins) eqn:Hq.
  - intros H. destruct (IH H) as (polls & p & -> & Hpolls & Hp).
    exists (q :: polls), p. cbn. unfold asserted at 1.
    now rewrite Hq, Hpolls.
  - intros [= <-]. now exists [], q.
Qed.

Lemma WaitAssertionOrTimeout_loop_inv (pins timeout t0 : Z) (timed_out : bool)
    (pind : list Z) :
  forall clock0 pind' clock',
    WaitAssertionOrTimeout_loop pins (u32 t0) timeout pind clock0
    = Some (timed_out, (pind', clock')) ->
    wait_outcome (released pins) timeout timed_out pind (t0 :: clock0)
                 pind' clock'.
Proof.
  induction pind as [|q pind IH]; intros clock0 pind' clock'; [discriminate|].
  cbn. destruct (lines_high q pins) eqn:Hq.
  - destruct clock0 as [|t clock0]; [discriminate|].
    destruct (u32 (u32 t - u32 t0) >? timeout) eqn:Ht.
    + intros [= <- <- <-]. exists [], q, t0, [], t. cbn.
      unfold released, late. now rewrite Hq, Ht.
    + intros H. apply IH in H. destruct timed_out; cbn in *.
      * destruct H as (polls & p & t0' & ts & u & -> & Hc & Hlen & Hp & Hts & Hu).
        injection Hc as <- ->.
        exists (q :: polls), p, t0, (t :: ts), u. cbn.
        unfold released at 1. unfold late at 1.
        rewrite Hq, Ht, Hlen. cbn. repeat split; assumption.
      * destruct H as (polls & p & t0' & ts & -> & Hc & Hlen & Hpolls & Hp & Hts).
        injection Hc as <- ->.
        exists (q :: polls), p, t0, (t :: ts). cbn.
        unfold released at 1. unfold late at 1.
        rewrite Hq, Ht, Hlen. cbn. repeat split; assumption.
  - intros [= <- <- <-]. exists [], q, t0, []. cbn.
    unfold released. now rewrite Hq.
Qed.

Lemma WaitReleaseOrTimeout_loop_inv (pins timeout t0 : Z) (timed_out : bool)
    (pind : list Z) :
  forall clock0 pind' clock',
    WaitReleaseOrTimeout_loop pins (u32 t0) timeout pind clock0
    = Some (timed_out, (pind', clock')) ->
    wait_outcome (asserted pins) timeout timed_out pind (t0 :: clock0)
                 pind' clock'.
Proof.
  induction pind as [|q pind IH]; intros clock0 pind' clock'; [discriminate|].
  cbn. destruct (lines_low q pins) eqn:Hq.
  - destruct clock0 as [|t clock0]; [discriminate|].
    destruct (u32 (u32 t - u32 t0) >? timeout) eqn:Ht.
    + intros [= <- <- <-]. exists [], q, t0, [], t. cbn.
      unfold asserted, late. now rewrite Hq, Ht.
    + intros H. apply IH in H. destruct timed_out; cbn in *.
      * destruct H as (polls & p & t0' & ts & u & -> & Hc & Hlen & Hp & Hts & Hu).
        injection Hc as <- ->.
        exists (q :: polls), p, t0, (t :: ts), u. cbn.
        unfold asserted at 1. unfold late at 1.
        rewrite Hq, Ht, Hlen. cbn. repeat split; assumption.
      * destruct H as (polls & p & t0' & ts & -> & Hc & Hlen & Hpolls & Hp & Hts).
        injection Hc as <- ->.
        exists (q :: polls), p, t0, (t :: ts). cbn.
        unfold asserted at 1. unfold late at 1.
        rewrite Hq, Ht, Hlen. cbn. repeat split; assumption.
  - intros [= <- <- <-]. exists [], q, t0, []. cbn.
    unfold asserted. now rewrite Hq.
Qed.

(** A clock list that a bounded wait can start on is not empty. *)
Lemma wait_outcome_clock (waiting : Z -> bool) (timeout : Z) (timed_out : bool)
    (pind clock pind' clock' : list Z) :
  wait_outcome waiting timeout timed_out pind clock pind' clock' ->
  exists t0 clock0, clock = t0 :: clock0.
Proof.
  destruct timed_out; cbn.
  - intros (polls & p & t0 & ts & t & _ & -> & _). eauto.
  - intros (polls & p & t0 & ts & _ & -> & _). eauto.
Qed.

(** *** The wait primitives on a state *)

Section Waits.
Variables (s : state) (o : list line_op) (b : list Z) (st : Z).

Lemma WaitAssertion_update (pins : Z) (p p' c : list Z) :
  wait_ends (released pins) p p' ->
  WaitAssertion pins (update s o b st p c) = Some (tt, update s o b st p' c).
Proof.
  intros H. unfold WaitAssertion. rewrite update_PIND.
  now rewrite (WaitAssertion_loop_ends _ _ _ H).
Qed.

Lemma WaitRelease_update (pins : Z) (p p' c : list Z) :
  wait_ends (asserted pins) p p' ->
  WaitRelease pins (update s o b st p c) = Some (tt, update s o b st p' c).
Proof.
  intros H. unfold WaitRelease. rewrite update_PIND.
  now rewrite (WaitRelease_loop_ends _ _ _ H).
Qed.

Lemma WaitAssertionOrTimeout_update (pins timeout : Z) (timed_out : bool)
    (p c p' c' : list Z) :
  wait_outcome (released pins) timeout timed_out p c p' c' ->
  WaitAssertionOrTimeout pins timeout (update s o b st p c)
  = Some (timed_out,
          update s o b (if timed_out then STATUS_TIMEOUT else st) p' c').
Proof.
  intros H. destruct (wait_outcome_clock _ _ _ _ _ _ _ H) as (t0 & c0 & ->).
  apply WaitAssertionOrTimeout_loop_outcome in H.
  unfold WaitAssertionOrTimeout, WaitAssertionOrTimeout_while, bind,
  read_micros.
  cbn [micros PIND update set_micros set_PIND]. rewrite H.
  now destruct timed_out.
Qed.

Lemma WaitReleaseOrTimeout_update (pins timeout : Z) (timed_out : bool)
    (p c p' c' : list Z) :
  wait_outcome (asserted pins) timeout timed_out p c p' c' ->
  WaitReleaseOrTimeout pins timeout (update s o b st p c)
  = Some (timed_out,
          update s o b (if timed_out then STATUS_TIMEOUT else st) p' c').
Proof.
  intros H. destruct (wait_outcome_clock _ _ _ _ _ _ _ H) as (t0 & c0 & ->).
  apply WaitReleaseOrTimeout_loop_outcome in H.
  unfold WaitReleaseOrTimeout, WaitReleaseOrTimeout_while, bind,
  read_micros.
  cbn [micros PIND update set_micros set_PIND]. rewrite H.
  now destruct timed_out.
Qed.
End Waits.

(** ** Symbolic execution *)

Ltac step_with lem :=
  match goal with
  | |- bind ?m ?k ?s = _ => rewrite (bind_run m k s _ _ lem)
  end; cbv beta; autorewrite with upd.

Ltac step :=
  match goal with
  | |- bind (get _) _ _ = _ => rewrite get_update
  | |- bind (modify (set_status _)) _ _ = _ => rewrite set_status_update
  | |- bind (modify (add_sent _)) _ _ = _ => rewrite add_sent_update
  | |- bind (Assert ?x) ?k (update ?s ?o ?b ?st ?p ?c) = _ =>
      rewrite (bind_run _ k _ _ _ (Assert_update s o b st p c x))
  | |- bind (Release ?x) ?k (update ?s ?o ?b ?st ?p ?c) = _ =>
      rewrite (bind_run _ k _ _ _ (Release_update s o b st p c x))
  | |- bind (delayMicroseconds ?x) ?k (update ?s ?o ?b ?st ?p ?c) = _ =>
      rewrite (bind_run _ k _ _ _ (delay_update s o b st p c x))
  | |- bind ReleaseAll ?k (update ?s ?o ?b ?st ?p ?c) = _ =>
      rewrite (bind_run _ k _ _ _ (ReleaseAll_update s o b st p c))
  end; cbv beta; autorewrite with upd.

(** ** Byte transmission engine *)

Lemma SendBits_loop_update (n : nat) :
  forall (data : Z) (s : state) o b st p c,
    SendBits_loop n data (update s o b st p c)
    = Some (tt, update s (o ++ SendBits_loop_ops (clkBit s) (dioBit s) n data)
                       b st p c).
Proof.
  induction n as [|n IH]; intros data s o b st p c.
  - cbn. now rewrite app_nil_r.
  - cbn [SendBits_loop SendBits_loop_ops].
    do 4 step.
    destruct (negb (Z.land data 1 =? 0)).
    + do 4 step. rewrite IH. now autorewrite with upd.
    + do 4 step. rewrite IH. now autorewrite with upd.
Qed.

Lemma SendBits_update (data : Z) (s : state) o b st p c :
  SendBits data (update s o b st p c)
  = Some (tt, update s (o ++ SendBits_ops (clkBit s) (dioBit s) data)
                     (b ++ [data]) st p c).
Proof.
  unfold SendBits, SendBits_ops. do 2 step.
  step_with (SendBits_loop_update 8 data s o b st p c).
  do 2 step. rewrite add_sent_run. now autorewrite with upd.
Qed.

(** ** One byte with its handshake *)

Section SendByte.
Variables (s : state) (o : list line_op) (b : list Z) (st : Z).
Variables (data : Z).

(** Without EOI: the listener becomes ready, then answers the frame
    handshake or lets it expire. *)
Lemma Send_update_plain (p c p1 p2 c2 : list Z) (tf : bool) :
  wait_ends (asserted (dioBit s)) p p1 ->
  wait_outcome (released (dioBit s)) TIME_TF tf p1 c p2 c2 ->
  Send data false (update s o b st p c)
  = Some (negb tf,
          update s (o ++ Send_ops (clkBit s) (dioBit s) data false) (b ++ [data])
                 (if tf then STATUS_FRAMMING_ERROR else STATUS_OK) p2 c2).
Proof.
  intros Hready Hframe. unfold Send, Send_ops. do 4 step.
  step_with (WaitRelease_update s (o ++ [OpRelease (clkBit s)]) b STATUS_OK
               _ _ _ c Hready).
  step.
  step_with (SendBits_update data s
               (o ++ [OpRelease (clkBit s)] ++ [OpDelay TIME_TNE]) b
               STATUS_OK p1 c).
  step_with (WaitAssertionOrTimeout_update s
               (o ++ [OpRelease (clkBit s)] ++ [OpDelay TIME_TNE]
                  ++ SendBits_ops (clkBit s) (dioBit s) data)
               (b ++ [data]) STATUS_OK _ _ _ _ _ _ _ Hframe).
  destruct tf.
  - step. step. now rewrite isOk_update.
  - unfold ret at 1. unfold bind at 1. step. now rewrite isOk_update.
Qed.

(** With EOI: ready, the two EOI waits, then the frame handshake. *)
Lemma Send_update_eoi (p c p1 p2 c2 p3 c3 p4 c4 : list Z) (tye tei tf : bool) :
  wait_ends (asserted (dioBit s)) p p1 ->
  wait_outcome (released (dioBit s)) TIME_TYE tye p1 c p2 c2 ->
  wait_outcome (asserted (dioBit s)) TIME_TEI tei p2 c2 p3 c3 ->
  wait_outcome (released (dioBit s)) TIME_TF tf p3 c3 p4 c4 ->
  Send data true (update s o b st p c)
  = Some (Send_eoi_status tye tei tf =? STATUS_OK,
          update s (o ++ Send_ops (clkBit s) (dioBit s) data true) (b ++ [data])
                 (Send_eoi_status tye tei tf) p4 c4).
Proof.
  intros Hready Htye Htei Hframe. unfold Send, Send_ops. do 4 step.
  step_with (WaitRelease_update s (o ++ [OpRelease (clkBit s)]) b STATUS_OK
               _ _ _ c Hready).
  rewrite (bind_run _ _ _
             (update s (o ++ [OpRelease (clkBit s)] ++ [OpDelay TIME_TRY]) b
                (if tei then STATUS_TIMEOUT
                 else if tye then STATUS_TIMEOUT else STATUS_OK) p3 c3) tt).
  2:{ step_with (WaitAssertionOrTimeout_update s
                   (o ++ [OpRelease (clkBit s)]) b STATUS_OK
                   _ _ _ _ _ _ _ Htye).
      step_with (WaitReleaseOrTimeout_update s
                   (o ++ [OpRelease (clkBit s)]) b
                   (if tye then STATUS_TIMEOUT else STATUS_OK)
                   _ _ _ _ _ _ _ Htei).
      rewrite delay_update. now autorewrite with upd. }
  cbv beta.
  step_with (SendBits_update data s
               (o ++ [OpRelease (clkBit s)] ++ [OpDelay TIME_TRY]) b
               (if tei then STATUS_TIMEOUT
                else if tye then STATUS_TIMEOUT else STATUS_OK) p3 c3).
  step_with (WaitAssertionOrTimeout_update s
               (o ++ [OpRelease (clkBit s)] ++ [OpDelay TIME_TRY]
                  ++ SendBits_ops (clkBit s) (dioBit s) data)
               (b ++ [data])
               (if tei then STATUS_TIMEOUT
                else if tye then STATUS_TIMEOUT else STATUS_OK)
               _ _ _ _ _ _ _ Hframe).
  destruct tf.
  - step. step. now rewrite isOk_update.
  - unfold ret at 1. unfold bind at 1. step. rewrite isOk_update.
    now destruct tei, tye.
Qed.
End SendByte.

(** ** Released lines *)

Lemma u8_bits (x i : Z) :
  0 <= i -> Z.testbit (u8 x) i = (i <? 8) && Z.testbit x i.
Proof. intros Hi. unfold u8. change 256 with (2 ^ 8). now apply Z.testbit_mod_pow2. Qed.

Lemma lines_released_after_Release (port ddr pins sub : Z) :
  (forall i, Z.testbit sub i = true -> Z.testbit pins i = true) ->
  Z.land (snd (op_regs (OpRelease pins) (port, ddr))) (u8 sub) = 0 /\
  Z.land (fst (op_regs (OpRelease pins) (port, ddr))) (u8 sub) = u8 sub.
Proof.
  intros Hsub. cbn [op_regs fst snd]. split; apply Z.bits_inj'; intros i Hi.
  - rewrite Z.land_spec, !u8_bits, Z.land_spec, Z.lnot_spec, Z.bits_0 by lia.
    specialize (Hsub i).
    destruct (Z.testbit sub i); [rewrite Hsub by reflexivity|];
      destruct (i <? 8), (Z.testbit ddr i), (Z.testbit pins i); reflexivity.
  - rewrite Z.land_spec, !u8_bits, Z.lor_spec by lia.
    specialize (Hsub i).
    destruct (Z.testbit sub i); [rewrite Hsub by reflexivity|];
      destruct (i <? 8), (Z.testbit port i), (Z.testbit pins i); reflexivity.
Qed.

Lemma lines_released_update_Release (s : state) o b st p c (pins sub : Z) :
  (forall i, Z.testbit sub i = true -> Z.testbit pins i = true) ->
  lines_released (update s (o ++ [OpRelease pins]) b st p c) sub = true.
Proof.
  intros Hsub. unfold lines_released, update. cbn [PORTD DDRD].
  rewrite regs_after_app. cbn [regs_after fold_left].
  destruct (regs_after o (PORTD s, DDRD s)) as [port ddr].
  destruct (lines_released_after_Release port ddr pins sub Hsub) as [Hd Hp].
  rewrite Hd, Hp, !Z.eqb_refl. reflexivity.
Qed.

Lemma all_released_after_ReleaseAll (s : state) o b st p c :
  all_released (update s (o ++ [OpRelease (all_lines s)]) b st p c) = true.
Proof.
  unfold all_released. autorewrite with upd.
  rewrite !lines_released_update_Release; [reflexivity|..];
    intros i Hi; unfold all_lines; rewrite !Z.lor_spec, Hi;
    repeat rewrite ?orb_true_r, ?orb_true_l; reflexivity.
Qed.

(** ** Command *)

Section CommandByte.
Variables (s : state) (o : list line_op) (b : list Z) (st : Z).
Variables (cmd : Z).

(** Nobody answers Attention. *)
Lemma Command_update_no_device (p c p' c' : list Z) :
  expired (released (dioBit s)) TIME_TAT p c p' c' ->
  Command cmd (update s o b st p c)
  = Some (false,
          update s (o ++ Command_start_ops s ++ [OpRelease (all_lines s)])
                 b STATUS_NO_DEVICE p' c').
Proof.
  intros Hatn. unfold Command, Command_start_ops. do 7 step.
  step_with (WaitAssertionOrTimeout_update s
               (o ++ [OpRelease (dioBit s)] ++ [OpAssert (atnBit s)]
                  ++ [OpAssert (clkBit s)]) b STATUS_OK
               (dioBit s) TIME_TAT true p c p' c' Hatn).
  do 2 step. reflexivity.
Qed.

(** A device answers Attention; the byte goes out with its handshake. *)
Lemma Command_update_sent (p c p1 c1 p2 p3 c3 : list Z) (tf : bool) :
  answered (released (dioBit s)) TIME_TAT p c p1 c1 ->
  wait_ends (asserted (dioBit s)) p1 p2 ->
  wait_outcome (released (dioBit s)) TIME_TF tf p2 c1 p3 c3 ->
  Command cmd (update s o b st p c)
  = Some (negb tf,
          update s (o ++ Command_start_ops s ++ Send_ops (clkBit s) (dioBit s) cmd false
                      ++ Command_end_ops s)
                 (b ++ [cmd])
                 (if tf then STATUS_FRAMMING_ERROR else STATUS_OK) p3 c3).
Proof.
  intros Hatn Hready Hframe. unfold Command, Command_start_ops, Command_end_ops.
  do 7 step.
  step_with (WaitAssertionOrTimeout_update s
               (o ++ [OpRelease (dioBit s)] ++ [OpAssert (atnBit s)]
                  ++ [OpAssert (clkBit s)]) b STATUS_OK
               (dioBit s) TIME_TAT false p c p1 c1 Hatn).
  step_with (Send_update_plain s
               (o ++ [OpRelease (dioBit s)] ++ [OpAssert (atnBit s)]
                  ++ [OpAssert (clkBit s)]) b STATUS_OK cmd
               p1 c1 p2 p3 c3 tf Hready Hframe).
  do 3 step. rewrite isOk_update. now destruct tf.
Qed.
End CommandByte.

(** C1.  When every poll of the attention wait finds Data released until
    the clock is read more than [TIME_TAT] microseconds after the start,
    [Command] returns false with status NoDevice and all five lines
    released; it has sent no byte, and after claiming the bus its only
    line operation is the release of all lines. *)
Theorem Command_no_device (cmd : Z) (s : state) (pind' clock' : list Z) :
  expired (released (dioBit s)) TIME_TAT (PIND s) (micros s) pind' clock' ->
  exists s',
    Command cmd s = Some (false, s') /\
    m_status s' = STATUS_NO_DEVICE /\
    all_released s' = true /\
    sent s' = sent s /\
    log s' = log s ++ Command_start_ops s ++ [OpRelease (all_lines s)] /\
    PIND s' = pind' /\ micros s' = clock'.
Proof.
  intros H. rewrite (run_from_update (Command cmd) s).
  rewrite (Command_update_no_device s [] [] (m_status s) cmd _ _ _ _ H).
  eexists. split; [reflexivity|]. cbn [app].
  repeat split.
  - change [OpRelease (dioBit s); OpAssert (atnBit s); OpAssert (clkBit s);
            OpRelease (all_lines s)]
      with ([OpRelease (dioBit s); OpAssert (atnBit s); OpAssert (clkBit s)]
              ++ [OpRelease (all_lines s)]).
    apply all_released_after_ReleaseAll.
  - rewrite update_sent. apply app_nil_r.
Qed.

(** The constructor, run on the port at power-on, gives [controller] and
    logs its release of all lines. *)
Lemma IecSerial_builds_controller (pind clock : list Z) :
  IecSerial 2 3 4 5 6 (power_on pind clock)
  = Some (tt, add_log (OpRelease 124) (controller pind clock)).
Proof. vm_compute. reflexivity. Qed.

Lemma Command_no_device_witness :
  exists s',
    Command CMD_UNLISTEN (controller [bus_idle; bus_idle] [0; 400; 1004])
    = Some (false, s') /\
    m_status s' = STATUS_NO_DEVICE /\
    all_released s' = true /\
    sent s' = [] /\
    log s' = [OpRelease 32; OpAssert 8; OpAssert 16; OpRelease 124] /\
    PIND s' = [] /\ micros s' = [].
Proof.
  apply (Command_no_device CMD_UNLISTEN
           (controller [bus_idle; bus_idle] [0; 400; 1004]) [] []).
  exists [bus_idle], bus_idle, 0, [400], 1004.
  repeat split; reflexivity.
Defined.

(** ** Untalk and Unlisten *)

Lemma Command_then_ReleaseAll (cmd : Z) (s s' : state) (r : bool) :
  (Command cmd ;; ReleaseAll ;; isOk) s = Some (r, s') ->
  all_released s' = true /\ r = (m_status s' =? STATUS_OK).
Proof.
  intros H.
  apply bind_inv in H as (ok & s1 & _ & H).
  apply bind_inv in H as ([] & s2 & HR & H).
  rewrite (run_from_update ReleaseAll s1), ReleaseAll_update in HR.
  injection HR as <-. unfold isOk, get in H. injection H as <- <-.
  split; [|reflexivity]. apply (all_released_after_ReleaseAll s1 []).
Qed.

Lemma Untalk_eq : Untalk = (Command CMD_UNTALK ;; ReleaseAll ;; isOk).
Proof. reflexivity. Qed.

Lemma Unlisten_eq : Unlisten = (Command CMD_UNLISTEN ;; ReleaseAll ;; isOk).
Proof. reflexivity. Qed.

(** When nobody answers Attention, [Untalk] and [Unlisten] do return,
    with status NoDevice. *)
Lemma Untalk_Unlisten_no_device (s : state) (pind' clock' : list Z) :
  expired (released (dioBit s)) TIME_TAT (PIND s) (micros s) pind' clock' ->
  exists s',
    Untalk s = Some (false, s') /\ Unlisten s = Some (false, s') /\
    m_status s' = STATUS_NO_DEVICE /\ all_released s' = true.
Proof.
  intros H.
  exists (update s (Command_start_ops s ++ [OpRelease (all_lines s)]
                      ++ [OpRelease (all_lines s)])
                 [] STATUS_NO_DEVICE pind' clock').
  assert (Hrun : forall cmd,
             (Command cmd ;; ReleaseAll ;; isOk) s
             = Some (false,
                     update s (Command_start_ops s ++ [OpRelease (all_lines s)]
                                 ++ [OpRelease (all_lines s)])
                            [] STATUS_NO_DEVICE pind' clock')).
  { intros cmd. rewrite (run_from_update (Command cmd ;; ReleaseAll ;; isOk) s).
    step_with (Command_update_no_device s [] [] (m_status s) cmd _ _ _ _ H).
    step. now rewrite isOk_update. }
  rewrite Untalk_eq, Unlisten_eq, !Hrun.
  split; [reflexivity|]. split; [reflexivity|]. split; [reflexivity|].
  rewrite app_assoc. apply all_released_after_ReleaseAll.
Qed.

(** For every outcome of its [Command], the sequence of [Untalk] and
    [Unlisten] goes on to the end. *)
Lemma Command_then_ReleaseAll_runs (cmd : Z) (s s1 : state) (ok : bool) :
  Command cmd s = Some (ok, s1) ->
  exists r s',
    (Command cmd ;; ReleaseAll ;; isOk) s = Some (r, s') /\
    all_released s' = true /\
    (r = true <-> m_status s' = STATUS_OK) /\
    m_status s' = m_status s1 /\ sent s' = sent s1 /\
    log s' = log s1 ++ [OpRelease (all_lines s1)].
Proof.
  intros H.
  exists (m_status s1 =? STATUS_OK),
    (update s1 ([] ++ [OpRelease (all_lines s1)]) [] (m_status s1)
            (PIND s1) (micros s1)).
  split.
  - rewrite (bind_run _ _ _ _ _ H). cbv beta.
    rewrite (run_from_update (ReleaseAll ;; isOk) s1).
    rewrite (bind_run _ _ _ _ _
               (ReleaseAll_update s1 [] [] (m_status s1) (PIND s1)
                                  (micros s1))).
    cbv beta. apply isOk_update.
  - split; [apply (all_released_after_ReleaseAll s1 [])|].
    rewrite update_status, update_sent, update_log, app_nil_r.
    split; [apply Z.eqb_eq|]. repeat split.
Qed.

(** C8.  For every outcome of its internal [Command], the NoDevice one
    included, [Untalk] returns, and so does [Unlisten]: whenever
    [Command] of the opcode returns, the operation returns too, with all
    five lines in the released state and a result that is true exactly
    when the status is Ok; the status and the bytes sent are those
    [Command] left, and the one line operation added is the release of
    all lines.  Conversely, whatever state either operation returns has
    all five lines released. *)
Theorem Untalk_Unlisten_release_all (s s1 : state) (ok : bool) :
  (Command CMD_UNTALK s = Some (ok, s1) ->
   exists r s',
     Untalk s = Some (r, s') /\
     all_released s' = true /\
     (r = true <-> m_status s' = STATUS_OK) /\
     m_status s' = m_status s1 /\ sent s' = sent s1 /\
     log s' = log s1 ++ [OpRelease (all_lines s1)]) /\
  (Command CMD_UNLISTEN s = Some (ok, s1) ->
   exists r s',
     Unlisten s = Some (r, s') /\
     all_released s' = true /\
     (r = true <-> m_status s' = STATUS_OK) /\
     m_status s' = m_status s1 /\ sent s' = sent s1 /\
     log s' = log s1 ++ [OpRelease (all_lines s1)]) /\
  (forall r s',
     Untalk s = Some (r, s') \/ Unlisten s = Some (r, s') ->
     all_released s' = true /\ (r = true <-> m_status s' = STATUS_OK)).
Proof.
  split; [|split].
  - intros H. rewrite Untalk_eq.
    apply (Command_then_ReleaseAll_runs _ _ _ _ H).
  - intros H. rewrite Unlisten_eq.
    apply (Command_then_ReleaseAll_runs _ _ _ _ H).
  - intros r s' [H | H];
      [rewrite Untalk_eq in H | rewrite Unlisten_eq in H];
      pose proof (Command_then_ReleaseAll _ _ _ _ H) as [Hrel Hr]; subst r;
      (split; [exact Hrel | apply Z.eqb_eq]).
Qed.

(** The NoDevice outcome: nobody answers Attention, [Command] gives up
    with all lines released, and [Untalk] still returns, with the lines
    released once more. *)
Lemma Untalk_Unlisten_release_all_witness :
  exists r s',
    Untalk (controller [bus_idle; bus_idle] [0; 400; 1004]) = Some (r, s') /\
    all_released s' = true /\
    (r = true <-> m_status s' = STATUS_OK) /\
    m_status s'
    = m_status (update (controller [bus_idle; bus_idle] [0; 400; 1004])
                       [OpRelease 32; OpAssert 8; OpAssert 16; OpRelease 124]
                       [] STATUS_NO_DEVICE [] []) /\
    sent s'
    = sent (update (controller [bus_idle; bus_idle] [0; 400; 1004])
                   [OpRelease 32; OpAssert 8; OpAssert 16; OpRelease 124]
                   [] STATUS_NO_DEVICE [] []) /\
    log s'
    = log (update (controller [bus_idle; bus_idle] [0; 400; 1004])
                  [OpRelease 32; OpAssert 8; OpAssert 16; OpRelease 124]
                  [] STATUS_NO_DEVICE [] [])
        ++ [OpRelease
              (all_lines
                 (update (controller [bus_idle; bus_idle] [0; 400; 1004])
                         [OpRelease 32; OpAssert 8; OpAssert 16;
                          OpRelease 124]
                         [] STATUS_NO_DEVICE [] []))].
Proof.
  apply (proj1 (Untalk_Unlisten_release_all
                  (controller [bus_idle; bus_idle] [0; 400; 1004])
                  (update (controller [bus_idle; bus_idle] [0; 400; 1004])
                          [OpRelease 32; OpAssert 8; OpAssert 16;
                           OpRelease 124]
                          [] STATUS_NO_DEVICE [] [])
                  false)).
  vm_compute. reflexivity.
Defined.

(** ** End-or-identify *)

Lemma Send_eoi_status_framing (tye tei tf : bool) :
  Send_eoi_status tye tei tf = STATUS_FRAMMING_ERROR <-> tf = true.
Proof. destruct tye, tei, tf; cbv; split; congruence. Qed.

(** C5.  In [Send(data, true)], with [tye], [tei] and [tf] the timeout
    flags of the EOI-acknowledge wait, the EOI-hold wait and the frame
    handshake wait: the status left is FramingError exactly when [tf] is
    set.  When the frame handshake is answered, the status is Timeout if
    an EOI wait expired and Ok otherwise, never FramingError. *)
Theorem Send_eoi_framing_error_iff_frame_handshake
    (data : Z) (s : state) (p1 p2 c2 p3 c3 p4 c4 : list Z)
    (tye tei tf : bool) :
  wait_ends (asserted (dioBit s)) (PIND s) p1 ->
  wait_outcome (released (dioBit s)) TIME_TYE tye p1 (micros s) p2 c2 ->
  wait_outcome (asserted (dioBit s)) TIME_TEI tei p2 c2 p3 c3 ->
  wait_outcome (released (dioBit s)) TIME_TF tf p3 c3 p4 c4 ->
  exists (r : bool) (s' : state),
    Send data true s = Some (r, s') /\
    (m_status s' = STATUS_FRAMMING_ERROR <-> tf = true) /\
    (tf = false ->
     m_status s' = if tye || tei then STATUS_TIMEOUT else STATUS_OK) /\
    (r = true <-> m_status s' = STATUS_OK) /\
    sent s' = sent s ++ [data].
Proof.
  intros Hready Htye Htei Hframe.
  rewrite (run_from_update (Send data true) s).
  rewrite (Send_update_eoi s [] [] (m_status s) data _ _ _ _ _ _ _ _ _
             tye tei tf Hready Htye Htei Hframe).
  eexists _, _. split; [reflexivity|]. rewrite update_status, update_sent.
  repeat split.
  - apply Send_eoi_status_framing.
  - apply Send_eoi_status_framing.
  - intros ->. now destruct tye, tei.
  - apply Z.eqb_eq.
  - apply Z.eqb_eq.
Qed.

Lemma Send_eoi_framing_error_iff_frame_handshake_witness :
  exists (r : bool) (s' : state),
    Send 65 true
         (controller [bus_idle; bus_idle; bus_data_low; bus_data_low]
                     [0; 300; 300; 900; 1000]) = Some (r, s') /\
    (m_status s' = STATUS_FRAMMING_ERROR <-> false = true) /\
    (false = false ->
     m_status s' = if true || true then STATUS_TIMEOUT else STATUS_OK) /\
    (r = true <-> m_status s' = STATUS_OK) /\
    sent s' = [] ++ [65].
Proof.
  apply (Send_eoi_framing_error_iff_frame_handshake 65
           (controller [bus_idle; bus_idle; bus_data_low; bus_data_low]
                       [0; 300; 300; 900; 1000])
           [bus_idle; bus_data_low; bus_data_low]
           [bus_data_low; bus_data_low] [300; 900; 1000]
           [bus_data_low] [1000] [] []).
  - exists [], bus_idle. repeat split; reflexivity.
  - exists [], bus_idle, 0, [], 300. repeat split; reflexivity.
  - exists [], bus_data_low, 300, [], 900. repeat split; reflexivity.
  - exists [], bus_data_low, 1000, []. repeat split; reflexivity.
Defined.

(** ** Command bytes *)

Lemma u8_small (x : Z) : 0 <= x < 256 -> u8 x = x.
Proof. intros H. unfold u8. now apply Z.mod_small. Qed.

Lemma u8_lor (a b : Z) : u8 (Z.lor a b) = Z.lor (u8 a) (u8 b).
Proof.
  apply Z.bits_inj'. intros i Hi.
  rewrite Z.lor_spec, !u8_bits, Z.lor_spec by lia.
  now destruct (i <? 8).
Qed.

(** An opcode or-ed with an address is a byte already. *)
Lemma opcode_byte (opcode addr : Z) :
  0 <= opcode < 256 -> 0 <= addr < 256 ->
  u8 (Z.lor opcode addr) = Z.lor opcode addr.
Proof. intros Ho Ha. now rewrite u8_lor, !u8_small. Qed.

(** ** Listen *)

(** C7, as the code has it.  When a device answers Attention within
    [TIME_TAT] and the listener then releases Data, [Listen(pad)] returns
    after sending exactly one byte, [0x20 | pad], between the assertion
    and the release of Attention.  The log ends with the release of
    Attention and its delay: no operation of [Turnaround] follows.  The
    result is true exactly when the frame handshake was answered. *)
Theorem Listen_sends_one_byte (pad : Z) (s : state)
    (p1 c1 p2 p3 c3 : list Z) (tf : bool) :
  0 <= pad <= 30 ->
  answered (released (dioBit s)) TIME_TAT (PIND s) (micros s) p1 c1 ->
  wait_ends (asserted (dioBit s)) p1 p2 ->
  wait_outcome (released (dioBit s)) TIME_TF tf p2 c1 p3 c3 ->
  exists s',
    Listen pad s = Some (negb tf, s') /\
    sent s' = sent s ++ [Z.lor CMD_LISTEN pad] /\
    log s' = log s ++ Command_start_ops s
               ++ Send_ops (clkBit s) (dioBit s) (Z.lor CMD_LISTEN pad) false
               ++ Command_end_ops s /\
    m_status s' = (if tf then STATUS_FRAMMING_ERROR else STATUS_OK) /\
    PIND s' = p3 /\ micros s' = c3.
Proof.
  intros Hpad Hatn Hready Hframe. unfold Listen.
  rewrite opcode_byte by (unfold CMD_LISTEN; lia).
  rewrite (run_from_update (Command (Z.lor CMD_LISTEN pad)) s).
  rewrite (Command_update_sent s [] [] (m_status s) (Z.lor CMD_LISTEN pad)
             _ _ _ _ _ _ _ tf Hatn Hready Hframe).
  eexists. split; [reflexivity|].
  rewrite update_sent, update_log, update_status, update_PIND, update_micros.
  repeat split.
Qed.

Lemma Listen_sends_one_byte_witness :
  exists s',
    Listen 4 (controller [bus_idle; bus_data_low; bus_data_low; bus_idle;
                          bus_idle; bus_data_low] [0; 10; 100; 150])
    = Some (negb false, s') /\
    sent s' = [] ++ [Z.lor CMD_LISTEN 4] /\
    log s' = [] ++ [OpRelease 32; OpAssert 8; OpAssert 16]
               ++ Send_ops 16 32 (Z.lor CMD_LISTEN 4) false
               ++ [OpDelay TIME_TR; OpRelease 8; OpDelay TIME_TTK] /\
    m_status s' = (if false then STATUS_FRAMMING_ERROR else STATUS_OK) /\
    PIND s' = [] /\ micros s' = [].
Proof.
  apply (Listen_sends_one_byte 4
           (controller [bus_idle; bus_data_low; bus_data_low; bus_idle;
                        bus_idle; bus_data_low] [0; 10; 100; 150])
           [bus_data_low; bus_idle; bus_idle; bus_data_low] [100; 150]
           [bus_idle; bus_data_low] [] [] false).
  - lia.
  - exists [bus_idle], bus_data_low, 0, [10]. repeat split; reflexivity.
  - exists [bus_data_low], bus_idle. repeat split; reflexivity.
  - exists [bus_idle], bus_data_low, 100, [150]. repeat split; reflexivity.
Defined.

(** C7 as stated fails when nobody answers Attention: [Listen(4)] then
    returns without having sent any byte. *)
Lemma Listen_no_device_sends_nothing :
  exists s',
    Listen 4 (controller [bus_idle; bus_idle] [0; 400; 1004])
    = Some (false, s') /\
    sent s' = [] /\
    sent s' <> [Z.lor CMD_LISTEN 4].
Proof.
  eexists. split; [vm_compute; reflexivity|].
  split; [reflexivity|discriminate].
Qed.

(** ** Two command bytes *)

Section TwoBytes.
Variables (s : state) (o : list line_op) (b : list Z) (st : Z).
Variables (d1 d2 : Z).

(** The first byte is accepted; the second meets either outcome. *)
Lemma Send_array_update_two (p c p1 p2 c2 p3 p4 c4 : list Z) (tf : bool) :
  wait_ends (asserted (dioBit s)) p p1 ->
  answered (released (dioBit s)) TIME_TF p1 c p2 c2 ->
  wait_ends (asserted (dioBit s)) p2 p3 ->
  wait_outcome (released (dioBit s)) TIME_TF tf p3 c2 p4 c4 ->
  Send_array [d1; d2] 2 false (update s o b st p c)
  = Some (negb tf,
          update s (o ++ Send_ops (clkBit s) (dioBit s) d1 false ++ Send_ops (clkBit s) (dioBit s) d2 false)
                 (b ++ [d1; d2])
                 (if tf then STATUS_FRAMMING_ERROR else STATUS_OK) p4 c4).
Proof.
  intros Hready1 Hframe1 Hready2 Hframe2.
  unfold Send_array. cbn [Send_array_loop Nat.sub Nat.eqb nth andb].
  rewrite (bind_run _ _ _
             (update s (o ++ Send_ops (clkBit s) (dioBit s) d1 false
                          ++ Send_ops (clkBit s) (dioBit s) d2 false)
                     (b ++ [d1; d2])
                     (if tf then STATUS_FRAMMING_ERROR else STATUS_OK) p4 c4)
             tt).
  - rewrite isOk_update. now destruct tf.
  - step_with (Send_update_plain s o b st d1 p c p1 p2 c2 false
                 Hready1 Hframe1).
    cbn [negb].
    step_with (Send_update_plain s (o ++ Send_ops (clkBit s) (dioBit s) d1 false)
                 (b ++ [d1]) STATUS_OK d2 p2 c2 p3 p4 c4 tf
                 Hready2 Hframe2).
    now destruct tf.
Qed.

(** The first byte is not accepted: the second is never sent. *)
Lemma Send_array_update_first_fails (p c p1 p2 c2 : list Z) :
  wait_ends (asserted (dioBit s)) p p1 ->
  expired (released (dioBit s)) TIME_TF p1 c p2 c2 ->
  Send_array [d1; d2] 2 false (update s o b st p c)
  = Some (false,
          update s (o ++ Send_ops (clkBit s) (dioBit s) d1 false) (b ++ [d1])
                 STATUS_FRAMMING_ERROR p2 c2).
Proof.
  intros Hready1 Hframe1.
  unfold Send_array. cbn [Send_array_loop Nat.sub Nat.eqb nth andb].
  rewrite (bind_run _ _ _
             (update s (o ++ Send_ops (clkBit s) (dioBit s) d1 false) (b ++ [d1])
                     STATUS_FRAMMING_ERROR p2 c2) tt).
  - now rewrite isOk_update.
  - now step_with (Send_update_plain s o b st d1 p c p1 p2 c2 true
                     Hready1 Hframe1).
Qed.

End TwoBytes.

Lemma Command_array_update_two (s : state) o b st (d1 d2 : Z)
    (p c p0 c0 p1 p2 c2 p3 p4 c4 : list Z) (tf : bool) :
  answered (released (dioBit s)) TIME_TAT p c p0 c0 ->
  wait_ends (asserted (dioBit s)) p0 p1 ->
  answered (released (dioBit s)) TIME_TF p1 c0 p2 c2 ->
  wait_ends (asserted (dioBit s)) p2 p3 ->
  wait_outcome (released (dioBit s)) TIME_TF tf p3 c2 p4 c4 ->
  Command_array [d1; d2] 2 (update s o b st p c)
  = Some (negb tf,
          update s (o ++ Command_start_ops s
                      ++ Send_ops (clkBit s) (dioBit s) d1 false
                      ++ Send_ops (clkBit s) (dioBit s) d2 false
                      ++ Command_end_ops s)
                 (b ++ [d1; d2])
                 (if tf then STATUS_FRAMMING_ERROR else STATUS_OK) p4 c4).
Proof.
  intros Hatn Hready1 Hframe1 Hready2 Hframe2.
  unfold Command_array, Command_start_ops, Command_end_ops.
  do 7 step.
  step_with (WaitAssertionOrTimeout_update s
               (o ++ [OpRelease (dioBit s)] ++ [OpAssert (atnBit s)]
                  ++ [OpAssert (clkBit s)]) b STATUS_OK
               (dioBit s) TIME_TAT false p c p0 c0 Hatn).
  step_with (Send_array_update_two s
               (o ++ [OpRelease (dioBit s)] ++ [OpAssert (atnBit s)]
                  ++ [OpAssert (clkBit s)]) b STATUS_OK d1 d2
               p0 c0 p1 p2 c2 p3 p4 c4 tf
               Hready1 Hframe1 Hready2 Hframe2).
  do 3 step. rewrite isOk_update. now destruct tf.
Qed.


(** ** Turnaround and Talk *)

Lemma Turnaround_update (s : state) o b st (p c p' c' : list Z) (ta : bool) :
  wait_outcome (released (clkBit s)) 1000 ta p c p' c' ->
  Turnaround (update s o b st p c)
  = Some (negb ta,
          update s (o ++ Turnaround_ops s ta) b
                 (if ta then STATUS_TIMEOUT else st) p' c').
Proof.
  intros Hclk. unfold Turnaround, Turnaround_ops. do 6 step.
  step_with (WaitAssertionOrTimeout_update s
               (o ++ [OpDelay TIME_TTK] ++ [OpAssert (dioBit s)]
                  ++ [OpRelease (clkBit s)] ++ [OpDelay TIME_TDC]) b st
               (clkBit s) 1000 ta p c p' c' Hclk).
  destruct ta.
  - unfold ret. now autorewrite with upd.
  - step. reflexivity.
Qed.

Lemma SendBits_loop_ops_clock_data_only (clk dio : Z) (n : nat) :
  forall data,
    forallb (clock_data_only clk dio) (SendBits_loop_ops clk dio n data) = true.
Proof.
  induction n as [|n IH]; intros data; [reflexivity|].
  cbn [SendBits_loop_ops]. rewrite forallb_app, IH.
  destruct (negb (Z.land data 1 =? 0)); cbn;
    now rewrite !Z.eqb_refl, ?orb_true_r.
Qed.

(** The handshake of a byte never operates another line than Clock and
    Data; in particular it leaves Attention as it is. *)
Lemma Send_ops_clock_data_only (clk dio data : Z) (eoi : bool) :
  forallb (clock_data_only clk dio) (Send_ops clk dio data eoi) = true.
Proof.
  unfold Send_ops, SendBits_ops.
  rewrite !forallb_app, SendBits_loop_ops_clock_data_only. cbn.
  now rewrite !Z.eqb_refl, ?orb_true_r.
Qed.

Lemma Talk_sad_eq (pad sad : Z) :
  Talk_sad pad sad
  = (ok <- Command_array [u8 (Z.lor CMD_TALK pad);
                          u8 (Z.lor CMD_SECONDARY sad)] 2 ;;
     if ok then Turnaround else ret false).
Proof.
  exact (eq_refl (ok <- Command_array [u8 (Z.lor CMD_TALK pad);
                                       u8 (Z.lor CMD_SECONDARY sad)] 2 ;;
                  if ok then Turnaround else ret false)).
Qed.

(** In every run of [Talk(pad, sad)] that returns, [Turnaround] is what
    follows the command phase exactly when the command phase returned
    true. *)
Lemma Talk_sad_Turnaround_iff (pad sad : Z) (s s' : state) (r : bool) :
  Talk_sad pad sad s = Some (r, s') ->
  exists (ok : bool) (s1 : state),
    Command_array [u8 (Z.lor CMD_TALK pad); u8 (Z.lor CMD_SECONDARY sad)] 2 s
    = Some (ok, s1) /\
    (if ok then Turnaround s1 = Some (r, s') else r = false /\ s' = s1).
Proof.
  rewrite Talk_sad_eq. intros H.
  apply bind_inv in H as (ok & s1 & Hcmd & H).
  exists ok, s1. split; [exact Hcmd|].
  destruct ok; [exact H|]. unfold ret in H. now injection H as <- <-.
Qed.

(** The command phase of two bytes followed by the turnaround decision,
    for any two bytes. *)
Lemma Command_array_then_Turnaround (d1 d2 : Z) (s : state)
    (p0 c0 p1 p2 c2 p3 p4 c4 p5 c5 : list Z) (tf ta : bool) :
  answered (released (dioBit s)) TIME_TAT (PIND s) (micros s) p0 c0 ->
  wait_ends (asserted (dioBit s)) p0 p1 ->
  answered (released (dioBit s)) TIME_TF p1 c0 p2 c2 ->
  wait_ends (asserted (dioBit s)) p2 p3 ->
  wait_outcome (released (dioBit s)) TIME_TF tf p3 c2 p4 c4 ->
  (tf = false -> wait_outcome (released (clkBit s)) 1000 ta p4 c4 p5 c5) ->
  exists (ok : bool) (s1 : state) (r : bool) (s' : state),
    Command_array [d1; d2] 2 s = Some (ok, s1) /\
    ok = negb tf /\
    sent s1 = sent s ++ [d1; d2] /\
    log s1 = log s ++ Command_start_ops s
               ++ (Send_ops (clkBit s) (dioBit s) d1 false
                   ++ Send_ops (clkBit s) (dioBit s) d2 false)
               ++ Command_end_ops s /\
    (ok <- Command_array [d1; d2] 2 ;; if ok then Turnaround else ret false) s
    = Some (r, s') /\
    sent s' = sent s ++ [d1; d2] /\
    (if ok
     then Turnaround s1 = Some (r, s') /\
          log s' = log s1 ++ Turnaround_ops s ta /\ r = negb ta
     else r = false /\ s' = s1).
Proof.
  intros Hatn Hready1 Hframe1 Hready2 Hframe2 Hturn.
  pose proof (Command_array_update_two s [] [] (m_status s) d1 d2
                _ _ _ _ _ _ _ _ _ _ tf Hatn Hready1 Hframe1 Hready2 Hframe2)
    as Hcmd.
  rewrite <- (run_from_update (Command_array [d1; d2] 2) s) in Hcmd.
  rewrite !app_nil_l in Hcmd.
  assert (Hlog : log s ++ Command_start_ops s
                   ++ Send_ops (clkBit s) (dioBit s) d1 false
                   ++ Send_ops (clkBit s) (dioBit s) d2 false
                   ++ Command_end_ops s
                 = log s ++ Command_start_ops s
                     ++ (Send_ops (clkBit s) (dioBit s) d1 false
                         ++ Send_ops (clkBit s) (dioBit s) d2 false)
                     ++ Command_end_ops s)
    by now rewrite <- !app_assoc.
  rewrite (bind_run _ _ _ _ _ Hcmd).
  destruct tf; cbn [negb] in *.
  - exists false. eexists. exists false. eexists.
    split; [exact Hcmd|]. split; [reflexivity|].
    split; [apply update_sent|]. split; [rewrite update_log; exact Hlog|].
    split; [reflexivity|].
    split; [apply update_sent|]. split; reflexivity.
  - specialize (Hturn eq_refl).
    pose proof (Turnaround_update s
                  (Command_start_ops s
                      ++ Send_ops (clkBit s) (dioBit s) d1 false
                      ++ Send_ops (clkBit s) (dioBit s) d2 false
                      ++ Command_end_ops s)
                  [d1; d2] STATUS_OK
                  _ _ _ _ ta Hturn) as Hrun.
    exists true. eexists. exists (negb ta). eexists.
    split; [exact Hcmd|]. split; [reflexivity|].
    split; [apply update_sent|]. split; [rewrite update_log; exact Hlog|].
    split; [exact Hrun|].
    split; [apply update_sent|]. split; [exact Hrun|].
    split; [|reflexivity].
    rewrite !update_log. now rewrite <- !app_assoc.
Qed.

(** C6, as the code has it.  When a device answers Attention within
    [TIME_TAT] and the listener accepts the first byte (ready, then the
    frame handshake answered) and becomes ready for the second,
    [Talk(pad, sad)] sends exactly [0x40 | pad] then [0x60 | sad] in one
    command phase: Attention is asserted before the first byte, released
    after the second, and the two handshakes in between operate only
    Clock and Data.  [Turnaround] runs exactly when that command phase
    returned true, that is when the frame handshake of the second byte
    was answered ([tf] false); otherwise the state the command phase left
    is the final state. *)
Theorem Talk_sad_sends_two_bytes (pad sad : Z) (s : state)
    (p0 c0 p1 p2 c2 p3 p4 c4 p5 c5 : list Z) (tf ta : bool) :
  0 <= pad <= 30 ->
  0 <= sad <= 31 ->
  answered (released (dioBit s)) TIME_TAT (PIND s) (micros s) p0 c0 ->
  wait_ends (asserted (dioBit s)) p0 p1 ->
  answered (released (dioBit s)) TIME_TF p1 c0 p2 c2 ->
  wait_ends (asserted (dioBit s)) p2 p3 ->
  wait_outcome (released (dioBit s)) TIME_TF tf p3 c2 p4 c4 ->
  (tf = false -> wait_outcome (released (clkBit s)) 1000 ta p4 c4 p5 c5) ->
  exists (ok : bool) (s1 : state) (r : bool) (s' : state),
    Command_array [Z.lor CMD_TALK pad; Z.lor CMD_SECONDARY sad] 2 s
    = Some (ok, s1) /\
    ok = negb tf /\
    sent s1 = sent s ++ [Z.lor CMD_TALK pad; Z.lor CMD_SECONDARY sad] /\
    log s1 = log s ++ Command_start_ops s
               ++ (Send_ops (clkBit s) (dioBit s) (Z.lor CMD_TALK pad) false
                   ++ Send_ops (clkBit s) (dioBit s)
                               (Z.lor CMD_SECONDARY sad) false)
               ++ Command_end_ops s /\
    forallb (clock_data_only (clkBit s) (dioBit s))
            (Send_ops (clkBit s) (dioBit s) (Z.lor CMD_TALK pad) false
             ++ Send_ops (clkBit s) (dioBit s) (Z.lor CMD_SECONDARY sad) false)
    = true /\
    Talk_sad pad sad s = Some (r, s') /\
    sent s' = sent s ++ [Z.lor CMD_TALK pad; Z.lor CMD_SECONDARY sad] /\
    (if ok
     then Turnaround s1 = Some (r, s') /\
          log s' = log s1 ++ Turnaround_ops s ta /\ r = negb ta
     else r = false /\ s' = s1).
Proof.
  intros Hpad Hsad Hatn Hready1 Hframe1 Hready2 Hframe2 Hturn.
  destruct (Command_array_then_Turnaround
              (Z.lor CMD_TALK pad) (Z.lor CMD_SECONDARY sad) s
              p0 c0 p1 p2 c2 p3 p4 c4 p5 c5 tf ta
              Hatn Hready1 Hframe1 Hready2 Hframe2 Hturn)
    as (ok & s1 & r & s' & Hcmd & Hok & Hsent1 & Hlog1 & Hrun & Hsent & Hif).
  exists ok, s1, r, s'.
  split; [exact Hcmd|]. split; [exact Hok|]. split; [exact Hsent1|].
  split; [exact Hlog1|].
  split; [now rewrite forallb_app, !Send_ops_clock_data_only|].
  split; [|split; [exact Hsent | exact Hif]].
  rewrite Talk_sad_eq.
  rewrite !opcode_byte by (unfold CMD_TALK, CMD_SECONDARY; lia).
  exact Hrun.
Qed.

Lemma Talk_sad_sends_two_bytes_witness :
  exists (r : bool) (s' : state),
    Talk_sad 8 15
      (controller [bus_idle; bus_data_low; bus_data_low; bus_idle;
                   bus_idle; bus_data_low; bus_data_low; bus_idle;
                   bus_idle; bus_data_low; bus_idle; bus_clock_low]
                  [0; 10; 100; 150; 400; 450; 700; 720])
    = Some (r, s') /\
    sent s' = [] ++ [Z.lor CMD_TALK 8; Z.lor CMD_SECONDARY 15].
Proof.
  destruct (Talk_sad_sends_two_bytes 8 15
              (controller [bus_idle; bus_data_low; bus_data_low; bus_idle;
                           bus_idle; bus_data_low; bus_data_low; bus_idle;
                           bus_idle; bus_data_low; bus_idle; bus_clock_low]
                          [0; 10; 100; 150; 400; 450; 700; 720])
              [bus_data_low; bus_idle; bus_idle; bus_data_low; bus_data_low;
               bus_idle; bus_idle; bus_data_low; bus_idle; bus_clock_low]
              [100; 150; 400; 450; 700; 720]
              [bus_idle; bus_data_low; bus_data_low; bus_idle; bus_idle;
               bus_data_low; bus_idle; bus_clock_low]
              [bus_data_low; bus_idle; bus_idle; bus_data_low; bus_idle;
               bus_clock_low]
              [400; 450; 700; 720]
              [bus_idle; bus_data_low; bus_idle; bus_clock_low]
              [bus_idle; bus_clock_low] [700; 720] [] [] false false)
    as (ok & s1 & r & s' & _ & _ & _ & _ & _ & Hrun & Hsent & _).
  - lia.
  - lia.
  - exists [bus_idle], bus_data_low, 0, [10]. repeat split; reflexivity.
  - exists [bus_data_low], bus_idle. repeat split; reflexivity.
  - exists [bus_idle], bus_data_low, 100, [150]. repeat split; reflexivity.
  - exists [bus_data_low], bus_idle. repeat split; reflexivity.
  - exists [bus_idle], bus_data_low, 400, [450]. repeat split; reflexivity.
  - intros _. exists [bus_idle], bus_clock_low, 700, [720].
    repeat split; reflexivity.
  - exists r, s'. split; [exact Hrun | exact Hsent].
Defined.

(** C6 as stated fails in two ways: when nobody answers Attention no byte
    is sent, and when the first byte is not acknowledged within [TIME_TF]
    the second byte is not sent. *)
Lemma Talk_sad_may_send_fewer_bytes :
  (exists s',
     Talk_sad 8 15 (controller [bus_idle; bus_idle] [0; 400; 1004])
     = Some (false, s') /\
     sent s' = [] /\
     sent s' <> [Z.lor CMD_TALK 8; Z.lor CMD_SECONDARY 15]) /\
  (exists s',
     Talk_sad 8 15
       (controller [bus_idle; bus_data_low; bus_data_low; bus_idle;
                    bus_idle; bus_idle] [0; 10; 100; 150; 1200])
     = Some (false, s') /\
     sent s' = [Z.lor CMD_TALK 8] /\
     sent s' <> [Z.lor CMD_TALK 8; Z.lor CMD_SECONDARY 15]).
Proof.
  split; eexists; (split; [vm_compute; reflexivity|]);
    (split; [reflexivity|discriminate]).
Qed.

(** ** Round trip: [SendBits] against [GetBits] *)

(** *** Levels on the wire *)

Lemma lines_high_single (q i : Z) :
  0 <= i -> lines_high q (2 ^ i) = Z.testbit q i.
Proof.
  intros Hi. unfold lines_high.
  destruct (Z.testbit q i) eqn:E.
  - apply negb_true_iff, Z.eqb_neq. apply land_nonzero_iff.
    exists i. split; [now apply Z.pow2_bits_true | exact E].
  - apply negb_false_iff, Z.eqb_eq. apply land_zero_iff.
    intros j Hj. rewrite Z.pow2_bits_eqb in Hj by exact Hi.
    apply Z.eqb_eq in Hj. now subst j.
Qed.

Lemma lines_low_single (q i : Z) :
  0 <= i -> lines_low q (2 ^ i) = negb (Z.testbit q i).
Proof.
  intros Hi. rewrite <- (lines_high_single q i Hi).
  unfold lines_high, lines_low. now rewrite negb_involutive.
Qed.

Lemma drive_bits (port ddr i : Z) :
  0 <= i ->
  Z.testbit (drive (port, ddr)) i
  = (i <? 8) && (negb (Z.testbit ddr i) || Z.testbit port i).
Proof.
  intros Hi. unfold drive.
  now rewrite u8_bits, Z.lor_spec, Z.lnot_spec by exact Hi.
Qed.

Section Pins.
Variables (regs : Z * Z) (i j : Z).
Hypothesis Hi : 0 <= i < 8.
Hypothesis Hj : 0 <= j.

Lemma drive_Assert_same :
  Z.testbit (drive (op_regs (OpAssert (2 ^ i)) regs)) i = false.
Proof.
  destruct regs as [port ddr]. cbn [op_regs].
  rewrite drive_bits, !u8_bits, Z.lor_spec, Z.land_spec, Z.lnot_spec,
    Z.pow2_bits_true by lia.
  destruct (i <? 8) eqn:E; [|apply Z.ltb_ge in E; lia].
  now rewrite orb_true_r, andb_false_r.
Qed.

Lemma drive_Release_same :
  Z.testbit (drive (op_regs (OpRelease (2 ^ i)) regs)) i = true.
Proof.
  destruct regs as [port ddr]. cbn [op_regs].
  rewrite drive_bits, !u8_bits, Z.lor_spec, Z.land_spec, Z.lnot_spec,
    Z.pow2_bits_true by lia.
  destruct (i <? 8) eqn:E; [|apply Z.ltb_ge in E; lia].
  cbn. now rewrite andb_false_r.
Qed.

Lemma drive_Assert_other :
  i <> j ->
  Z.testbit (drive (op_regs (OpAssert (2 ^ j)) regs)) i
  = Z.testbit (drive regs) i.
Proof.
  intros Hne. destruct regs as [port ddr]. cbn [op_regs].
  rewrite !drive_bits, !u8_bits, Z.lor_spec, Z.land_spec, Z.lnot_spec,
    Z.pow2_bits_false by lia.
  destruct (i <? 8); [|reflexivity].
  cbn. now rewrite orb_false_r, andb_true_r.
Qed.

Lemma drive_Release_other :
  i <> j ->
  Z.testbit (drive (op_regs (OpRelease (2 ^ j)) regs)) i
  = Z.testbit (drive regs) i.
Proof.
  intros Hne. destruct regs as [port ddr]. cbn [op_regs].
  rewrite !drive_bits, !u8_bits, Z.lor_spec, Z.land_spec, Z.lnot_spec,
    Z.pow2_bits_false by lia.
  destruct (i <? 8); [|reflexivity].
  cbn. now rewrite orb_false_r, andb_true_r.
Qed.
End Pins.

(** *** The waveform of the transmitter *)

Lemma waveform_app (rate : nat) (o1 o2 : list line_op) :
  forall regs,
    waveform rate (o1 ++ o2) regs
    = waveform rate o1 regs ++ waveform rate o2 (regs_after o1 regs).
Proof.
  induction o1 as [|op o1 IH]; intros regs; [reflexivity|].
  cbn [app waveform regs_after fold_left]. rewrite IH, app_assoc.
  reflexivity.
Qed.

Lemma repeat_cons {A} (x : A) (n : nat) :
  (1 <= n)%nat -> repeat x n = x :: repeat x (n - 1).
Proof.
  destruct n as [|n]; [lia|]. intros _.
  replace (S n - 1)%nat with n by lia. reflexivity.
Qed.

Lemma forallb_repeat {A} (f : A -> bool) (x : A) (n : nat) :
  f x = true -> forallb f (repeat x n) = true.
Proof. intros H. induction n; cbn; [reflexivity|]. now rewrite H, IHn. Qed.

Lemma op_regs_delay (us : Z) (regs : Z * Z) : op_regs (OpDelay us) regs = regs.
Proof. now destruct regs. Qed.

Lemma set_PIND_update (w : list Z) (s : state) :
  set_PIND w s = update s [] [] (m_status s) w (micros s).
Proof. destruct s. unfold set_PIND, update. cbn. now rewrite !app_nil_r. Qed.

Lemma isReleased_update {B} (pins q : Z) (k : bool -> M B)
    (s : state) o b st (p c : list Z) :
  bind (isReleased pins) k (update s o b st (q :: p) c)
  = k (lines_high q pins) (update s o b st p c).
Proof. reflexivity. Qed.

(** *** One turn of the receiver *)

(** The receiver first skips readings with Clock high, meets Clock low,
    waits for Clock high again and samples Data on the next reading. *)
Lemma GetBits_loop_turn (rx : state) o b st (cl : list Z) (n : nat) (acc : Z)
    (highs lows : list Z) (l v1 v2 : Z) (rest : list Z) :
  forallb (released (clkBit rx)) highs = true ->
  released (clkBit rx) l = false ->
  forallb (asserted (clkBit rx)) lows = true ->
  asserted (clkBit rx) v1 = false ->
  GetBits_loop (S n) acc
    (update rx o b st (highs ++ l :: lows ++ v1 :: v2 :: rest) cl)
  = GetBits_loop n
      (if released (dioBit rx) v2
       then u8 (Z.lor (Z.shiftr acc 1) 128) else Z.shiftr acc 1)
      (update rx o b st rest cl).
Proof.
  intros Hhighs Hl Hlows Hv1. cbn [GetBits_loop]. do 2 step.
  assert (Hfall : wait_ends (released (clkBit rx))
                    (highs ++ l :: lows ++ v1 :: v2 :: rest)
                    (lows ++ v1 :: v2 :: rest))
    by (exists highs, l; auto).
  assert (Hrise : wait_ends (asserted (clkBit rx))
                    (lows ++ v1 :: v2 :: rest) (v2 :: rest))
    by (exists lows, v1; auto).
  step_with (WaitAssertion_update rx o b st _ _ _ cl Hfall).
  step_with (WaitRelease_update rx o b st _ _ _ cl Hrise).
  rewrite isReleased_update. reflexivity.
Qed.

(** *** All the turns *)

Section RoundTrip.
Variables (rate : nat) (c d : Z).
Hypothesis Hrate : (1 <= rate)%nat.
Hypothesis Hc : 0 <= c < 8.
Hypothesis Hd : 0 <= d < 8.
Hypothesis Hcd : c <> d.

Variables (rx : state).
Hypothesis Hclk : clkBit rx = 2 ^ c.
Hypothesis Hdio : dioBit rx = 2 ^ d.

Lemma clock_low_sample (regs : Z * Z) :
  released (clkBit rx) (drive (op_regs (OpAssert (2 ^ c)) regs)) = false /\
  asserted (clkBit rx) (drive (op_regs (OpAssert (2 ^ c)) regs)) = true.
Proof.
  unfold released, asserted.
  rewrite Hclk, lines_high_single, lines_low_single by lia.
  now rewrite drive_Assert_same.
Qed.

Lemma clock_high_sample (regs : Z * Z) :
  released (clkBit rx) (drive (op_regs (OpRelease (2 ^ c)) regs)) = true /\
  asserted (clkBit rx) (drive (op_regs (OpRelease (2 ^ c)) regs)) = false.
Proof.
  unfold released, asserted.
  rewrite Hclk, lines_high_single, lines_low_single by lia.
  now rewrite drive_Release_same.
Qed.

Lemma round_trip_loop (o : list line_op) (b : list Z) (st : Z)
    (cl rest : list Z) (n : nat) :
  forall (data acc : Z) (regs : Z * Z) (highs : list Z),
    forallb (released (clkBit rx)) highs = true ->
    exists highs',
      forallb (released (clkBit rx)) highs' = true /\
      GetBits_loop n acc
        (update rx o b st
           (highs ++ waveform rate (SendBits_loop_ops (2 ^ c) (2 ^ d) n data)
                              regs ++ rest) cl)
      = Some (GetBits_value n acc data, update rx o b st (highs' ++ rest) cl).
Proof.
  induction n as [|n IH]; intros data acc regs highs Hhighs.
  - exists highs. split; [exact Hhighs|reflexivity].
  - cbn [SendBits_loop_ops GetBits_value app waveform].
    change (Z.to_nat (TIME_TS / 2)) with 35%nat.
    change (Z.to_nat TIME_TV) with 20%nat.
    rewrite !op_regs_delay.
    set (r1 := op_regs (OpAssert (2 ^ c)) regs).
    set (bit := negb (Z.land data 1 =? 0)).
    set (dop := if bit then OpRelease (2 ^ d) else OpAssert (2 ^ d)).
    set (r2 := op_regs dop r1).
    set (r3 := op_regs (OpRelease (2 ^ c)) r2).
    assert (Hw : (match dop with
                  | OpDelay us => repeat (drive r1) (rate * Z.to_nat us)
                  | _ => []
                  end) = []) by (unfold dop; now destruct bit).
    rewrite Hw. cbn [app].
    destruct (clock_low_sample regs) as [Hr1 Ha1]. fold r1 in Hr1, Ha1.
    assert (Ha2 : asserted (clkBit rx) (drive r2) = true).
    { unfold asserted in *.
      rewrite Hclk, lines_low_single in * by lia.
      unfold r2, dop. destruct bit;
        [rewrite drive_Release_other by lia
        |rewrite drive_Assert_other by lia]; exact Ha1. }
    destruct (clock_high_sample r2) as [Hr3 Ha3]. fold r3 in Hr3, Ha3.
    assert (Hbit : released (dioBit rx) (drive r3) = bit).
    { unfold released. rewrite Hdio, lines_high_single by lia.
      unfold r3. rewrite drive_Release_other by lia.
      unfold r2, dop. destruct bit;
        [apply drive_Release_same | apply drive_Assert_same]; lia. }
    rewrite (repeat_cons (drive r1) (rate * 35)) by lia.
    rewrite (repeat_cons (drive r3) (rate * 20)) by lia.
    rewrite (repeat_cons (drive r3) (rate * 20 - 1)) by lia.
    destruct (IH (Z.shiftr data 1)
                 (if bit then u8 (Z.lor (Z.shiftr acc 1) 128)
                  else Z.shiftr acc 1)
                 r3 (repeat (drive r3) (rate * 20 - 1 - 1)))
      as (highs' & Hhighs' & Hrun).
    { now apply forallb_repeat. }
    exists highs'. split; [exact Hhighs'|].
    rewrite <- Hrun, <- Hbit.
    rewrite <- (GetBits_loop_turn rx o b st cl n acc highs
                  (repeat (drive r1) (rate * 35 - 1)
                     ++ repeat (drive r2) (rate * 35))
                  (drive r1) (drive r3) (drive r3)).
    + repeat (rewrite <- app_assoc || rewrite <- app_comm_cons).
      reflexivity.
    + exact Hhighs.
    + exact Hr1.
    + rewrite forallb_app, !forallb_repeat by assumption. reflexivity.
    + exact Ha3.
Qed.
End RoundTrip.

(** *** The byte the receiver assembles *)

Lemma GetBits_value_all_bytes :
  forallb (fun data => GetBits_value 8 0 data =? data) all_bytes = true.
Proof. vm_compute. reflexivity. Qed.

Lemma GetBits_value_byte (data : Z) :
  0 <= data <= 255 -> GetBits_value 8 0 data = data.
Proof.
  intros H. apply Z.eqb_eq.
  apply (proj1 (forallb_forall _ all_bytes) GetBits_value_all_bytes).
  unfold all_bytes. apply in_map_iff. exists (Z.to_nat data).
  split; [apply Z2Nat.id; lia|]. apply in_seq. lia.
Qed.

(** *** Bit order on the Data line *)

Lemma low_bit_test (data : Z) : negb (Z.land data 1 =? 0) = Z.testbit data 0.
Proof. exact (lines_high_single data 0 (Z.le_refl 0)). Qed.

Lemma SendBits_loop_ops_lsb_first (clk dio : Z) (n : nat) :
  clk <> dio ->
  forall data,
    data_line_ops dio (SendBits_loop_ops clk dio n data)
    = map (fun i => bit_op dio (Z.testbit data (Z.of_nat i))) (seq 0 n).
Proof.
  intros Hne. apply Z.eqb_neq in Hne.
  induction n as [|n IH]; intros data; [reflexivity|].
  cbn [SendBits_loop_ops]. unfold data_line_ops in *.
  rewrite filter_app, IH, low_bit_test. cbn [seq map].
  rewrite <- seq_shift, map_map.
  replace (filter _ _) with [bit_op dio (Z.testbit data 0)].
  - cbn [app Z.of_nat]. f_equal. apply map_ext. intros i.
    rewrite Z.shiftr_spec by lia. do 2 f_equal. lia.
  - cbn [filter]. rewrite Hne.
    destruct (Z.testbit data 0); cbn; now rewrite Z.eqb_refl.
Qed.

(** The transmitter puts bits 0 to 7 of the byte on Data in this order,
    then releases Data. *)
Lemma SendBits_ops_lsb_first (clk dio data : Z) :
  clk <> dio ->
  data_line_ops dio (SendBits_ops clk dio data)
  = map (fun i => bit_op dio (Z.testbit data (Z.of_nat i))) (seq 0 8)
    ++ [OpRelease dio].
Proof.
  intros Hne.
  rewrite <- (SendBits_loop_ops_lsb_first clk dio 8 Hne data).
  unfold SendBits_ops, data_line_ops. rewrite filter_app.
  f_equal. cbn [filter]. apply Z.eqb_neq in Hne.
  now rewrite Z.eqb_refl, Hne.
Qed.

Lemma GetBits_eq : GetBits = GetBits_loop 8 0.
Proof. reflexivity. Qed.

(** C2.  For every byte [data], a controller whose Clock and Data masks are
    two different pins of the port runs [SendBits data] to the end; a
    partner with the same two pins that releases its own lines and polls
    the bus [rate >= 1] times per microsecond reads the waveform of these
    line operations, and its [GetBits] returns exactly [data].  The bits
    travel lowest first: [SendBits_loop] puts bit 0 on Data and shifts
    right, [GetBits_loop] shifts right and sets bit 7. *)
Theorem SendBits_GetBits_round_trip (data : Z) (rate : nat) (c d : Z)
    (tx rx : state) (rest : list Z) :
  0 <= data <= 255 ->
  (1 <= rate)%nat ->
  0 <= c < 8 -> 0 <= d < 8 -> c <> d ->
  clkBit tx = 2 ^ c -> dioBit tx = 2 ^ d ->
  clkBit rx = 2 ^ c -> dioBit rx = 2 ^ d ->
  exists (tx' : state) (leftover : list Z),
    SendBits data tx = Some (tt, tx') /\
    log tx' = log tx ++ SendBits_ops (clkBit tx) (dioBit tx) data /\
    sent tx' = sent tx ++ [data] /\
    data_line_ops (dioBit tx) (SendBits_ops (clkBit tx) (dioBit tx) data)
    = map (fun i => bit_op (dioBit tx) (Z.testbit data (Z.of_nat i))) (seq 0 8)
      ++ [OpRelease (dioBit tx)] /\
    GetBits (set_PIND
               (waveform rate (SendBits_ops (clkBit tx) (dioBit tx) data)
                         (PORTD tx, DDRD tx) ++ rest) rx)
    = Some (data, set_PIND (leftover ++ rest) rx).
Proof.
  intros Hdata Hrate Hc Hd Hcd Htc Htd Hrc Hrd.
  destruct (round_trip_loop rate c d Hrate Hc Hd Hcd rx Hrc Hrd
              [] [] (m_status rx) (micros rx) rest 8 data 0
              (PORTD tx, DDRD tx) [] eq_refl)
    as (leftover & _ & Hrun).
  exists (update tx ([] ++ SendBits_ops (clkBit tx) (dioBit tx) data)
                 ([] ++ [data]) (m_status tx) (PIND tx) (micros tx)).
  exists leftover.
  split; [rewrite (run_from_update (SendBits data) tx);
          apply SendBits_update|].
  split; [reflexivity|]. split; [reflexivity|].
  split.
  { apply SendBits_ops_lsb_first. rewrite Htc, Htd. intros E.
    apply Hcd. apply (Z.pow_inj_r 2); lia. }
  rewrite GetBits_eq, !set_PIND_update, Htc, Htd.
  unfold SendBits_ops. rewrite waveform_app. cbn [waveform app].
  rewrite app_nil_r. cbn [app] in Hrun. rewrite Hrun.
  now rewrite GetBits_value_byte.
Qed.

Lemma SendBits_GetBits_round_trip_witness :
  exists (tx' : state) (leftover : list Z),
    SendBits 165 (controller [] []) = Some (tt, tx') /\
    log tx' = [] ++ SendBits_ops 16 32 165 /\
    sent tx' = [] ++ [165] /\
    data_line_ops 32 (SendBits_ops 16 32 165)
    = map (fun i => bit_op 32 (Z.testbit 165 (Z.of_nat i))) (seq 0 8)
      ++ [OpRelease 32] /\
    GetBits (set_PIND (waveform 1 (SendBits_ops 16 32 165) (124, 0) ++ [])
                      (controller [] []))
    = Some (165, set_PIND (leftover ++ []) (controller [] [])).
Proof.
  apply (SendBits_GetBits_round_trip 165 1 4 5 (controller [] [])
           (controller [] []) []); try lia; reflexivity.
Defined.

(** * Further properties of the code *)

(** ** Register bits *)

Lemma op_regs_Assert_bits (port ddr pins i : Z) :
  0 <= i ->
  Z.testbit (fst (op_regs (OpAssert pins) (port, ddr))) i
  = (i <? 8) && (Z.testbit port i && negb (Z.testbit pins i)) /\
  Z.testbit (snd (op_regs (OpAssert pins) (port, ddr))) i
  = (i <? 8) && (Z.testbit ddr i || Z.testbit pins i).
Proof.
  intros Hi. cbn [op_regs fst snd].
  now rewrite !u8_bits, Z.land_spec, Z.lor_spec, Z.lnot_spec by lia.
Qed.

Lemma op_regs_Release_bits (port ddr pins i : Z) :
  0 <= i ->
  Z.testbit (fst (op_regs (OpRelease pins) (port, ddr))) i
  = (i <? 8) && (Z.testbit port i || Z.testbit pins i) /\
  Z.testbit (snd (op_regs (OpRelease pins) (port, ddr))) i
  = (i <? 8) && (Z.testbit ddr i && negb (Z.testbit pins i)).
Proof.
  intros Hi. cbn [op_regs fst snd].
  now rewrite !u8_bits, Z.land_spec, Z.lor_spec, Z.lnot_spec by lia.
Qed.

Lemma land_u8_zero_iff (x pins : Z) :
  Z.land x (u8 pins) = 0 <->
  forall i, 0 <= i < 8 -> Z.testbit pins i = true -> Z.testbit x i = false.
Proof.
  rewrite land_zero_iff. split.
  - intros H i Hi Hp. apply H. rewrite u8_bits by lia. rewrite Hp.
    destruct (i <? 8) eqn:E; [reflexivity|apply Z.ltb_ge in E; lia].
  - intros H i Hp. destruct (Z.neg_nonneg_cases i) as [Hn|Hn].
    + now apply Z.testbit_neg_r.
    + rewrite u8_bits in Hp by lia. apply andb_prop in Hp as [Hlt Hp].
      apply Z.ltb_lt in Hlt. apply H; [lia|exact Hp].
Qed.

Lemma land_u8_full_iff (x pins : Z) :
  Z.land x (u8 pins) = u8 pins <->
  forall i, 0 <= i < 8 -> Z.testbit pins i = true -> Z.testbit x i = true.
Proof.
  split.
  - intros H i Hi Hp.
    assert (E : Z.testbit (Z.land x (u8 pins)) i = Z.testbit (u8 pins) i)
      by now rewrite H.
    rewrite Z.land_spec, u8_bits, Hp in E by lia.
    destruct (i <? 8) eqn:Hlt; [|apply Z.ltb_ge in Hlt; lia].
    cbn in E. now rewrite andb_true_r in E.
  - intros H. apply Z.bits_inj'. intros i Hi.
    rewrite Z.land_spec, u8_bits by lia.
    destruct (i <? 8) eqn:Hlt; [|now rewrite andb_false_r].
    apply Z.ltb_lt in Hlt. cbn.
    destruct (Z.testbit pins i) eqn:Hp; [|apply andb_false_r].
    rewrite (H i) by (auto; lia). reflexivity.
Qed.

(** The two line states, bit by bit. *)
Lemma lines_released_iff (s : state) (pins : Z) :
  lines_released s pins = true <->
  forall i, 0 <= i < 8 -> Z.testbit pins i = true ->
            Z.testbit (DDRD s) i = false /\ Z.testbit (PORTD s) i = true.
Proof.
  unfold lines_released.
  rewrite andb_true_iff, !Z.eqb_eq, land_u8_zero_iff, land_u8_full_iff.
  split.
  - intros [Hd Hp] i Hi Hm. split; [now apply Hd | now apply Hp].
  - intros H. split; intros i Hi Hm; now apply (H i Hi Hm).
Qed.

Lemma lines_asserted_iff (s : state) (pins : Z) :
  lines_asserted s pins = true <->
  forall i, 0 <= i < 8 -> Z.testbit pins i = true ->
            Z.testbit (DDRD s) i = true /\ Z.testbit (PORTD s) i = false.
Proof.
  unfold lines_asserted.
  rewrite andb_true_iff, !Z.eqb_eq, land_u8_zero_iff, land_u8_full_iff.
  split.
  - intros [Hd Hp] i Hi Hm. split; [now apply Hd | now apply Hp].
  - intros H. split; intros i Hi Hm; now apply (H i Hi Hm).
Qed.

Lemma update_PORTD_one (s : state) (op : line_op) b st p c :
  PORTD (update s [op] b st p c) = fst (op_regs op (PORTD s, DDRD s)).
Proof. reflexivity. Qed.

Lemma update_DDRD_one (s : state) (op : line_op) b st p c :
  DDRD (update s [op] b st p c) = snd (op_regs op (PORTD s, DDRD s)).
Proof. reflexivity. Qed.

(** ** Line driver *)

(** X1.  [Assert(pins)] always returns.  Afterwards every pin of the mask
    is an output driven low; the register bits of the other pins of the
    port are as before; status, readings and bytes sent are untouched. *)
Theorem Assert_drives_only_named_pins (pins : Z) (s : state) :
  exists s',
    Assert pins s = Some (tt, s') /\
    lines_asserted s' pins = true /\
    (forall i, 0 <= i < 8 -> Z.testbit pins i = false ->
       Z.testbit (DDRD s') i = Z.testbit (DDRD s) i /\
       Z.testbit (PORTD s') i = Z.testbit (PORTD s) i) /\
    log s' = log s ++ [OpAssert pins] /\
    m_status s' = m_status s /\ PIND s' = PIND s /\
    micros s' = micros s /\ sent s' = sent s.
Proof.
  exists (update s ([] ++ [OpAssert pins]) [] (m_status s) (PIND s) (micros s)).
  split; [rewrite (run_from_update (Assert pins) s); apply Assert_update|].
  cbn [app]. split; [|split].
  - apply lines_asserted_iff. intros i Hi Hm.
    rewrite update_PORTD_one, update_DDRD_one.
    destruct (op_regs_Assert_bits (PORTD s) (DDRD s) pins i) as [Hp Hd];
      [lia|].
    rewrite Hp, Hd, Hm.
    destruct (i <? 8) eqn:E; [|apply Z.ltb_ge in E; lia].
    now rewrite orb_true_r, andb_false_r.
  - intros i Hi Hm.
    rewrite update_PORTD_one, update_DDRD_one.
    destruct (op_regs_Assert_bits (PORTD s) (DDRD s) pins i) as [Hp Hd];
      [lia|].
    rewrite Hp, Hd, Hm.
    destruct (i <? 8) eqn:E; [|apply Z.ltb_ge in E; lia].
    cbn. now rewrite orb_false_r, andb_true_r.
  - rewrite update_sent, app_nil_r. repeat split.
Qed.

(** X2.  [Release(pins)] always returns.  Afterwards every pin of the mask
    is an input with its pull-up on; the register bits of the other pins
    are as before; status, readings and bytes sent are untouched. *)
Theorem Release_frees_only_named_pins (pins : Z) (s : state) :
  exists s',
    Release pins s = Some (tt, s') /\
    lines_released s' pins = true /\
    (forall i, 0 <= i < 8 -> Z.testbit pins i = false ->
       Z.testbit (DDRD s') i = Z.testbit (DDRD s) i /\
       Z.testbit (PORTD s') i = Z.testbit (PORTD s) i) /\
    log s' = log s ++ [OpRelease pins] /\
    m_status s' = m_status s /\ PIND s' = PIND s /\
    micros s' = micros s /\ sent s' = sent s.
Proof.
  exists (update s ([] ++ [OpRelease pins]) [] (m_status s) (PIND s) (micros s)).
  split; [rewrite (run_from_update (Release pins) s); apply Release_update|].
  cbn [app]. split; [|split].
  - apply lines_released_iff. intros i Hi Hm.
    rewrite update_PORTD_one, update_DDRD_one.
    destruct (op_regs_Release_bits (PORTD s) (DDRD s) pins i) as [Hp Hd];
      [lia|].
    rewrite Hp, Hd, Hm.
    destruct (i <? 8) eqn:E; [|apply Z.ltb_ge in E; lia].
    now rewrite orb_true_r, andb_false_r.
  - intros i Hi Hm.
    rewrite update_PORTD_one, update_DDRD_one.
    destruct (op_regs_Release_bits (PORTD s) (DDRD s) pins i) as [Hp Hd];
      [lia|].
    rewrite Hp, Hd, Hm.
    destruct (i <? 8) eqn:E; [|apply Z.ltb_ge in E; lia].
    cbn. now rewrite orb_false_r, andb_true_r.
  - rewrite update_sent, app_nil_r. repeat split.
Qed.

(** A released line set is not pulled low by the controller. *)
Lemma lines_released_drive (s : state) (pins i : Z) :
  lines_released s pins = true -> 0 <= i < 8 -> Z.testbit pins i = true ->
  Z.testbit (drive (PORTD s, DDRD s)) i = true.
Proof.
  intros H Hi Hm.
  destruct (proj1 (lines_released_iff s pins) H i Hi Hm) as [Hd Hp].
  rewrite drive_bits, Hd, Hp by lia.
  destruct (i <? 8) eqn:E; [reflexivity|apply Z.ltb_ge in E; lia].
Qed.

(** X3.  [ReleaseAll], which is also all the destructor does, returns
    from any state with the five lines released, so that the controller
    pulls none of them low; it changes neither the status nor the
    readings. *)
Theorem ReleaseAll_releases_five_lines (s : state) :
  exists s',
    ReleaseAll s = Some (tt, s') /\
    IecSerial_destructor s = Some (tt, s') /\
    all_released s' = true /\
    (forall i, 0 <= i < 8 -> Z.testbit (all_lines s) i = true ->
       Z.testbit (drive (PORTD s', DDRD s')) i = true) /\
    log s' = log s ++ [OpRelease (all_lines s)] /\
    m_status s' = m_status s /\ PIND s' = PIND s /\
    micros s' = micros s /\ sent s' = sent s.
Proof.
  exists (update s ([] ++ [OpRelease (all_lines s)]) [] (m_status s)
                 (PIND s) (micros s)).
  assert (Hrun : ReleaseAll s
                 = Some (tt, update s ([] ++ [OpRelease (all_lines s)]) []
                                    (m_status s) (PIND s) (micros s)))
    by (rewrite (run_from_update ReleaseAll s); apply ReleaseAll_update).
  split; [exact Hrun|]. split; [exact Hrun|].
  split; [apply all_released_after_ReleaseAll|].
  split.
  - intros i Hi Hm.
    apply (lines_released_drive _ (all_lines s)); [|exact Hi|exact Hm].
    apply lines_released_update_Release. auto.
  - rewrite update_sent, app_nil_r. repeat split.
Qed.

(** ** Reset *)

Lemma Reset_regs_released (port ddr all rst i : Z) :
  0 <= i < 8 -> Z.testbit all i = true ->
  Z.testbit (snd (regs_after [OpRelease all; OpAssert rst; OpDelay 1000;
                              OpRelease rst] (port, ddr))) i = false /\
  Z.testbit (fst (regs_after [OpRelease all; OpAssert rst; OpDelay 1000;
                              OpRelease rst] (port, ddr))) i = true.
Proof.
  intros Hi Hall. cbn [regs_after fold_left op_regs fst snd].
  rewrite !u8_bits, !Z.land_spec, !Z.lor_spec, !Z.lnot_spec, !u8_bits,
    !Z.land_spec, !Z.lor_spec, !Z.lnot_spec, !u8_bits,
    !Z.land_spec, !Z.lor_spec, !Z.lnot_spec, Hall by lia.
  destruct (i <? 8) eqn:E; [|apply Z.ltb_ge in E; lia].
  destruct (Z.testbit rst i), (Z.testbit port i), (Z.testbit ddr i);
    split; reflexivity.
Qed.

Lemma Reset_eq :
  Reset = (rst <- get rstBit ;; ReleaseAll ;; Assert rst ;;
           delayMicroseconds 1000 ;; Release rst).
Proof. reflexivity. Qed.

(** X4.  [Reset] returns from any state.  It releases all lines, holds the
    Reset line asserted through one delay of 1000 microseconds and
    releases it, and these are its only line operations; afterwards all
    five lines are released, whatever the registers held before and even
    if the Reset mask shares pins with another line.  Status, readings
    and bytes sent are untouched. *)
Theorem Reset_pulse_then_all_released (s : state) :
  exists s',
    Reset s = Some (tt, s') /\
    log s' = log s ++ [OpRelease (all_lines s); OpAssert (rstBit s);
                       OpDelay 1000; OpRelease (rstBit s)] /\
    all_released s' = true /\
    m_status s' = m_status s /\ PIND s' = PIND s /\
    micros s' = micros s /\ sent s' = sent s.
Proof.
  exists (update s [OpRelease (all_lines s); OpAssert (rstBit s);
                    OpDelay 1000; OpRelease (rstBit s)] []
                 (m_status s) (PIND s) (micros s)).
  split.
  - rewrite Reset_eq, (run_from_update _ s). do 4 step.
    now rewrite Release_update.
  - split; [reflexivity|]. split; [|rewrite update_sent, app_nil_r; repeat split].
    assert (Hline : forall m,
               (forall i, Z.testbit m i = true ->
                          Z.testbit (all_lines s) i = true) ->
               lines_released
                 (update s [OpRelease (all_lines s); OpAssert (rstBit s);
                            OpDelay 1000; OpRelease (rstBit s)] []
                         (m_status s) (PIND s) (micros s)) m = true).
    { intros m Hm. apply lines_released_iff. intros i Hi Hmi.
      apply (Reset_regs_released (PORTD s) (DDRD s) (all_lines s) (rstBit s) i);
        auto. }
    unfold all_released. autorewrite with upd.
    rewrite !Hline; [reflexivity|..];
      intros i Hi; unfold all_lines; rewrite !Z.lor_spec, Hi;
      repeat rewrite ?orb_true_r, ?orb_true_l; reflexivity.
Qed.

(** ** Constructor *)

Lemma IecSerial_eq (srqPin atnPin clkPin dioPin rstPin : Z) :
  IecSerial srqPin atnPin clkPin dioPin rstPin
  = (modify (fun s =>
       mkState (PORTD s) (DDRD s) (PIND s) (micros s)
               (u8 (Z.shiftl 1 srqPin)) (u8 (Z.shiftl 1 rstPin))
               (u8 (Z.shiftl 1 clkPin)) (u8 (Z.shiftl 1 dioPin))
               (u8 (Z.shiftl 1 atnPin)) STATUS_OK (log s) (sent s)) ;;
     ReleaseAll).
Proof. reflexivity. Qed.

Lemma modify_run {B} (f : state -> state) (k : unit -> M B) (s : state) :
  bind (modify f) k s = k tt (f s).
Proof. reflexivity. Qed.

Lemma pin_mask_valid (pin : Z) : 0 <= pin <= 7 -> u8 (Z.shiftl 1 pin) = 2 ^ pin.
Proof.
  intros H. rewrite Z.shiftl_1_l. apply u8_small.
  split; [apply Z.pow_nonneg; lia|].
  change 256 with (2 ^ 8). apply Z.pow_lt_mono_r; lia.
Qed.

Lemma pin_mask_out_of_port (pin : Z) : 8 <= pin -> u8 (Z.shiftl 1 pin) = 0.
Proof.
  intros H. rewrite Z.shiftl_1_l. unfold u8. change 256 with (2 ^ 8).
  replace pin with ((pin - 8) + 8) by lia.
  rewrite Z.pow_add_r by lia. apply Z.mod_mul.
  discriminate.
Qed.

(** X5.  The constructor returns from any port state, whatever the pin
    numbers: the status is Ok and all five lines are released.  A pin
    number from 0 to 7 gives the mask of that single pin; a pin number
    from 8 to 14 gives the empty mask (the shifted bit is cut off by the
    8-bit field). *)
Theorem IecSerial_constructor (srqPin atnPin clkPin dioPin rstPin : Z)
    (s : state) :
  exists s',
    IecSerial srqPin atnPin clkPin dioPin rstPin s = Some (tt, s') /\
    m_status s' = STATUS_OK /\
    all_released s' = true /\
    PIND s' = PIND s /\ micros s' = micros s /\ sent s' = sent s /\
    (forall mask pin,
       In (mask, pin) [(srqBit s', srqPin); (atnBit s', atnPin);
                       (clkBit s', clkPin); (dioBit s', dioPin);
                       (rstBit s', rstPin)] ->
       (0 <= pin <= 7 -> mask = 2 ^ pin) /\ (8 <= pin <= 14 -> mask = 0)).
Proof.
  set (s0 := mkState (PORTD s) (DDRD s) (PIND s) (micros s)
               (u8 (Z.shiftl 1 srqPin)) (u8 (Z.shiftl 1 rstPin))
               (u8 (Z.shiftl 1 clkPin)) (u8 (Z.shiftl 1 dioPin))
               (u8 (Z.shiftl 1 atnPin)) STATUS_OK (log s) (sent s)).
  exists (update s0 ([] ++ [OpRelease (all_lines s0)]) [] (m_status s0)
                 (PIND s0) (micros s0)).
  split.
  - rewrite IecSerial_eq, modify_run. cbv beta. fold s0.
    rewrite (run_from_update ReleaseAll s0). apply ReleaseAll_update.
  - split; [reflexivity|].
    split; [apply all_released_after_ReleaseAll|].
    split; [reflexivity|]. split; [reflexivity|].
    split; [rewrite update_sent; apply app_nil_r|].
    intros mask pin Hin. cbn [In] in Hin.
    repeat (destruct Hin as [[= <- <-]|Hin];
            [split; intros Hp;
             [apply pin_mask_valid; exact Hp
             |apply pin_mask_out_of_port; lia]|]).
    contradiction.
Qed.

(** ** Wait primitives *)

Lemma u32_elapsed (t0 t : Z) :
  0 <= t - t0 < 2 ^ 32 -> u32 (u32 t - u32 t0) = t - t0.
Proof.
  intros H. unfold u32.
  rewrite <- Zminus_mod. now apply Z.mod_small.
Qed.

(** X6.  The timeout test is safe against the wrap-around of the 32-bit
    microsecond counter: when the counter really advanced by less than
    2^32 between the start reading [t0] and the reading [t] (both taken
    modulo 2^32 by [micros()]), one more poll that finds the lines still
    waiting times out exactly when the real elapsed time [t - t0] exceeds
    the timeout, in both bounded waits. *)
Theorem timeout_test_wrap_around_safe (pins timeout t0 t q : Z)
    (pind clock : list Z) :
  0 <= t - t0 < 2 ^ 32 ->
  (lines_high q pins = true ->
   WaitAssertionOrTimeout_loop pins (u32 t0) timeout (q :: pind) (t :: clock)
   = if t - t0 >? timeout then Some (true, (pind, clock))
     else WaitAssertionOrTimeout_loop pins (u32 t0) timeout pind clock) /\
  (lines_low q pins = true ->
   WaitReleaseOrTimeout_loop pins (u32 t0) timeout (q :: pind) (t :: clock)
   = if t - t0 >? timeout then Some (true, (pind, clock))
     else WaitReleaseOrTimeout_loop pins (u32 t0) timeout pind clock).
Proof.
  intros H. split; intros Hq; cbn; now rewrite Hq, u32_elapsed.
Qed.

Lemma timeout_test_wrap_around_safe_witness :
  (lines_high bus_idle 32 = true ->
   WaitAssertionOrTimeout_loop 32 (u32 4294967000) 1000
     (bus_idle :: [bus_idle]) (4294968100 :: [])
   = if 4294968100 - 4294967000 >? 1000 then Some (true, ([bus_idle], []))
     else WaitAssertionOrTimeout_loop 32 (u32 4294967000) 1000 [bus_idle] []) /\
  (lines_low bus_idle 32 = true ->
   WaitReleaseOrTimeout_loop 32 (u32 4294967000) 1000
     (bus_idle :: [bus_idle]) (4294968100 :: [])
   = if 4294968100 - 4294967000 >? 1000 then Some (true, ([bus_idle], []))
     else WaitReleaseOrTimeout_loop 32 (u32 4294967000) 1000 [bus_idle] []).
Proof.
  apply (timeout_test_wrap_around_safe 32 1000 4294967000 4294968100
           bus_idle [bus_idle] []).
  lia.
Defined.

(** X7.  [WaitAssertionOrTimeout] returns the flag [b] exactly on these
    readings: with [b] false, some polls find a line of the mask high,
    each followed by a clock reading within the timeout, and then one poll
    finds all lines low; with [b] true, every poll finds a line high until
    a clock reading is late.  It consumes these readings and no more,
    sets the status to Timeout when it times out and leaves it otherwise,
    and never operates a line. *)
Theorem WaitAssertionOrTimeout_returns_iff (pins timeout : Z) (s s' : state)
    (b : bool) :
  WaitAssertionOrTimeout pins timeout s = Some (b, s') <->
  exists pind' clock',
    wait_outcome (released pins) timeout b (PIND s) (micros s) pind' clock' /\
    s' = (if b then set_status STATUS_TIMEOUT else fun x => x)
           (set_micros clock' (set_PIND pind' s)).
Proof.
  split.
  - unfold WaitAssertionOrTimeout, WaitAssertionOrTimeout_while, bind,
      read_micros.
    destruct (micros s) as [|t0 clock0] eqn:Hc; [discriminate|].
    cbn [PIND micros set_micros].
    destruct (WaitAssertionOrTimeout_loop pins (u32 t0) timeout (PIND s)
                clock0) as [[b0 [p' c']]|] eqn:Hl; [|discriminate].
    apply WaitAssertionOrTimeout_loop_inv in Hl.
    destruct b0; intros [= <- <-]; exists p', c'; (split; [exact Hl|]);
      destruct s; reflexivity.
  - intros (p' & c' & Hw & ->).
    destruct (wait_outcome_clock _ _ _ _ _ _ _ Hw) as (t0 & c0 & Hc).
    rewrite Hc in Hw. apply WaitAssertionOrTimeout_loop_outcome in Hw.
    unfold WaitAssertionOrTimeout, WaitAssertionOrTimeout_while, bind,
      read_micros.
    rewrite Hc. cbn [PIND micros set_micros]. rewrite Hw.
    destruct b; destruct s; reflexivity.
Qed.

(** X8.  [WaitReleaseOrTimeout] is the mirror image: it returns false when,
    after polls that find all lines of the mask low, each within the
    timeout, one poll finds a line high; it returns true, with status
    Timeout, when every poll finds all lines low until a clock reading is
    late. *)
Theorem WaitReleaseOrTimeout_returns_iff (pins timeout : Z) (s s' : state)
    (b : bool) :
  WaitReleaseOrTimeout pins timeout s = Some (b, s') <->
  exists pind' clock',
    wait_outcome (asserted pins) timeout b (PIND s) (micros s) pind' clock' /\
    s' = (if b then set_status STATUS_TIMEOUT else fun x => x)
           (set_micros clock' (set_PIND pind' s)).
Proof.
  split.
  - unfold WaitReleaseOrTimeout, WaitReleaseOrTimeout_while, bind,
      read_micros.
    destruct (micros s) as [|t0 clock0] eqn:Hc; [discriminate|].
    cbn [PIND micros set_micros].
    destruct (WaitReleaseOrTimeout_loop pins (u32 t0) timeout (PIND s)
                clock0) as [[b0 [p' c']]|] eqn:Hl; [|discriminate].
    apply WaitReleaseOrTimeout_loop_inv in Hl.
    destruct b0; intros [= <- <-]; exists p', c'; (split; [exact Hl|]);
      destruct s; reflexivity.
  - intros (p' & c' & Hw & ->).
    destruct (wait_outcome_clock _ _ _ _ _ _ _ Hw) as (t0 & c0 & Hc).
    rewrite Hc in Hw. apply WaitReleaseOrTimeout_loop_outcome in Hw.
    unfold WaitReleaseOrTimeout, WaitReleaseOrTimeout_while, bind,
      read_micros.
    rewrite Hc. cbn [PIND micros set_micros]. rewrite Hw.
    destruct b; destruct s; reflexivity.
Qed.

Lemma WaitRelease_loop_None (pins : Z) (pind : list Z) :
  WaitRelease_loop pins pind = None <-> forallb (asserted pins) pind = true.
Proof.
  induction pind as [|q pind IH]; cbn; [tauto|].
  unfold asserted at 1. destruct (lines_low q pins); cbn; [exact IH|].
  split; discriminate.
Qed.

Lemma WaitAssertion_loop_None (pins : Z) (pind : list Z) :
  WaitAssertion_loop pins pind = None <-> forallb (released pins) pind = true.
Proof.
  induction pind as [|q pind IH]; cbn; [tauto|].
  unfold released at 1. destruct (lines_high q pins); cbn; [exact IH|].
  split; discriminate.
Qed.

(** X9.  The waits without timeout.  [WaitRelease] returns exactly when
    some reading shows a line of the mask high, having consumed the
    readings up to and including the first such one and nothing else;
    while every reading shows all lines low it does not return.
    [WaitAssertion] is the same with the levels exchanged. *)
Theorem unbounded_waits_return_iff (pins : Z) (s s' : state) :
  (WaitRelease pins s = Some (tt, s') <->
   exists pind', wait_ends (asserted pins) (PIND s) pind' /\
                 s' = set_PIND pind' s) /\
  (WaitRelease pins s = None <-> forallb (asserted pins) (PIND s) = true) /\
  (WaitAssertion pins s = Some (tt, s') <->
   exists pind', wait_ends (released pins) (PIND s) pind' /\
                 s' = set_PIND pind' s) /\
  (WaitAssertion pins s = None <-> forallb (released pins) (PIND s) = true).
Proof.
  split; [|split; [|split]].
  - unfold WaitRelease. split.
    + destruct (WaitRelease_loop pins (PIND s)) as [p'|] eqn:E; [|discriminate].
      intros [= <-]. exists p'. split; [now apply WaitRelease_loop_inv|reflexivity].
    + intros (p' & Hw & ->). now rewrite (WaitRelease_loop_ends _ _ _ Hw).
  - unfold WaitRelease. rewrite <- WaitRelease_loop_None.
    destruct (WaitRelease_loop pins (PIND s)); split; (discriminate || reflexivity).
  - unfold WaitAssertion. split.
    + destruct (WaitAssertion_loop pins (PIND s)) as [p'|] eqn:E; [|discriminate].
      intros [= <-]. exists p'. split; [now apply WaitAssertion_loop_inv|reflexivity].
    + intros (p' & Hw & ->). now rewrite (WaitAssertion_loop_ends _ _ _ Hw).
  - unfold WaitAssertion. rewrite <- WaitAssertion_loop_None.
    destruct (WaitAssertion_loop pins (PIND s)); split; (discriminate || reflexivity).
Qed.

(** ** Every run that returns, step by step *)

Lemma bind_ret {A B} (a : A) (k : A -> M B) (s : state) :
  bind (ret a) k s = k a s.
Proof. reflexivity. Qed.

Section WaitInversion.
Variables (s : state) (o : list line_op) (b : list Z) (st : Z).

Lemma WaitRelease_update_inv (pins : Z) (p c : list Z) (u : unit) (s1 : state) :
  WaitRelease pins (update s o b st p c) = Some (u, s1) ->
  exists p', wait_ends (asserted pins) p p' /\ s1 = update s o b st p' c.
Proof.
  unfold WaitRelease. rewrite update_PIND.
  destruct (WaitRelease_loop pins p) as [p'|] eqn:E; [|discriminate].
  intros [= <- <-]. exists p'. split; [now apply WaitRelease_loop_inv|reflexivity].
Qed.

Lemma WaitAssertion_update_inv (pins : Z) (p c : list Z) (u : unit) (s1 : state) :
  WaitAssertion pins (update s o b st p c) = Some (u, s1) ->
  exists p', wait_ends (released pins) p p' /\ s1 = update s o b st p' c.
Proof.
  unfold WaitAssertion. rewrite update_PIND.
  destruct (WaitAssertion_loop pins p) as [p'|] eqn:E; [|discriminate].
  intros [= <- <-]. exists p'. split; [now apply WaitAssertion_loop_inv|reflexivity].
Qed.

Lemma WaitAssertionOrTimeout_update_inv (pins timeout : Z) (p c : list Z)
    (flag : bool) (s1 : state) :
  WaitAssertionOrTimeout pins timeout (update s o b st p c) = Some (flag, s1) ->
  exists p' c',
    wait_outcome (released pins) timeout flag p c p' c' /\
    s1 = update s o b (if flag then STATUS_TIMEOUT else st) p' c'.
Proof.
  unfold WaitAssertionOrTimeout, WaitAssertionOrTimeout_while, bind,
    read_micros.
  destruct c as [|t0 c0]; [discriminate|].
  cbn [micros PIND update set_micros set_PIND].
  destruct (WaitAssertionOrTimeout_loop pins (u32 t0) timeout p c0)
    as [[b0 [p' c']]|] eqn:Hl; cbv beta iota; [|discriminate].
  apply WaitAssertionOrTimeout_loop_inv in Hl.
  destruct b0; cbv beta iota; intros [= <- <-]; exists p', c';
    (split; [exact Hl|reflexivity]).
Qed.

Lemma WaitReleaseOrTimeout_update_inv (pins timeout : Z) (p c : list Z)
    (flag : bool) (s1 : state) :
  WaitReleaseOrTimeout pins timeout (update s o b st p c) = Some (flag, s1) ->
  exists p' c',
    wait_outcome (asserted pins) timeout flag p c p' c' /\
    s1 = update s o b (if flag then STATUS_TIMEOUT else st) p' c'.
Proof.
  unfold WaitReleaseOrTimeout, WaitReleaseOrTimeout_while, bind,
    read_micros.
  destruct c as [|t0 c0]; [discriminate|].
  cbn [micros PIND update set_micros set_PIND].
  destruct (WaitReleaseOrTimeout_loop pins (u32 t0) timeout p c0)
    as [[b0 [p' c']]|] eqn:Hl; cbv beta iota; [|discriminate].
  apply WaitReleaseOrTimeout_loop_inv in Hl.
  destruct b0; cbv beta iota; intros [= <- <-]; exists p', c';
    (split; [exact Hl|reflexivity]).
Qed.
End WaitInversion.

(** The forward steps, in a hypothesis. *)
Ltac hstep H :=
  match type of H with
  | bind (get _) _ _ = _ => rewrite get_update in H
  | bind (ret _) _ _ = _ => rewrite bind_ret in H
  | bind (modify (set_status _)) _ _ = _ => rewrite set_status_update in H
  | bind (Assert ?x) ?k (update ?s ?o ?b ?st ?p ?c) = _ =>
      rewrite (bind_run _ k _ _ _ (Assert_update s o b st p c x)) in H
  | bind (Release ?x) ?k (update ?s ?o ?b ?st ?p ?c) = _ =>
      rewrite (bind_run _ k _ _ _ (Release_update s o b st p c x)) in H
  | bind (delayMicroseconds ?x) ?k (update ?s ?o ?b ?st ?p ?c) = _ =>
      rewrite (bind_run _ k _ _ _ (delay_update s o b st p c x)) in H
  | bind ReleaseAll ?k (update ?s ?o ?b ?st ?p ?c) = _ =>
      rewrite (bind_run _ k _ _ _ (ReleaseAll_update s o b st p c)) in H
  | bind (SendBits ?d) ?k (update ?s ?o ?b ?st ?p ?c) = _ =>
      rewrite (bind_run _ k _ _ _ (SendBits_update d s o b st p c)) in H
  end; cbv beta in H; autorewrite with upd in H.

(** A wait in a hypothesis: it returned, so its readings have the shape
    of the inversion lemma [lem]. *)
Ltac hwait H lem :=
  let a := fresh "a" in
  let s1 := fresh "s" in
  let Hw := fresh "Hw" in
  apply bind_inv in H as (a & s1 & Hw & H);
  apply lem in Hw;
  cbv beta in H.

Lemma Send_eq (data : Z) (eoi : bool) :
  Send data eoi
  = (modify (set_status STATUS_OK) ;;
     clk <- get clkBit ;;
     dio <- get dioBit ;;
     Release clk ;;
     WaitRelease dio ;;
     (if eoi then
        WaitAssertionOrTimeout dio TIME_TYE ;;
        WaitReleaseOrTimeout dio TIME_TEI ;;
        delayMicroseconds TIME_TRY
      else
        delayMicroseconds TIME_TNE) ;;
     SendBits data ;;
     timeout <- WaitAssertionOrTimeout dio TIME_TF ;;
     (if timeout then modify (set_status STATUS_FRAMMING_ERROR) else ret tt) ;;
     delayMicroseconds TIME_TBB ;;
     isOk).
Proof. reflexivity. Qed.

(** Whatever the listener does, a [Send] that returns has sent its byte
    with exactly the line operations [Send_ops]. *)
Lemma Send_update_inv (data : Z) (eoi : bool) (s : state) o b st p c
    (r : bool) (s' : state) :
  Send data eoi (update s o b st p c) = Some (r, s') ->
  exists status p' c',
    s' = update s (o ++ Send_ops (clkBit s) (dioBit s) data eoi)
                (b ++ [data]) status p' c' /\
    r = (status =? STATUS_OK) /\
    (status = STATUS_OK \/ status = STATUS_FRAMMING_ERROR \/
     (eoi = true /\ status = STATUS_TIMEOUT)).
Proof.
  intros H. rewrite Send_eq in H. do 4 hstep H.
  hwait H WaitRelease_update_inv. destruct Hw as (p1 & _ & ->).
  apply bind_inv in H as ([] & s2 & Hd & H).
  assert (Hs2 : exists st2 p2 c2,
             (st2 = STATUS_OK \/ (eoi = true /\ st2 = STATUS_TIMEOUT)) /\
             s2 = update s (o ++ [OpRelease (clkBit s);
                                  OpDelay (if eoi then TIME_TRY else TIME_TNE)])
                         b st2 p2 c2).
  { destruct eoi.
    - hwait Hd WaitAssertionOrTimeout_update_inv.
      destruct Hw as (p2 & c2 & _ & ->).
      hwait Hd WaitReleaseOrTimeout_update_inv.
      destruct Hw as (p3 & c3 & _ & ->).
      rewrite delay_update in Hd. injection Hd as <-.
      eexists _, p3, c3. split; [|now autorewrite with upd].
      repeat match goal with
             | |- context [if ?x then _ else _] => destruct x
             end; auto.
    - rewrite delay_update in Hd. injection Hd as <-.
      exists STATUS_OK, p1, c. split; [auto|now autorewrite with upd]. }
  destruct Hs2 as (st2 & p2 & c2 & Hst2 & ->). cbv beta in H.
  hstep H.
  hwait H WaitAssertionOrTimeout_update_inv.
  destruct Hw as (p3 & c3 & _ & ->).
  unfold Send_ops.
  match type of H with
  | bind (if ?flag then _ else _) _ _ = _ => destruct flag
  end.
  - do 2 hstep H. rewrite isOk_update in H. injection H as <- <-.
    exists STATUS_FRAMMING_ERROR, p3, c3.
    split; [now autorewrite with upd|]. split; [reflexivity|auto].
  - do 2 hstep H. rewrite isOk_update in H. injection H as <- <-.
    exists st2, p3, c3.
    split; [now autorewrite with upd|]. split; [reflexivity|].
    destruct Hst2 as [->|[-> ->]]; auto.
Qed.

(** ** Send, whatever the listener does *)

(** X10.  Whenever [Send(data, eoi)] returns, it has clocked out exactly
    the byte [data], with the line operations [Send_ops] (Clock and Data
    only), also when it reports an error.  The result is true exactly when
    the status is Ok; the status is Ok or FramingError, or Timeout in the
    EOI case alone; the masks are unchanged. *)
Theorem Send_returns_after_one_byte (data : Z) (eoi : bool) (s s' : state)
    (r : bool) :
  Send data eoi s = Some (r, s') ->
  sent s' = sent s ++ [data] /\
  log s' = log s ++ Send_ops (clkBit s) (dioBit s) data eoi /\
  forallb (clock_data_only (clkBit s) (dioBit s))
          (Send_ops (clkBit s) (dioBit s) data eoi) = true /\
  (r = true <-> m_status s' = STATUS_OK) /\
  (m_status s' = STATUS_OK \/ m_status s' = STATUS_FRAMMING_ERROR \/
   (eoi = true /\ m_status s' = STATUS_TIMEOUT)) /\
  all_lines s' = all_lines s.
Proof.
  intros H. rewrite (run_from_update (Send data eoi) s) in H.
  apply Send_update_inv in H as (status & p' & c' & -> & -> & Hst).
  rewrite update_sent, update_log, update_status, update_all_lines.
  cbn [app]. repeat split.
  - apply Send_ops_clock_data_only.
  - apply Z.eqb_eq.
  - apply Z.eqb_eq.
  - exact Hst.
Qed.

Lemma Send_returns_after_one_byte_witness :
  sent after_unacknowledged_byte = sent deaf_listener ++ [7] /\
  log after_unacknowledged_byte
  = log deaf_listener
      ++ Send_ops (clkBit deaf_listener) (dioBit deaf_listener) 7 false /\
  forallb (clock_data_only (clkBit deaf_listener) (dioBit deaf_listener))
          (Send_ops (clkBit deaf_listener) (dioBit deaf_listener) 7 false)
  = true /\
  (false = true <-> m_status after_unacknowledged_byte = STATUS_OK) /\
  (m_status after_unacknowledged_byte = STATUS_OK \/
   m_status after_unacknowledged_byte = STATUS_FRAMMING_ERROR \/
   (false = true /\ m_status after_unacknowledged_byte = STATUS_TIMEOUT)) /\
  all_lines after_unacknowledged_byte = all_lines deaf_listener.
Proof.
  apply (Send_returns_after_one_byte 7 false deaf_listener
           after_unacknowledged_byte false).
  vm_compute. reflexivity.
Defined.

(** ** Lines at the end of a byte *)

Lemma update_regs_app (s : state) (o1 o2 : list line_op) b st p c :
  PORTD (update s (o1 ++ o2) b st p c)
  = fst (regs_after o2 (PORTD (update s o1 b st p c),
                        DDRD (update s o1 b st p c))) /\
  DDRD (update s (o1 ++ o2) b st p c)
  = snd (regs_after o2 (PORTD (update s o1 b st p c),
                        DDRD (update s o1 b st p c))).
Proof.
  unfold update. cbn [PORTD DDRD].
  now rewrite regs_after_app, <- surjective_pairing.
Qed.

Lemma end_of_byte_regs (port ddr clk dio us i : Z) :
  0 <= i < 8 ->
  (Z.testbit dio i = true -> Z.testbit clk i = false) ->
  (Z.testbit clk i = true ->
   Z.testbit (snd (regs_after [OpRelease dio; OpAssert clk; OpDelay us]
                              (port, ddr))) i = true /\
   Z.testbit (fst (regs_after [OpRelease dio; OpAssert clk; OpDelay us]
                              (port, ddr))) i = false) /\
  (Z.testbit dio i = true ->
   Z.testbit (snd (regs_after [OpRelease dio; OpAssert clk; OpDelay us]
                              (port, ddr))) i = false /\
   Z.testbit (fst (regs_after [OpRelease dio; OpAssert clk; OpDelay us]
                              (port, ddr))) i = true).
Proof.
  intros Hi Hdisj. cbn [regs_after fold_left op_regs fst snd].
  rewrite !u8_bits, !Z.land_spec, !Z.lor_spec, !Z.lnot_spec, !u8_bits,
    !Z.land_spec, !Z.lor_spec, !Z.lnot_spec by lia.
  destruct (i <? 8) eqn:E; [|apply Z.ltb_ge in E; lia].
  destruct (Z.testbit dio i); [rewrite Hdisj by reflexivity|];
    destruct (Z.testbit clk i), (Z.testbit port i), (Z.testbit ddr i);
    split; intros; try discriminate; split; reflexivity.
Qed.

Lemma lines_at_end_of_byte (s : state) (o : list line_op) (us : Z) b st p c :
  Z.land (clkBit s) (dioBit s) = 0 ->
  lines_asserted
    (update s (o ++ [OpRelease (dioBit s); OpAssert (clkBit s); OpDelay us])
            b st p c) (clkBit s) = true /\
  lines_released
    (update s (o ++ [OpRelease (dioBit s); OpAssert (clkBit s); OpDelay us])
            b st p c) (dioBit s) = true.
Proof.
  intros Hdisj.
  destruct (update_regs_app s o [OpRelease (dioBit s); OpAssert (clkBit s);
                                  OpDelay us] b st p c) as [Hp Hd].
  split; [apply lines_asserted_iff | apply lines_released_iff];
    intros i Hi Hm; rewrite Hp, Hd;
    apply (end_of_byte_regs _ _ (clkBit s) (dioBit s) us i Hi); auto;
    intros Hdio; apply (proj1 (land_zero_iff _ _) Hdisj i Hdio).
Qed.

Lemma Send_ops_end (clk dio data : Z) (eoi : bool) :
  Send_ops clk dio data eoi
  = ([OpRelease clk; OpDelay (if eoi then TIME_TRY else TIME_TNE)]
       ++ SendBits_loop_ops clk dio 8 data)
    ++ [OpRelease dio; OpAssert clk; OpDelay TIME_TBB].
Proof.
  unfold Send_ops, SendBits_ops. now rewrite <- !app_assoc.
Qed.

(** X11.  With Clock and Data on different pins, a [Send] that returns
    leaves the controller holding Clock asserted and Data released, ready
    for the next byte, whatever its result. *)
Theorem Send_leaves_clock_asserted_data_released (data : Z) (eoi : bool)
    (s s' : state) (r : bool) :
  Z.land (clkBit s) (dioBit s) = 0 ->
  Send data eoi s = Some (r, s') ->
  lines_asserted s' (clkBit s') = true /\
  lines_released s' (dioBit s') = true.
Proof.
  intros Hdisj H. rewrite (run_from_update (Send data eoi) s) in H.
  apply Send_update_inv in H as (status & p' & c' & -> & _ & _).
  rewrite update_clkBit, update_dioBit.
  rewrite Send_ops_end, app_assoc.
  apply lines_at_end_of_byte. exact Hdisj.
Qed.

Lemma Send_leaves_clock_asserted_data_released_witness :
  lines_asserted after_unacknowledged_byte (clkBit after_unacknowledged_byte)
  = true /\
  lines_released after_unacknowledged_byte (dioBit after_unacknowledged_byte)
  = true.
Proof.
  apply (Send_leaves_clock_asserted_data_released 7 false deaf_listener
           after_unacknowledged_byte false).
  - reflexivity.
  - vm_compute. reflexivity.
Defined.

(** ** The array form of Send *)

Lemma Send_array_bytes_firstn (data : list Z) :
  forall k, (k <= length data)%nat -> Send_array_bytes data 0 k = firstn k data.
Proof.
  unfold Send_array_bytes.
  induction data as [|x data IH]; intros k Hk.
  - cbn in Hk. now replace k with 0%nat by lia.
  - destruct k as [|k]; [reflexivity|].
    cbn [seq map nth firstn]. f_equal.
    rewrite <- seq_shift, map_map. cbn [nth].
    apply IH. cbn in Hk. lia.
Qed.

Lemma Send_array_loop_update_inv (data : list Z) (len : nat) (eoi : bool) :
  forall (todo : nat) (s : state) o b st p c (u : unit) (s' : state),
    (todo <= len)%nat ->
    Send_array_loop data len eoi todo (update s o b st p c) = Some (u, s') ->
    exists k status p' c',
      (k <= todo)%nat /\
      s' = update s
             (o ++ Send_array_ops (clkBit s) (dioBit s) data len eoi
                                  (len - todo) k)
             (b ++ Send_array_bytes data (len - todo) k) status p' c' /\
      ((todo = 0%nat /\ status = st) \/
       ((0 < k)%nat /\
        ((k < todo)%nat -> status <> STATUS_OK) /\
        (status = STATUS_OK \/ status = STATUS_FRAMMING_ERROR \/
         (eoi = true /\ status = STATUS_TIMEOUT)))) /\
      ((k = 0%nat /\ s' = update s o b st p c) \/
       (exists n sm,
          k = S n /\
          Send_accepted data len eoi (len - todo) (update s o b st p c) n sm /\
          Send (nth (len - todo + n) data 0)
               (eoi && (len - todo + n =? len - 1)%nat) sm
          = Some (status =? STATUS_OK, s'))).
Proof.
  induction todo as [|todo IH]; intros s o b st p c u s' Hle H.
  - cbn in H. injection H as <- <-.
    exists 0%nat, st, p, c. split; [lia|].
    split; [cbn; now rewrite !app_nil_r|auto].
  - cbn [Send_array_loop] in H.
    apply bind_inv in H as (ok & s1 & Hsend & H).
    pose proof Hsend as Hbyte.
    apply Send_update_inv in Hsend as (st1 & p1 & c1 & -> & -> & Hst1).
    assert (Hst1' : st1 = STATUS_OK \/ st1 = STATUS_FRAMMING_ERROR \/
                    (eoi = true /\ st1 = STATUS_TIMEOUT)).
    { destruct Hst1 as [?|[?|[He ?]]]; auto.
      apply andb_prop in He as [-> _]. auto. }
    assert (Hseq : (len - todo)%nat = S (len - S todo)) by lia.
    destruct (st1 =? STATUS_OK) eqn:Hok; cbn [negb] in H.
    + apply IH in H as (k & status & p' & c' & Hk & Hs' & Hcase & Hchain);
        [|lia].
      exists (S k), status, p', c'. split; [lia|]. split; [|split].
      * rewrite Hs'. unfold Send_array_ops, Send_array_bytes.
        cbn [seq flat_map map]. rewrite <- Hseq.
        now rewrite <- !app_assoc.
      * right. split; [lia|].
        destruct Hcase as [[-> ->]|(Hpos & Hlt & Hin)].
        -- split; [intros; lia|auto].
        -- split; [intros; apply Hlt; lia|exact Hin].
      * right. destruct Hchain as [[-> Hsame]|(n & sm & -> & Hacc & Hlast)].
        -- assert (Est : status = st1).
           { destruct Hcase as [[_ E]|[Hpos _]]; [exact E|lia]. }
           exists 0%nat, (update s o b st p c).
           split; [reflexivity|]. split; [constructor|].
           rewrite Nat.add_0_r, Hsame, Est, Hok. exact Hbyte.
        -- exists (S n), sm. split; [reflexivity|]. split.
           ++ apply accepted_next
                with (s1 := update s
                              (o ++ Send_ops (clkBit s) (dioBit s)
                                      (nth (len - S todo) data 0)
                                      (eoi && (len - S todo =? len - 1)%nat))
                              (b ++ [nth (len - S todo) data 0]) st1 p1 c1).
              ** exact Hbyte.
              ** rewrite <- Hseq. exact Hacc.
           ++ replace (len - S todo + S n)%nat with (len - todo + n)%nat
                by lia.
              exact Hlast.
    + unfold ret in H. injection H as <- <-.
      exists 1%nat, st1, p1, c1. split; [lia|]. split; [|split].
      * unfold Send_array_ops, Send_array_bytes.
        cbn [seq flat_map map]. now rewrite !app_nil_r.
      * right. split; [lia|]. split; [|exact Hst1'].
        intros _. now apply Z.eqb_neq.
      * right. exists 0%nat, (update s o b st p c).
        split; [reflexivity|]. split; [constructor|].
        rewrite Nat.add_0_r, Hok. exact Hbyte.
Qed.

Lemma Send_array_eq (data : list Z) (len : nat) (eoi : bool) :
  Send_array data len eoi = (Send_array_loop data len eoi len ;; isOk).
Proof. reflexivity. Qed.

Lemma Send_array_update_inv (data : list Z) (len : nat) (eoi : bool)
    (s : state) o b st p c (r : bool) (s' : state) :
  Send_array data len eoi (update s o b st p c) = Some (r, s') ->
  exists k status p' c',
    (k <= len)%nat /\
    s' = update s
           (o ++ Send_array_ops (clkBit s) (dioBit s) data len eoi 0 k)
           (b ++ Send_array_bytes data 0 k) status p' c' /\
    r = (status =? STATUS_OK) /\
    ((len = 0%nat /\ status = st) \/
     ((0 < k)%nat /\
      ((k < len)%nat -> status <> STATUS_OK) /\
      (status = STATUS_OK \/ status = STATUS_FRAMMING_ERROR \/
       (eoi = true /\ status = STATUS_TIMEOUT)))) /\
    ((k = 0%nat /\ s' = update s o b st p c) \/
     (exists n sm,
        k = S n /\
        Send_accepted data len eoi 0 (update s o b st p c) n sm /\
        Send (nth n data 0) (eoi && (n =? len - 1)%nat) sm = Some (r, s'))).
Proof.
  intros H. rewrite Send_array_eq in H.
  apply bind_inv in H as (u & s1 & Hloop & H).
  apply Send_array_loop_update_inv in Hloop
    as (k & status & p' & c' & Hk & Hs1 & Hcase & Hchain); [|lia].
  rewrite Nat.sub_diag in *. cbn [Nat.add] in Hchain.
  rewrite Hs1, isOk_update in H. injection H as <- <-.
  exists k, status, p', c'. rewrite <- Hs1. auto.
Qed.

(** X12.  Whenever the array [Send] of [length] bytes held in [data]
    returns, it has sent the first [k] bytes of the array in order, for
    some [k] up to [length], each with its own handshake, the EOI delay
    being used with the byte at index [length - 1] alone and only when
    [eoi] is set.  It stops at the first byte that fails: every byte
    before the last one sent went out by a single-byte [Send] that
    returned true, and the result and the final state are exactly those
    of the single-byte [Send] of the last byte sent, so that nothing is
    done after a [Send] that returned false.  The result is true exactly
    when the status is Ok, a true result means that all [length] bytes
    were sent, and with [length > 0] at least one byte is sent; with
    [length = 0] the state is left as it was. *)
Theorem Send_array_sends_prefix (data : list Z) (len : nat) (eoi : bool)
    (s s' : state) (r : bool) :
  (len <= length data)%nat ->
  Send_array data len eoi s = Some (r, s') ->
  exists k : nat,
    (k <= len)%nat /\
    sent s' = sent s ++ firstn k data /\
    log s' = log s
             ++ Send_array_ops (clkBit s) (dioBit s) data len eoi 0 k /\
    (r = true <-> m_status s' = STATUS_OK) /\
    (r = true -> k = len) /\
    ((0 < len)%nat -> (0 < k)%nat) /\
    ((k = 0%nat /\ s' = s) \/
     (exists n sm,
        k = S n /\
        Send_accepted data len eoi 0 s n sm /\
        Send (nth n data 0) (eoi && (n =? len - 1)%nat) sm = Some (r, s'))).
Proof.
  intros Hlen H. rewrite (run_from_update (Send_array data len eoi) s) in H.
  apply Send_array_update_inv in H
    as (k & status & p' & c' & Hk & Hs' & -> & Hcase & Hchain).
  rewrite update_self in Hchain.
  exists k. split; [exact Hk|].
  split; [rewrite Hs', update_sent; cbn [app];
          now rewrite Send_array_bytes_firstn by lia|].
  split; [rewrite Hs', update_log; reflexivity|].
  split; [rewrite Hs', update_status; apply Z.eqb_eq|].
  split; [|split].
  - intros Hr. apply Z.eqb_eq in Hr.
    destruct Hcase as [[-> _]|(_ & Hlt & _)]; [lia|].
    destruct (Nat.eq_dec k len) as [E|E]; [exact E|].
    exfalso. apply Hlt; [lia|exact Hr].
  - intros Hpos. destruct Hcase as [[-> _]|(Hk' & _)]; [lia|exact Hk'].
  - exact Hchain.
Qed.

Lemma Send_array_sends_prefix_witness :
  exists k : nat,
    (k <= 2)%nat /\
    sent after_unacknowledged_byte = sent deaf_listener ++ firstn k [7; 66] /\
    log after_unacknowledged_byte
    = log deaf_listener
        ++ Send_array_ops (clkBit deaf_listener) (dioBit deaf_listener)
                          [7; 66] 2 false 0 k /\
    (false = true <-> m_status after_unacknowledged_byte = STATUS_OK) /\
    (false = true -> k = 2%nat) /\
    ((0 < 2)%nat -> (0 < k)%nat) /\
    ((k = 0%nat /\ after_unacknowledged_byte = deaf_listener) \/
     (exists n sm,
        k = S n /\
        Send_accepted [7; 66] 2 false 0 deaf_listener n sm /\
        Send (nth n [7; 66] 0) (false && (n =? 2 - 1)%nat) sm
        = Some (false, after_unacknowledged_byte))).
Proof.
  apply (Send_array_sends_prefix [7; 66] 2 false deaf_listener
           after_unacknowledged_byte false).
  - cbn. lia.
  - vm_compute. reflexivity.
Defined.

(** ** The string form of Send *)

Lemma Send_str_eq (str : list Z) (eoi : bool) :
  Send_str str eoi = Send_array str (strlen str) eoi.
Proof. exact (eq_refl (Send_array str (strlen str) eoi)). Qed.

Lemma strlen_le (str : list Z) : (strlen str <= length str)%nat.
Proof.
  induction str as [|ch str IH]; cbn; [lia|].
  destruct (ch =? 0); lia.
Qed.

Lemma strlen_nonzero (str : list Z) :
  Forall (fun ch => ch <> 0) (firstn (strlen str) str).
Proof.
  induction str as [|ch str IH]; cbn; [constructor|].
  destruct (ch =? 0) eqn:E; cbn; [constructor|].
  constructor; [now apply Z.eqb_neq|exact IH].
Qed.

(** [strlen] counts the characters before the first zero. *)
Lemma strlen_terminated (text rest : list Z) :
  Forall (fun ch => ch <> 0) text ->
  strlen (text ++ 0 :: rest) = length text.
Proof.
  induction 1 as [|ch text Hch _ IH]; [reflexivity|].
  cbn. apply Z.eqb_neq in Hch. now rewrite Hch, IH.
Qed.

Lemma Forall_firstn_le {A} (P : A -> Prop) (l : list A) (k n : nat) :
  (k <= n)%nat -> Forall P (firstn n l) -> Forall P (firstn k l).
Proof.
  revert k n. induction l as [|x l IH]; intros k n Hk H.
  - rewrite firstn_nil. constructor.
  - destruct k as [|k]; [constructor|].
    destruct n as [|n]; [lia|].
    cbn in *. inversion H; subst. constructor; [assumption|].
    apply (IH k n); [lia|assumption].
Qed.

(** X13.  Whenever [Send] of a zero-terminated string [text ++ 0 :: rest]
    returns, the bytes it has sent are the first [k] characters of [text],
    for some [k] up to its length: the terminating zero and what follows
    it are never sent, and no zero byte is sent at all.  A true result
    means that the whole of [text] was sent. *)
Theorem Send_str_stops_before_terminator (text rest : list Z) (eoi : bool)
    (s s' : state) (r : bool) :
  Forall (fun ch => ch <> 0) text ->
  Send_str (text ++ 0 :: rest) eoi s = Some (r, s') ->
  exists k : nat,
    (k <= length text)%nat /\
    sent s' = sent s ++ firstn k text /\
    Forall (fun ch => ch <> 0) (firstn k text) /\
    (r = true <-> m_status s' = STATUS_OK) /\
    (r = true -> sent s' = sent s ++ text).
Proof.
  intros Htext H. rewrite Send_str_eq, (strlen_terminated _ _ Htext) in H.
  rewrite (run_from_update
             (Send_array (text ++ 0 :: rest) (length text) eoi) s) in H.
  apply Send_array_update_inv in H
    as (k & status & p' & c' & Hk & -> & -> & Hcase & _).
  exists k. split; [exact Hk|].
  rewrite update_sent, update_status. cbn [app].
  rewrite Send_array_bytes_firstn by (rewrite length_app; cbn; lia).
  rewrite firstn_app.
  replace (k - length text)%nat with 0%nat by lia.
  cbn [firstn]. rewrite app_nil_r.
  split; [reflexivity|].
  split; [apply (Forall_firstn_le _ _ k (length text) Hk);
          now rewrite firstn_all|].
  split; [apply Z.eqb_eq|].
  intros Hr. apply Z.eqb_eq in Hr.
  assert (E : k = length text).
  { destruct Hcase as [[E _]|(_ & Hlt & _)]; [lia|].
    destruct (Nat.eq_dec k (length text)) as [E|E]; [exact E|].
    exfalso. apply Hlt; [lia|exact Hr]. }
  rewrite E. now rewrite firstn_all.
Qed.

Lemma Send_str_stops_before_terminator_witness :
  exists k : nat,
    (k <= length [72; 73])%nat /\
    sent (after_two_bytes 72 73) = sent tiring_listener ++ firstn k [72; 73] /\
    Forall (fun ch => ch <> 0) (firstn k [72; 73]) /\
    (false = true <-> m_status (after_two_bytes 72 73) = STATUS_OK) /\
    (false = true ->
     sent (after_two_bytes 72 73) = sent tiring_listener ++ [72; 73]).
Proof.
  apply (Send_str_stops_before_terminator [72; 73] [9] false tiring_listener
           (after_two_bytes 72 73) false).
  - repeat constructor; discriminate.
  - vm_compute. reflexivity.
Defined.

(** ** Command, whatever the devices do *)

Lemma Command_eq (cmd : Z) :
  Command cmd
  = (modify (set_status STATUS_OK) ;;
     dio <- get dioBit ;;
     atn <- get atnBit ;;
     clk <- get clkBit ;;
     Release dio ;;
     Assert atn ;;
     Assert clk ;;
     timeout <- WaitAssertionOrTimeout dio TIME_TAT ;;
     if timeout then
       modify (set_status STATUS_NO_DEVICE) ;;
       ReleaseAll ;;
       ret false
     else
       Send cmd false ;;
       delayMicroseconds TIME_TR ;;
       Release atn ;;
       delayMicroseconds TIME_TTK ;;
       isOk).
Proof. reflexivity. Qed.

Lemma Command_array_eq (cmd : list Z) (len : nat) :
  Command_array cmd len
  = (modify (set_status STATUS_OK) ;;
     dio <- get dioBit ;;
     atn <- get atnBit ;;
     clk <- get clkBit ;;
     Release dio ;;
     Assert atn ;;
     Assert clk ;;
     timeout <- WaitAssertionOrTimeout dio TIME_TAT ;;
     if timeout then
       modify (set_status STATUS_NO_DEVICE) ;;
       ReleaseAll ;;
       ret false
     else
       Send_array cmd len false ;;
       delayMicroseconds TIME_TR ;;
       Release atn ;;
       delayMicroseconds TIME_TTK ;;
       isOk).
Proof. reflexivity. Qed.

Lemma Command_update_inv (cmd : Z) (s : state) o b st p c (r : bool)
    (s' : state) :
  Command cmd (update s o b st p c) = Some (r, s') ->
  (exists p' c',
     expired (released (dioBit s)) TIME_TAT p c p' c' /\
     r = false /\
     s' = update s (o ++ Command_start_ops s ++ [OpRelease (all_lines s)])
                 b STATUS_NO_DEVICE p' c') \/
  (exists status p' c',
     r = (status =? STATUS_OK) /\
     (status = STATUS_OK \/ status = STATUS_FRAMMING_ERROR) /\
     s' = update s (o ++ Command_start_ops s
                      ++ Send_ops (clkBit s) (dioBit s) cmd false
                      ++ Command_end_ops s)
                 (b ++ [cmd]) status p' c').
Proof.
  intros H. rewrite Command_eq in H. do 7 hstep H.
  hwait H WaitAssertionOrTimeout_update_inv.
  destruct Hw as (p1 & c1 & Hatn & ->).
  match type of H with
  | (if ?flag then _ else _) _ = _ => destruct flag
  end.
  - left. do 2 hstep H. unfold ret in H. injection H as <- <-.
    exists p1, c1. split; [exact Hatn|]. split; [reflexivity|].
    unfold Command_start_ops. cbn [app]. reflexivity.
  - right. apply bind_inv in H as (ok & s1 & Hsend & H).
    apply Send_update_inv in Hsend as (st1 & p2 & c2 & -> & _ & Hst1).
    cbv beta in H. do 3 hstep H. rewrite isOk_update in H.
    injection H as <- <-.
    exists st1, p2, c2. split; [reflexivity|]. split.
    + destruct Hst1 as [?|[?|[? _]]]; auto. discriminate.
    + unfold Command_start_ops, Command_end_ops. cbn [app].
      now rewrite <- ?app_assoc.
Qed.

Lemma Command_array_update_inv (cmd : list Z) (len : nat) (s : state)
    o b st p c (r : bool) (s' : state) :
  Command_array cmd len (update s o b st p c) = Some (r, s') ->
  (exists p' c',
     expired (released (dioBit s)) TIME_TAT p c p' c' /\
     r = false /\
     s' = update s (o ++ Command_start_ops s ++ [OpRelease (all_lines s)])
                 b STATUS_NO_DEVICE p' c') \/
  (exists k status p' c',
     (k <= len)%nat /\
     r = (status =? STATUS_OK) /\
     (status = STATUS_OK \/ status = STATUS_FRAMMING_ERROR) /\
     ((k < len)%nat -> status <> STATUS_OK) /\
     s' = update s (o ++ Command_start_ops s
                      ++ Send_array_ops (clkBit s) (dioBit s) cmd len false 0 k
                      ++ Command_end_ops s)
                 (b ++ Send_array_bytes cmd 0 k) status p' c' /\
     (len = 0%nat \/ (0 < k)%nat)).
Proof.
  intros H. rewrite Command_array_eq in H. do 7 hstep H.
  hwait H WaitAssertionOrTimeout_update_inv.
  destruct Hw as (p1 & c1 & Hatn & ->).
  match type of H with
  | (if ?flag then _ else _) _ = _ => destruct flag
  end.
  - left. do 2 hstep H. unfold ret in H. injection H as <- <-.
    exists p1, c1. split; [exact Hatn|]. split; [reflexivity|].
    unfold Command_start_ops. cbn [app]. reflexivity.
  - right. apply bind_inv in H as (ok & s1 & Hsend & H).
    apply Send_array_update_inv in Hsend
      as (k & st1 & p2 & c2 & Hk & -> & _ & Hcase & _).
    cbv beta in H. do 3 hstep H. rewrite isOk_update in H.
    injection H as <- <-.
    exists k, st1, p2, c2. split; [exact Hk|]. split; [reflexivity|].
    split; [|split; [|split]].
    + destruct Hcase as [[_ ->]|(_ & _ & [?|[?|[? _]]])]; auto. discriminate.
    + destruct Hcase as [[-> _]|(_ & Hlt & _)]; [lia|exact Hlt].
    + unfold Command_start_ops, Command_end_ops. cbn [app].
      now rewrite <- ?app_assoc.
    + destruct Hcase as [[-> _]|(Hpos & _)]; auto.
Qed.

Lemma lines_released_Release_delay (s : state) (o : list line_op)
    (pins us sub : Z) b st p c :
  (forall i, Z.testbit sub i = true -> Z.testbit pins i = true) ->
  lines_released (update s (o ++ [OpRelease pins; OpDelay us]) b st p c) sub
  = true.
Proof.
  intros Hsub. apply lines_released_iff. intros i Hi Hm.
  destruct (update_regs_app s o [OpRelease pins; OpDelay us] b st p c)
    as [Hp Hd].
  rewrite Hp, Hd. cbn [regs_after fold_left]. rewrite op_regs_delay.
  destruct (op_regs_Release_bits (PORTD (update s o b st p c))
              (DDRD (update s o b st p c)) pins i) as [Hp' Hd']; [lia|].
  rewrite Hp', Hd', (Hsub i Hm).
  destruct (i <? 8) eqn:E; [|apply Z.ltb_ge in E; lia].
  now rewrite orb_true_r, andb_false_r.
Qed.

Lemma atnBit_in_all_lines (s : state) (i : Z) :
  Z.testbit (atnBit s) i = true -> Z.testbit (all_lines s) i = true.
Proof.
  intros H. unfold all_lines. rewrite !Z.lor_spec, H. apply orb_true_r.
Qed.

Lemma Command_ops_end (s : state) (ops : list line_op) :
  ops ++ Command_end_ops s
  = (ops ++ [OpDelay TIME_TR]) ++ [OpRelease (atnBit s); OpDelay TIME_TTK].
Proof. unfold Command_end_ops. now rewrite <- app_assoc. Qed.

(** X14.  Whenever [Command(cmd)] returns, the result is true exactly when
    the status is Ok; the status is Ok, FramingError or NoDevice and never
    Timeout; and Attention is released.  With NoDevice nothing was sent
    and all five lines are released; otherwise exactly [cmd] was sent,
    between the assertion and the release of Attention. *)
Theorem Command_returns_with_attention_released (cmd : Z) (s s' : state)
    (r : bool) :
  Command cmd s = Some (r, s') ->
  (r = true <-> m_status s' = STATUS_OK) /\
  (m_status s' = STATUS_OK \/ m_status s' = STATUS_FRAMMING_ERROR \/
   m_status s' = STATUS_NO_DEVICE) /\
  lines_released s' (atnBit s') = true /\
  (m_status s' = STATUS_NO_DEVICE ->
   sent s' = sent s /\ all_released s' = true) /\
  (m_status s' <> STATUS_NO_DEVICE ->
   sent s' = sent s ++ [cmd] /\
   log s' = log s ++ Command_start_ops s
              ++ Send_ops (clkBit s) (dioBit s) cmd false
              ++ Command_end_ops s).
Proof.
  intros H. rewrite (run_from_update (Command cmd) s) in H.
  apply Command_update_inv in H
    as [(p' & c' & _ & -> & ->)|(status & p' & c' & -> & Hst & ->)].
  - rewrite update_status, update_atnBit, update_sent. cbn [app].
    split; [split; discriminate|]. split; [auto|].
    split; [apply lines_released_update_Release, atnBit_in_all_lines|].
    split; [|intros Hn; now contradiction Hn].
    intros _. split; [apply app_nil_r|apply all_released_after_ReleaseAll].
  - rewrite update_status, update_atnBit, update_sent, update_log. cbn [app].
    split; [apply Z.eqb_eq|]. split; [destruct Hst; auto|].
    split.
    + rewrite app_assoc, Command_ops_end.
      apply lines_released_Release_delay. auto.
    + split.
      * intros Hn. destruct Hst as [E|E]; rewrite E in Hn; discriminate.
      * intros _. split; reflexivity.
Qed.

Lemma Command_returns_with_attention_released_witness :
  (false = true <-> m_status after_no_device = STATUS_OK) /\
  (m_status after_no_device = STATUS_OK \/
   m_status after_no_device = STATUS_FRAMMING_ERROR \/
   m_status after_no_device = STATUS_NO_DEVICE) /\
  lines_released after_no_device (atnBit after_no_device) = true /\
  (m_status after_no_device = STATUS_NO_DEVICE ->
   sent after_no_device = sent silent_bus /\
   all_released after_no_device = true) /\
  (m_status after_no_device <> STATUS_NO_DEVICE ->
   sent after_no_device = sent silent_bus ++ [CMD_UNTALK] /\
   log after_no_device
   = log silent_bus ++ Command_start_ops silent_bus
       ++ Send_ops (clkBit silent_bus) (dioBit silent_bus) CMD_UNTALK false
       ++ Command_end_ops silent_bus).
Proof.
  apply (Command_returns_with_attention_released CMD_UNTALK silent_bus
           after_no_device false).
  vm_compute. reflexivity.
Defined.

(** X15.  Whenever [Command] of the first [length] bytes of an array
    returns, Attention is released and the result is true exactly when the
    status is Ok (never Timeout).  The bytes sent are the first [k] bytes
    of the array, in order and all inside one Attention window; none is
    sent with NoDevice, and a true result means that all [length] bytes
    were sent. *)
Theorem Command_array_sends_prefix (cmd : list Z) (len : nat) (s s' : state)
    (r : bool) :
  (len <= length cmd)%nat ->
  Command_array cmd len s = Some (r, s') ->
  (r = true <-> m_status s' = STATUS_OK) /\
  (m_status s' = STATUS_OK \/ m_status s' = STATUS_FRAMMING_ERROR \/
   m_status s' = STATUS_NO_DEVICE) /\
  lines_released s' (atnBit s') = true /\
  exists k : nat,
    (k <= len)%nat /\
    sent s' = sent s ++ firstn k cmd /\
    (r = true -> k = len) /\
    (m_status s' = STATUS_NO_DEVICE -> k = 0%nat /\ all_released s' = true) /\
    (m_status s' <> STATUS_NO_DEVICE ->
     log s' = log s ++ Command_start_ops s
                ++ Send_array_ops (clkBit s) (dioBit s) cmd len false 0 k
                ++ Command_end_ops s).
Proof.
  intros Hlen H. rewrite (run_from_update (Command_array cmd len) s) in H.
  apply Command_array_update_inv in H
    as [(p' & c' & _ & -> & ->)
       |(k & status & p' & c' & Hk & -> & Hst & Hlt & -> & _)].
  - rewrite update_status, update_atnBit, update_sent. cbn [app].
    split; [split; discriminate|]. split; [auto|].
    split; [apply lines_released_update_Release, atnBit_in_all_lines|].
    exists 0%nat. split; [lia|]. split; [reflexivity|].
    split; [discriminate|].
    split; [|intros Hn; now contradiction Hn].
    intros _. split; [reflexivity|apply all_released_after_ReleaseAll].
  - rewrite update_status, update_atnBit, update_sent, update_log. cbn [app].
    split; [apply Z.eqb_eq|]. split; [destruct Hst; auto|].
    split.
    + rewrite app_assoc, Command_ops_end.
      apply lines_released_Release_delay. auto.
    + exists k. split; [exact Hk|].
      split; [now rewrite Send_array_bytes_firstn by lia|].
      split.
      * intros Hr. apply Z.eqb_eq in Hr.
        destruct (Nat.eq_dec k len) as [E|E]; [exact E|].
        exfalso. apply Hlt; [lia|exact Hr].
      * split; [|intros _; reflexivity].
        intros Hn. destruct Hst as [E|E]; rewrite E in Hn; discriminate.
Qed.

Lemma Command_array_sends_prefix_witness :
  (false = true <-> m_status after_no_device = STATUS_OK) /\
  (m_status after_no_device = STATUS_OK \/
   m_status after_no_device = STATUS_FRAMMING_ERROR \/
   m_status after_no_device = STATUS_NO_DEVICE) /\
  lines_released after_no_device (atnBit after_no_device) = true /\
  exists k : nat,
    (k <= 2)%nat /\
    sent after_no_device = sent silent_bus ++ firstn k [72; 111] /\
    (false = true -> k = 2%nat) /\
    (m_status after_no_device = STATUS_NO_DEVICE ->
     k = 0%nat /\ all_released after_no_device = true) /\
    (m_status after_no_device <> STATUS_NO_DEVICE ->
     log after_no_device
     = log silent_bus ++ Command_start_ops silent_bus
         ++ Send_array_ops (clkBit silent_bus) (dioBit silent_bus)
                           [72; 111] 2 false 0 k
         ++ Command_end_ops silent_bus).
Proof.
  apply (Command_array_sends_prefix [72; 111] 2 silent_bus after_no_device
           false).
  - cbn [length]. lia.
  - vm_compute. reflexivity.
Defined.

(** ** Turnaround and the two forms of Talk *)

Lemma Turnaround_eq :
  Turnaround
  = (clk <- get clkBit ;;
     dio <- get dioBit ;;
     delayMicroseconds TIME_TTK ;;
     Assert dio ;;
     Release clk ;;
     delayMicroseconds TIME_TDC ;;
     timeout <- WaitAssertionOrTimeout clk 1000 ;;
     if timeout then ret false
     else
       delayMicroseconds TIME_TDA ;;
       ret true).
Proof. reflexivity. Qed.

Lemma Turnaround_update_inv (s : state) o b st p c (r : bool) (s' : state) :
  Turnaround (update s o b st p c) = Some (r, s') ->
  exists ta p' c',
    wait_outcome (released (clkBit s)) 1000 ta p c p' c' /\
    r = negb ta /\
    s' = update s (o ++ Turnaround_ops s ta) b
                (if ta then STATUS_TIMEOUT else st) p' c'.
Proof.
  intros H. rewrite Turnaround_eq in H. do 6 hstep H.
  hwait H WaitAssertionOrTimeout_update_inv.
  destruct Hw as (p1 & c1 & Hclk & ->).
  match type of H with
  | (if ?flag then _ else _) _ = _ => exists flag, p1, c1; destruct flag
  end.
  - unfold ret in H. injection H as <- <-.
    split; [exact Hclk|]. split; [reflexivity|].
    unfold Turnaround_ops. cbn [app]. now rewrite <- ?app_assoc, ?app_nil_r.
  - hstep H. unfold ret in H. injection H as <- <-.
    split; [exact Hclk|]. split; [reflexivity|].
    unfold Turnaround_ops. cbn [app]. now rewrite <- ?app_assoc.
Qed.

Lemma handover_regs (port ddr clk dio a b c i : Z) (ta : bool) :
  0 <= i < 8 ->
  (Z.testbit dio i = true -> Z.testbit clk i = false) ->
  (Z.testbit dio i = true ->
   Z.testbit (snd (regs_after ([OpDelay a; OpAssert dio; OpRelease clk;
                                OpDelay b]
                               ++ (if ta then [] else [OpDelay c]))
                              (port, ddr))) i = true /\
   Z.testbit (fst (regs_after ([OpDelay a; OpAssert dio; OpRelease clk;
                                OpDelay b]
                               ++ (if ta then [] else [OpDelay c]))
                              (port, ddr))) i = false) /\
  (Z.testbit clk i = true ->
   Z.testbit (snd (regs_after ([OpDelay a; OpAssert dio; OpRelease clk;
                                OpDelay b]
                               ++ (if ta then [] else [OpDelay c]))
                              (port, ddr))) i = false /\
   Z.testbit (fst (regs_after ([OpDelay a; OpAssert dio; OpRelease clk;
                                OpDelay b]
                               ++ (if ta then [] else [OpDelay c]))
                              (port, ddr))) i = true).
Proof.
  intros Hi Hdisj.
  destruct ta; cbn [app regs_after fold_left op_regs fst snd];
    rewrite !u8_bits, !Z.land_spec, !Z.lor_spec, !Z.lnot_spec, !u8_bits,
      !Z.land_spec, !Z.lor_spec, !Z.lnot_spec by lia;
    (destruct (i <? 8) eqn:E; [|apply Z.ltb_ge in E; lia]);
    (destruct (Z.testbit dio i); [rewrite Hdisj by reflexivity|]);
    destruct (Z.testbit clk i), (Z.testbit port i), (Z.testbit ddr i);
    split; intros; try discriminate; split; reflexivity.
Qed.

(** X16.  With Clock and Data on different pins, a [Turnaround] that
    returns has handed the bus over: the controller holds Data asserted
    and Clock released, whatever the result.  It sends no byte.  The
    result is false exactly when the talker did not assert Clock within
    1000 microseconds, and only then is the status changed, to Timeout;
    the 100 microsecond delay after the handshake is only made on
    success. *)
Theorem Turnaround_hands_the_bus_over (s s' : state) (r : bool) :
  Z.land (clkBit s) (dioBit s) = 0 ->
  Turnaround s = Some (r, s') ->
  lines_asserted s' (dioBit s') = true /\
  lines_released s' (clkBit s') = true /\
  sent s' = sent s /\
  log s' = log s ++ Turnaround_ops s (negb r) /\
  wait_outcome (released (clkBit s)) 1000 (negb r)
               (PIND s) (micros s) (PIND s') (micros s') /\
  m_status s' = (if r then m_status s else STATUS_TIMEOUT).
Proof.
  intros Hdisj H. rewrite (run_from_update Turnaround s) in H.
  apply Turnaround_update_inv in H as (ta & p' & c' & Hclk & -> & ->).
  rewrite update_clkBit, update_dioBit, update_sent, update_log,
    update_PIND, update_micros, update_status, negb_involutive.
  cbn [app].
  destruct (update_regs_app s [] (Turnaround_ops s ta) []
              (if ta then STATUS_TIMEOUT else m_status s) p' c') as [Hp Hd].
  cbn [app] in Hp, Hd.
  split; [|split].
  - apply lines_asserted_iff. intros i Hi Hm. rewrite Hp, Hd.
    apply (handover_regs _ _ (clkBit s) (dioBit s) _ _ _ i ta Hi); auto.
    intros Hdio. apply (proj1 (land_zero_iff _ _) Hdisj i Hdio).
  - apply lines_released_iff. intros i Hi Hm. rewrite Hp, Hd.
    apply (handover_regs _ _ (clkBit s) (dioBit s) _ _ _ i ta Hi); auto.
    intros Hdio. apply (proj1 (land_zero_iff _ _) Hdisj i Hdio).
  - split; [apply app_nil_r|]. split; [reflexivity|].
    split; [exact Hclk|]. now destruct ta.
Qed.

Lemma Turnaround_hands_the_bus_over_witness :
  lines_asserted after_failed_handover (dioBit after_failed_handover) = true /\
  lines_released after_failed_handover (clkBit after_failed_handover) = true /\
  sent after_failed_handover = sent clock_never_taken /\
  log after_failed_handover
  = log clock_never_taken ++ Turnaround_ops clock_never_taken (negb false) /\
  wait_outcome (released (clkBit clock_never_taken)) 1000 (negb false)
               (PIND clock_never_taken) (micros clock_never_taken)
               (PIND after_failed_handover) (micros after_failed_handover) /\
  m_status after_failed_handover
  = (if false then m_status clock_never_taken else STATUS_TIMEOUT).
Proof.
  apply (Turnaround_hands_the_bus_over clock_never_taken
           after_failed_handover false).
  - reflexivity.
  - vm_compute. reflexivity.
Defined.

Lemma Turnaround_status (s s' : state) (r : bool) :
  Turnaround s = Some (r, s') ->
  m_status s' = (if r then m_status s else STATUS_TIMEOUT).
Proof.
  intros H. rewrite (run_from_update Turnaround s) in H.
  apply Turnaround_update_inv in H as (ta & p' & c' & _ & -> & ->).
  rewrite update_status. now destruct ta.
Qed.

Lemma Command_status (cmd : Z) (s s1 : state) (ok : bool) :
  Command cmd s = Some (ok, s1) ->
  (ok = true <-> m_status s1 = STATUS_OK) /\ m_status s1 <> STATUS_TIMEOUT.
Proof.
  intros H. rewrite (run_from_update (Command cmd) s) in H.
  apply Command_update_inv in H
    as [(p' & c' & _ & -> & ->)|(status & p' & c' & -> & Hst & ->)];
    rewrite update_status.
  - split; [split|]; discriminate.
  - split; [apply Z.eqb_eq|]. destruct Hst as [->| ->]; discriminate.
Qed.

Lemma Command_array_status (cmd : list Z) (len : nat) (s s1 : state)
    (ok : bool) :
  Command_array cmd len s = Some (ok, s1) ->
  (ok = true <-> m_status s1 = STATUS_OK) /\ m_status s1 <> STATUS_TIMEOUT.
Proof.
  intros H. rewrite (run_from_update (Command_array cmd len) s) in H.
  apply Command_array_update_inv in H
    as [(p' & c' & _ & -> & ->)
       |(k & status & p' & c' & _ & -> & Hst & _ & -> & _)];
    rewrite update_status.
  - split; [split|]; discriminate.
  - split; [apply Z.eqb_eq|]. destruct Hst as [->| ->]; discriminate.
Qed.

(** A command phase followed by [Turnaround] when it went well. *)
Lemma then_Turnaround (command : M bool) (s s' : state) (r : bool) :
  (forall ok s1, command s = Some (ok, s1) ->
     (ok = true <-> m_status s1 = STATUS_OK) /\
     m_status s1 <> STATUS_TIMEOUT) ->
  bind command (fun ok => if ok then Turnaround else ret false) s
  = Some (r, s') ->
  (r = true <-> m_status s' = STATUS_OK) /\
  (m_status s' = STATUS_TIMEOUT <->
   exists s1, command s = Some (true, s1) /\ Turnaround s1 = Some (false, s')).
Proof.
  intros Hcommand H. apply bind_inv in H as (ok & s1 & Hc & H).
  destruct (Hcommand ok s1 Hc) as [Hok Hnt]. destruct ok.
  - pose proof (Turnaround_status s1 s' r H) as E. destruct r.
    + rewrite E. split; [split; [intros _; now apply Hok|reflexivity]|].
      split; [intros E'; now contradiction Hnt|].
      intros (s2 & Hc2 & Ht2). rewrite Hc in Hc2. injection Hc2 as <-.
      rewrite H in Ht2. discriminate.
    + rewrite E. split; [split; discriminate|].
      split; [|reflexivity]. intros _. exists s1. auto.
  - unfold ret in H. injection H as <- <-.
    split; [exact Hok|]. split; [intros E; now contradiction Hnt|].
    intros (s2 & Hc2 & _). rewrite Hc in Hc2. discriminate.
Qed.

Lemma Talk_eq (pad : Z) :
  Talk pad
  = (ok <- Command (u8 (Z.lor CMD_TALK pad)) ;;
     if ok then Turnaround else ret false).
Proof. reflexivity. Qed.

(** X17.  Whenever [Talk(pad)] returns, its result is true exactly when
    the status is Ok, and the status is Timeout exactly when the command
    byte went through and the [Turnaround] after it failed: a Timeout
    after [Talk] always means that the talker did not take the Clock
    line. *)
Theorem Talk_result_and_status (pad : Z) (s s' : state) (r : bool) :
  Talk pad s = Some (r, s') ->
  (r = true <-> m_status s' = STATUS_OK) /\
  (m_status s' = STATUS_TIMEOUT <->
   exists s1, Command (u8 (Z.lor CMD_TALK pad)) s = Some (true, s1) /\
              Turnaround s1 = Some (false, s')).
Proof.
  intros H. rewrite Talk_eq in H.
  apply (then_Turnaround (Command (u8 (Z.lor CMD_TALK pad))) s s' r);
    [|exact H].
  intros ok s1. apply Command_status.
Qed.

Lemma Talk_result_and_status_witness :
  (false = true <-> m_status after_lost_turnaround = STATUS_OK) /\
  (m_status after_lost_turnaround = STATUS_TIMEOUT <->
   exists s1, Command (u8 (Z.lor CMD_TALK 4)) absent_talker = Some (true, s1) /\
              Turnaround s1 = Some (false, after_lost_turnaround)).
Proof.
  apply (Talk_result_and_status 4 absent_talker after_lost_turnaround false).
  vm_compute. reflexivity.
Defined.

(** X18.  Whenever [Talk(pad, sad)] returns, its result is true exactly
    when the status is Ok, and the status is Timeout exactly when both
    command bytes went through and the [Turnaround] after them failed. *)
Theorem Talk_sad_result_and_status (pad sad : Z) (s s' : state) (r : bool) :
  Talk_sad pad sad s = Some (r, s') ->
  (r = true <-> m_status s' = STATUS_OK) /\
  (m_status s' = STATUS_TIMEOUT <->
   exists s1,
     Command_array [u8 (Z.lor CMD_TALK pad); u8 (Z.lor CMD_SECONDARY sad)] 2 s
     = Some (true, s1) /\
     Turnaround s1 = Some (false, s')).
Proof.
  intros H. rewrite Talk_sad_eq in H.
  apply (then_Turnaround
           (Command_array [u8 (Z.lor CMD_TALK pad);
                           u8 (Z.lor CMD_SECONDARY sad)] 2) s s' r);
    [|exact H].
  intros ok s1. apply Command_array_status.
Qed.

Lemma Talk_sad_result_and_status_witness :
  (false = true <-> m_status after_lost_turnaround_sad = STATUS_OK) /\
  (m_status after_lost_turnaround_sad = STATUS_TIMEOUT <->
   exists s1,
     Command_array [u8 (Z.lor CMD_TALK 4); u8 (Z.lor CMD_SECONDARY 7)] 2
                   absent_talker_sad
     = Some (true, s1) /\
     Turnaround s1 = Some (false, after_lost_turnaround_sad)).
Proof.
  apply (Talk_sad_result_and_status 4 7 absent_talker_sad
           after_lost_turnaround_sad false).
  vm_compute. reflexivity.
Defined.

(** ** The two forms of Listen *)

Lemma Listen_eq (pad : Z) : Listen pad = Command (u8 (Z.lor CMD_LISTEN pad)).
Proof. reflexivity. Qed.

Lemma Listen_sad_eq (pad sad : Z) :
  Listen_sad pad sad
  = Command_array [u8 (Z.lor CMD_LISTEN pad); u8 (Z.lor CMD_SECONDARY sad)] 2.
Proof.
  exact (eq_refl (Command_array [u8 (Z.lor CMD_LISTEN pad);
                                 u8 (Z.lor CMD_SECONDARY sad)] 2)).
Qed.

Lemma end_of_command_regs (port ddr clk dio atn a b c i : Z) (r : Z * Z) :
  r = regs_after [OpRelease dio; OpAssert clk; OpDelay a; OpDelay b;
                  OpRelease atn; OpDelay c] (port, ddr) ->
  0 <= i < 8 ->
  (Z.testbit dio i = true -> Z.testbit clk i = false) ->
  (Z.testbit atn i = true -> Z.testbit clk i = false) ->
  (Z.testbit clk i = true ->
   Z.testbit (snd r) i = true /\ Z.testbit (fst r) i = false) /\
  (Z.testbit dio i = true ->
   Z.testbit (snd r) i = false /\ Z.testbit (fst r) i = true).
Proof.
  intros -> Hi Hdio Hatn. cbn [regs_after fold_left op_regs fst snd].
  rewrite !u8_bits, !Z.land_spec, !Z.lor_spec, !Z.lnot_spec, !u8_bits,
    !Z.land_spec, !Z.lor_spec, !Z.lnot_spec, !u8_bits,
    !Z.land_spec, !Z.lor_spec, !Z.lnot_spec by lia.
  destruct (i <? 8) eqn:E; [|apply Z.ltb_ge in E; lia].
  destruct (Z.testbit dio i), (Z.testbit atn i), (Z.testbit clk i),
    (Z.testbit port i), (Z.testbit ddr i);
    try (specialize (Hdio eq_refl); discriminate);
    try (specialize (Hatn eq_refl); discriminate);
    split; intros; try discriminate; split; reflexivity.
Qed.

Lemma lines_at_end_of_command (s : state) (o : list line_op) b st p c :
  Z.land (clkBit s) (dioBit s) = 0 ->
  Z.land (clkBit s) (atnBit s) = 0 ->
  lines_asserted
    (update s (o ++ [OpRelease (dioBit s); OpAssert (clkBit s);
                     OpDelay TIME_TBB] ++ Command_end_ops s) b st p c)
    (clkBit s) = true /\
  lines_released
    (update s (o ++ [OpRelease (dioBit s); OpAssert (clkBit s);
                     OpDelay TIME_TBB] ++ Command_end_ops s) b st p c)
    (dioBit s) = true.
Proof.
  intros Hcd Hca.
  destruct (update_regs_app s o
              ([OpRelease (dioBit s); OpAssert (clkBit s); OpDelay TIME_TBB]
                 ++ Command_end_ops s) b st p c) as [Hp Hd].
  split; [apply lines_asserted_iff | apply lines_released_iff];
    intros i Hi Hm; rewrite Hp, Hd;
    apply (end_of_command_regs _ _ (clkBit s) (dioBit s) (atnBit s)
             TIME_TBB TIME_TR TIME_TTK i _ eq_refl Hi); auto;
    intros Hbit;
    [apply (proj1 (land_zero_iff _ _) Hcd i Hbit)
    |apply (proj1 (land_zero_iff _ _) Hca i Hbit)
    |apply (proj1 (land_zero_iff _ _) Hcd i Hbit)
    |apply (proj1 (land_zero_iff _ _) Hca i Hbit)].
Qed.

Lemma Send_ops_then (clk dio data : Z) (eoi : bool) (pre post : list line_op) :
  pre ++ Send_ops clk dio data eoi ++ post
  = (pre ++ [OpRelease clk; OpDelay (if eoi then TIME_TRY else TIME_TNE)]
       ++ SendBits_loop_ops clk dio 8 data)
    ++ [OpRelease dio; OpAssert clk; OpDelay TIME_TBB] ++ post.
Proof. rewrite Send_ops_end. now rewrite <- !app_assoc. Qed.

Lemma Send_array_ops_last (clk dio : Z) (data : list Z) (len k : nat) :
  (0 < k)%nat ->
  exists pre d,
    Send_array_ops clk dio data len false 0 k = pre ++ Send_ops clk dio d false.
Proof.
  intros Hk. destruct k as [|k]; [lia|].
  unfold Send_array_ops. rewrite seq_S, flat_map_app.
  cbn [flat_map Nat.add andb]. rewrite app_nil_r.
  eexists _, _. reflexivity.
Qed.

(** X19.  With Clock on a pin of its own, a [Listen] of either form that
    returns after a device answered Attention leaves the controller as
    the talker of the bus: it holds Clock asserted, Data released and
    Attention released, whether or not the command bytes were
    acknowledged. *)
Theorem Listen_leaves_controller_talking (pad sad : Z) (s s' : state)
    (r : bool) :
  Z.land (clkBit s) (dioBit s) = 0 ->
  Z.land (clkBit s) (atnBit s) = 0 ->
  Listen pad s = Some (r, s') \/ Listen_sad pad sad s = Some (r, s') ->
  m_status s' <> STATUS_NO_DEVICE ->
  lines_asserted s' (clkBit s') = true /\
  lines_released s' (dioBit s') = true /\
  lines_released s' (atnBit s') = true.
Proof.
  intros Hcd Hca [H|H] Hdev.
  - rewrite Listen_eq in H.
    rewrite (run_from_update (Command (u8 (Z.lor CMD_LISTEN pad))) s) in H.
    apply Command_update_inv in H
      as [(p' & c' & _ & -> & ->)|(status & p' & c' & -> & Hst & ->)];
      [rewrite update_status in Hdev; now contradiction Hdev|].
    rewrite update_clkBit, update_dioBit, update_atnBit. cbn [app].
    apply and_assoc. split.
    + rewrite Send_ops_then. now apply lines_at_end_of_command.
    + rewrite app_assoc, Command_ops_end.
      apply lines_released_Release_delay. auto.
  - rewrite Listen_sad_eq in H.
    rewrite (run_from_update
               (Command_array [u8 (Z.lor CMD_LISTEN pad);
                               u8 (Z.lor CMD_SECONDARY sad)] 2) s) in H.
    apply Command_array_update_inv in H
      as [(p' & c' & _ & -> & ->)
         |(k & status & p' & c' & _ & -> & Hst & _ & -> & Hk)];
      [rewrite update_status in Hdev; now contradiction Hdev|].
    destruct Hk as [Hk|Hk]; [discriminate|].
    destruct (Send_array_ops_last (clkBit s) (dioBit s)
                [u8 (Z.lor CMD_LISTEN pad); u8 (Z.lor CMD_SECONDARY sad)]
                2 k Hk) as (pre & d & ->).
    rewrite update_clkBit, update_dioBit, update_atnBit. cbn [app].
    apply and_assoc. split.
    + rewrite <- (app_assoc pre), (app_assoc (Command_start_ops s) pre).
      rewrite Send_ops_then. now apply lines_at_end_of_command.
    + rewrite !app_assoc, Command_ops_end.
      apply lines_released_Release_delay. auto.
Qed.

Lemma Listen_leaves_controller_talking_witness :
  lines_asserted after_listen (clkBit after_listen) = true /\
  lines_released after_listen (dioBit after_listen) = true /\
  lines_released after_listen (atnBit after_listen) = true.
Proof.
  apply (Listen_leaves_controller_talking 4 0 attentive_listener after_listen
           true).
  - reflexivity.
  - reflexivity.
  - left. vm_compute. reflexivity.
  - vm_compute. discriminate.
Defined.

(** ** The bit engine *)

Lemma busy_time_app (a b : list line_op) :
  busy_time (a ++ b) = busy_time a + busy_time b.
Proof.
  induction a as [|[pins|pins|us] a IH]; cbn [app busy_time]; lia.
Qed.

Lemma SendBits_loop_ops_busy_time (clk dio : Z) (n : nat) :
  forall data,
    busy_time (SendBits_loop_ops clk dio n data)
    = Z.of_nat n * (TIME_TS / 2 + TIME_TS / 2 + TIME_TV).
Proof.
  induction n as [|n IH]; intros data; [reflexivity|].
  cbn [SendBits_loop_ops]. rewrite busy_time_app, IH.
  cbn [busy_time]. destruct (negb (Z.land data 1 =? 0)); cbn [busy_time]; lia.
Qed.

(** X20.  [SendBits] always returns and never looks at the bus or at the
    clock: it consumes no reading and leaves the status alone.  It only
    operates Clock and Data, and its busy delays add up to the same 720
    microseconds (eight bits of 35 + 35 + 20) for every byte value. *)
Theorem SendBits_takes_constant_time (data : Z) (s : state) :
  exists s',
    SendBits data s = Some (tt, s') /\
    PIND s' = PIND s /\ micros s' = micros s /\ m_status s' = m_status s /\
    log s' = log s ++ SendBits_ops (clkBit s) (dioBit s) data /\
    forallb (clock_data_only (clkBit s) (dioBit s))
            (SendBits_ops (clkBit s) (dioBit s) data) = true /\
    busy_time (SendBits_ops (clkBit s) (dioBit s) data) = 720.
Proof.
  exists (update s ([] ++ SendBits_ops (clkBit s) (dioBit s) data)
                 ([] ++ [data]) (m_status s) (PIND s) (micros s)).
  split; [rewrite (run_from_update (SendBits data) s);
          apply SendBits_update|].
  do 4 (split; [reflexivity|]). unfold SendBits_ops. split.
  - rewrite forallb_app, SendBits_loop_ops_clock_data_only. cbn.
    unfold clock_data_only. now rewrite !Z.eqb_refl, ?orb_true_r.
  - rewrite busy_time_app, SendBits_loop_ops_busy_time. reflexivity.
Qed.

Lemma isReleased_update_nil {B} (pins : Z) (k : bool -> M B)
    (s : state) o b st (c : list Z) :
  bind (isReleased pins) k (update s o b st [] c) = None.
Proof. reflexivity. Qed.

Lemma shiftr_byte (acc : Z) : 0 <= acc <= 255 -> 0 <= Z.shiftr acc 1 <= 255.
Proof.
  intros H. rewrite Z.shiftr_div_pow2 by lia. change (2 ^ 1) with 2.
  split; [apply Z.div_pos; lia|].
  apply Z.le_trans with (m := acc); [|lia].
  apply Z.div_le_upper_bound; lia.
Qed.

Lemma u8_byte (x : Z) : 0 <= u8 x <= 255.
Proof. unfold u8. pose proof (Z.mod_pos_bound x 256). lia. Qed.

Lemma GetBits_loop_update_inv (s : state) o b st (c : list Z) :
  forall (n : nat) (acc : Z) (p : list Z) (v : Z) (s' : state),
    0 <= acc <= 255 ->
    GetBits_loop n acc (update s o b st p c) = Some (v, s') ->
    exists used p',
      p = used ++ p' /\ (3 * n <= length used)%nat /\
      s' = update s o b st p' c /\ 0 <= v <= 255.
Proof.
  induction n as [|n IH]; intros acc p v s' Hacc H.
  - cbn [GetBits_loop] in H. unfold ret in H. injection H as <- <-.
    exists [], p. repeat split; cbn; lia.
  - cbn [GetBits_loop] in H. do 2 hstep H.
    hwait H WaitAssertion_update_inv.
    destruct Hw as (p1 & (lows & l & -> & _ & _) & ->).
    hwait H WaitRelease_update_inv.
    destruct Hw as (p2 & (highs & h & -> & _ & _) & ->).
    destruct p2 as [|q p2]; [rewrite isReleased_update_nil in H; discriminate|].
    rewrite isReleased_update in H.
    apply IH in H as (used & p' & -> & Hlen & -> & Hv).
    + exists (lows ++ l :: highs ++ h :: q :: used), p'.
      split; [now repeat (rewrite <- ?app_assoc, <- ?app_comm_cons)|].
      split; [|auto].
      rewrite !length_app. cbn [length]. rewrite !length_app. cbn [length].
      lia.
    + destruct (lines_high q (dioBit s));
        [apply u8_byte|now apply shiftr_byte].
Qed.

(** X21.  Whenever [GetBits] returns, the value read fits a byte, and the
    call has only listened: it consumed at least 24 readings of the bus
    (three per bit) and changed nothing else, neither the line registers
    nor the status, and it never read the clock, so it has no timeout of
    its own. *)
Theorem GetBits_only_listens (s s' : state) (v : Z) :
  GetBits s = Some (v, s') ->
  0 <= v <= 255 /\
  (exists used, PIND s = used ++ PIND s' /\ (24 <= length used)%nat) /\
  PORTD s' = PORTD s /\ DDRD s' = DDRD s /\ micros s' = micros s /\
  m_status s' = m_status s /\ log s' = log s /\ sent s' = sent s.
Proof.
  intros H. rewrite GetBits_eq, (run_from_update (GetBits_loop 8 0) s) in H.
  apply GetBits_loop_update_inv in H as (used & p' & Hp & Hlen & -> & Hv);
    [|lia].
  split; [exact Hv|]. rewrite update_PIND.
  split; [exists used; split; [exact Hp|lia]|].
  rewrite update_micros, update_status, update_log, update_sent, !app_nil_r.
  repeat split.
Qed.

Lemma GetBits_only_listens_witness :
  0 <= 255 <= 255 /\
  (exists used,
     PIND steady_talker = used ++ PIND (controller [] []) /\
     (24 <= length used)%nat) /\
  PORTD (controller [] []) = PORTD steady_talker /\
  DDRD (controller [] []) = DDRD steady_talker /\
  micros (controller [] []) = micros steady_talker /\
  m_status (controller [] []) = m_status steady_talker /\
  log (controller [] []) = log steady_talker /\
  sent (controller [] []) = sent steady_talker.
Proof.
  apply (GetBits_only_listens steady_talker (controller [] []) 255).
  vm_compute. reflexivity.
Defined.

(** ** Untalk and Unlisten on the wire *)

Lemma Command_then_ReleaseAll_inv (cmd : Z) (s s' : state) (r : bool) :
  (Command cmd ;; ReleaseAll ;; isOk) s = Some (r, s') ->
  (m_status s' = STATUS_NO_DEVICE /\ sent s' = sent s) \/
  ((m_status s' = STATUS_OK \/ m_status s' = STATUS_FRAMMING_ERROR) /\
   sent s' = sent s ++ [cmd] /\
   log s' = log s ++ Command_start_ops s
              ++ Send_ops (clkBit s) (dioBit s) cmd false
              ++ Command_end_ops s ++ [OpRelease (all_lines s)]).
Proof.
  intros H. rewrite (run_from_update (Command cmd ;; ReleaseAll ;; isOk) s) in H.
  apply bind_inv in H as (ok & s1 & Hc & H).
  apply Command_update_inv in Hc
    as [(p' & c' & _ & _ & ->)|(status & p' & c' & _ & Hst & ->)];
    cbv beta in H; hstep H; rewrite isOk_update in H; injection H as <- <-.
  - left. rewrite update_status, update_sent. split; [reflexivity|].
    apply app_nil_r.
  - right. rewrite update_status, update_sent, update_log. cbn [app].
    split; [exact Hst|]. split; [reflexivity|].
    now rewrite <- ?app_assoc.
Qed.

(** X22.  Whenever [Untalk] or [Unlisten] returns, it has either found no
    device and sent nothing, or sent exactly its own command byte (0x5F
    for Untalk, 0x3F for Unlisten) inside one Attention window and then
    released all five lines; the status is never Timeout. *)
Theorem Untalk_Unlisten_send_their_opcode (opcode : Z) (s s' : state)
    (r : bool) :
  (opcode = 0x5F /\ Untalk s = Some (r, s')) \/
  (opcode = 0x3F /\ Unlisten s = Some (r, s')) ->
  (m_status s' = STATUS_NO_DEVICE /\ sent s' = sent s) \/
  ((m_status s' = STATUS_OK \/ m_status s' = STATUS_FRAMMING_ERROR) /\
   sent s' = sent s ++ [opcode] /\
   log s' = log s ++ Command_start_ops s
              ++ Send_ops (clkBit s) (dioBit s) opcode false
              ++ Command_end_ops s ++ [OpRelease (all_lines s)]).
Proof.
  intros [[-> H]|[-> H]]; [rewrite Untalk_eq in H|rewrite Unlisten_eq in H];
    now apply Command_then_ReleaseAll_inv in H.
Qed.

Lemma Untalk_Unlisten_send_their_opcode_witness :
  (m_status after_untalk = STATUS_NO_DEVICE /\
   sent after_untalk = sent attentive_listener) \/
  ((m_status after_untalk = STATUS_OK \/
    m_status after_untalk = STATUS_FRAMMING_ERROR) /\
   sent after_untalk = sent attentive_listener ++ [0x5F] /\
   log after_untalk
   = log attentive_listener ++ Command_start_ops attentive_listener
       ++ Send_ops (clkBit attentive_listener) (dioBit attentive_listener)
                   0x5F false
       ++ Command_end_ops attentive_listener
       ++ [OpRelease (all_lines attentive_listener)]).
Proof.
  apply (Untalk_Unlisten_send_their_opcode 0x5F attentive_listener
           after_untalk true).
  left. split; [reflexivity|]. vm_compute. reflexivity.
Defined.
